(** * simple_streamlit_app: catalogue browser and series downloader

    A shallow embedding of [simple_streamlit_app.py] and the properties of
    its helpers, its filter/sort/reorder pipeline and its download workflow.

    Conventions of the embedding.
    - A Python [str] is a [string]: the UTF-8 bytes of the text; its
      characters are the groups of bytes that encode one code point.
      [str.lower] is exact on what it yields in ASCII and carries the other
      bytes unchanged.
    - A pandas column is a typed list of nullable values ([NumCol] for the
      numeric dtypes, [StrCol] for [object] columns of text); a numeric value
      is a rational.
    - Exceptions are values of [exn]; a call that can raise returns a
      [result].
    - Streamlit output, the network and the file system are threaded through
      an explicit [world]. *)

From Stdlib Require Import ZArith QArith Ascii String List Bool Lia.
From Stdlib Require DecimalString DecimalNat.
From stdpp Require Import base option list strings gmap sorting.

#[local] Arguments String.append !_ _ / : simpl nomatch.

(* ================================================================== *)
(** * Definitions *)
(* ================================================================== *)

(** ** Python string primitives *)

Module Py.

Definition code (c : ascii) : nat := nat_of_ascii c.

Definition in_range (lo hi : nat) (c : ascii) : bool :=
  (lo <=? code c)%nat && (code c <=? hi)%nat.

Definition is_upper (c : ascii) : bool := in_range 65 90 c.
Definition is_lower (c : ascii) : bool := in_range 97 122 c.
Definition is_digit (c : ascii) : bool := in_range 48 57 c.

(** The lower-case form of an ASCII character. *)
Definition lower_char (c : ascii) : ascii :=
  if is_upper c then ascii_of_nat (code c + 32) else c.

(** [s.lower()] as far as the ASCII characters of the result go.  ASCII
    capitals are lowered; of the characters beyond ASCII, only U+0130 (bytes
    196 176, lowered to [i] and U+0307) and U+212A (bytes 226 132 170, lowered
    to [k]) have ASCII in their lower-case form; the other bytes are kept. *)
Fixpoint lower (s : string) : string :=
  match s with
  | EmptyString => EmptyString
  | String c1 s1 =>
      match s1 with
      | EmptyString => String (lower_char c1) EmptyString
      | String c2 s2 =>
          if Ascii.eqb c1 "196" && Ascii.eqb c2 "176"
          then String "i" (String "204" (String "135" (lower s2)))
          else
            match s2 with
            | EmptyString => String (lower_char c1) (lower s1)
            | String c3 s3 =>
                if Ascii.eqb c1 "226" && Ascii.eqb c2 "132" && Ascii.eqb c3 "170"
                then String "k" (lower s3)
                else String (lower_char c1) (lower s1)
            end
      end
  end.

(** [f] applied to every character. *)
Fixpoint map_chars (f : ascii -> ascii) (s : string) : string :=
  match s with
  | EmptyString => EmptyString
  | String c s' => String (f c) (map_chars f s')
  end.

(** [str.isspace] on one character, ASCII range: TAB..CR, FS..US, SPACE. *)
Definition is_space (c : ascii) : bool :=
  in_range 9 13 c || in_range 28 32 c.

Fixpoint lstrip (p : ascii -> bool) (s : string) : string :=
  match s with
  | EmptyString => EmptyString
  | String c s' => if p c then lstrip p s' else s
  end.

Fixpoint rstrip (p : ascii -> bool) (s : string) : string :=
  match s with
  | EmptyString => EmptyString
  | String c s' =>
      match rstrip p s' with
      | EmptyString => if p c then EmptyString else String c EmptyString
      | r => String c r
      end
  end.

(** [s.strip(chars)] for a class [p] of ASCII characters. *)
Definition strip_by (p : ascii -> bool) (s : string) : string :=
  rstrip p (lstrip p s).

(** [sep.join(parts)] *)
Fixpoint join (sep : string) (parts : list string) : string :=
  match parts with
  | [] => ""
  | [p] => p
  | p :: ps => p +:+ sep +:+ join sep ps
  end.

(** [s.startswith(p)] *)
Fixpoint startswith (s p : string) : bool :=
  match p, s with
  | EmptyString, _ => true
  | String a p', String b s' => Ascii.eqb a b && startswith s' p'
  | String _ _, EmptyString => false
  end.

(** [needle in s] *)
Fixpoint contains (needle s : string) : bool :=
  startswith s needle ||
  match s with
  | EmptyString => false
  | String _ s' => contains needle s'
  end.

(** [s.endswith(suf)] *)
Fixpoint endswith (s suf : string) : bool :=
  String.eqb s suf ||
  match s with
  | EmptyString => false
  | String _ s' => endswith s' suf
  end.

(** Truthiness of a [str | None] value: [None] and [""] are falsy. *)
Definition truthy (o : option string) : bool :=
  match o with
  | Some (String _ _) => true
  | _ => false
  end.

(** [s or None] *)
Definition or_none (s : string) : option string :=
  match s with
  | EmptyString => None
  | _ => Some s
  end.

Fixpoint all_chars (p : ascii -> bool) (s : string) : bool :=
  match s with
  | EmptyString => true
  | String c s' => p c && all_chars p s'
  end.

(** The characters of [s] that satisfy [p], in order. *)
Fixpoint keep_chars (p : ascii -> bool) (s : string) : string :=
  match s with
  | EmptyString => EmptyString
  | String c s' => if p c then String c (keep_chars p s') else keep_chars p s'
  end.

(** Does [s] begin, or end, with a character of the class [p]? *)
Definition head_is (p : ascii -> bool) (s : string) : bool :=
  match s with
  | EmptyString => false
  | String c _ => p c
  end.

Fixpoint last_is (p : ascii -> bool) (s : string) : bool :=
  match s with
  | EmptyString => false
  | String c EmptyString => p c
  | String _ s' => last_is p s'
  end.

(** A byte that continues a character in UTF-8. *)
Definition is_cont (c : ascii) : bool := in_range 128 191 c.

(** The characters of a text, as [list(s)] gives them: every byte that
    starts a character, with the continuation bytes that follow it. *)
Fixpoint chars (s : string) : list string :=
  match s with
  | EmptyString => []
  | String b s' =>
      match chars s' with
      | ch :: rest =>
          if head_is is_cont ch then String b ch :: rest
          else String b EmptyString :: ch :: rest
      | [] => [String b EmptyString]
      end
  end.

(** ["".join(l)] *)
Fixpoint unchars (l : list string) : string :=
  match l with
  | [] => EmptyString
  | ch :: l' => ch +:+ unchars l'
  end.

(** [ch.isspace()] for one character: U+0009..U+000D, U+001C..U+0020,
    U+0085, U+00A0, U+1680, U+2000..U+200A, U+2028, U+2029, U+202F, U+205F
    and U+3000, by their bytes. *)
Definition isspace (ch : string) : bool :=
  match ch with
  | String a EmptyString => is_space a
  | String a (String b EmptyString) =>
      (code a =? 194)%nat && ((code b =? 133)%nat || (code b =? 160)%nat)
  | String a (String b (String c EmptyString)) =>
      (code a =? 225)%nat && (code b =? 154)%nat && (code c =? 128)%nat
      || (code a =? 226)%nat && (code b =? 128)%nat
         && (in_range 128 138 c || in_range 168 169 c || (code c =? 175)%nat)
      || (code a =? 226)%nat && (code b =? 129)%nat && (code c =? 159)%nat
      || (code a =? 227)%nat && (code b =? 128)%nat && (code c =? 128)%nat
  | _ => false
  end.

(** The list without its leading, or trailing, elements of the class [p]. *)
Fixpoint ldrop {A} (p : A -> bool) (l : list A) : list A :=
  match l with
  | [] => []
  | x :: l' => if p x then ldrop p l' else l
  end.

Fixpoint rdrop {A} (p : A -> bool) (l : list A) : list A :=
  match l with
  | [] => []
  | x :: l' =>
      match rdrop p l' with
      | [] => if p x then [] else [x]
      | r => x :: r
      end
  end.

(** [s.strip()]: the text without the whitespace characters at its ends. *)
Definition strip (s : string) : string :=
  unchars (rdrop isspace (ldrop isspace (chars s))).

(** A text of whitespace characters only, the empty text included. *)
Definition blank (s : string) : bool := forallb isspace (chars s).

(** A text that does not begin inside a character. *)
Definition boundary (s : string) : bool := negb (head_is is_cont s).


End Py.

(** ** urllib.parse *)

Module Urllib.

(** The characters [quote] never escapes: letters, digits and [_.-~]. *)
Definition always_safe (c : ascii) : bool :=
  Py.is_upper c || Py.is_lower c || Py.is_digit c ||
  Ascii.eqb c "_" || Ascii.eqb c "." || Ascii.eqb c "-" || Ascii.eqb c "~".

Definition hex_digit (n : nat) : ascii :=
  if (n <? 10)%nat then ascii_of_nat (48 + n) else ascii_of_nat (55 + n).

(** ["%XX"], upper-case hexadecimal. *)
Definition percent (c : ascii) : string :=
  String "%" (String (hex_digit (Py.code c / 16))
             (String (hex_digit (Py.code c mod 16)) EmptyString)).

(** [quote_plus(s)] with the default empty [safe]: safe characters are
    kept, a space becomes [+], every other byte is percent-escaped. *)
Definition quote_char (c : ascii) : string :=
  if always_safe c then String c EmptyString
  else if Ascii.eqb c " " then "+"
  else percent c.

Fixpoint quote_plus (s : string) : string :=
  match s with
  | EmptyString => EmptyString
  | String c s' => quote_char c +:+ quote_plus s'
  end.

(** [urlencode(q)] for a dict of text keys and values, in insertion
    order. *)
Definition urlencode (q : list (string * string)) : string :=
  Py.join "&" (map (fun kv => quote_plus kv.1 +:+ "=" +:+ quote_plus kv.2) q).

End Urllib.

(** ** Exceptions and results *)

Inductive exn : Type :=
| RuntimeError (msg : string)
| ValueError (msg : string)
| KeyError (msg : string)
| AttributeError (msg : string)
| ReError (msg : string)
| EmptyDataError (msg : string)
| OSError (msg : string)
| RequestException (msg : string).

(** [str(e)] *)
Definition exn_str (e : exn) : string :=
  match e with
  | RuntimeError m | ValueError m | KeyError m | AttributeError m | ReError m
  | EmptyDataError m | OSError m | RequestException m => m
  end.

Inductive result (A : Type) : Type :=
| Ok (a : A)
| Err (e : exn).
Arguments Ok {A} a.
Arguments Err {A} e.

(** ** pandas: frames, columns and the operations the application calls *)

Module Pandas.

(** A column with its dtype: numbers (with NaN as [None]) or text (with
    the missing value as [None]). *)
Inductive column : Type :=
| NumCol (vals : list (option Q))
| StrCol (vals : list (option string)).

(** A frame: the row labels and the named columns, in display order. *)
Record DataFrame : Type := {
  index : list nat;
  data : list (string * column);
}.

Definition columns (df : DataFrame) : list string := map fst (data df).
Definition nrows (df : DataFrame) : nat := length (index df).

Definition col_length (c : column) : nat :=
  match c with
  | NumCol v => length v
  | StrCol v => length v
  end.

(** [name in df.columns] *)
Definition has_column (name : string) (df : DataFrame) : bool :=
  bool_decide (name ∈ columns df).

(** [df[name]] for one label. *)
Fixpoint assoc (name : string) (d : list (string * column)) : option column :=
  match d with
  | [] => None
  | (n, c) :: d' => if String.eqb n name then Some c else assoc name d'
  end.

Definition getitem (name : string) (df : DataFrame) : result column :=
  match assoc name (data df) with
  | Some c => Ok c
  | None => Err (KeyError name)
  end.

(** [df[name] = c]: replaces the column in place, or appends a new one. *)
Fixpoint assign (name : string) (c : column) (d : list (string * column))
    : list (string * column) :=
  match d with
  | [] => [(name, c)]
  | (n, c') :: d' =>
      if String.eqb n name then (n, c) :: d' else (n, c') :: assign name c d'
  end.

Definition setitem (name : string) (c : column) (df : DataFrame) : DataFrame :=
  {| index := index df; data := assign name c (data df) |}.

(** [df[name] = 0]: the scalar is broadcast over the rows. *)
Definition scalar_column (q : Q) (df : DataFrame) : column :=
  NumCol (replicate (nrows df) (Some q)).

(** [pd.to_numeric(c, errors="coerce")]: numbers are kept, text is parsed
    by [to_number], what does not parse becomes NaN. *)
Definition to_numeric (to_number : string -> option Q) (c : column) : column :=
  match c with
  | NumCol v => NumCol v
  | StrCol v => NumCol (map (fun o => o ≫= to_number) v)
  end.

(** [c.fillna(q)] *)
Definition fillna (q : Q) (c : column) : column :=
  match c with
  | NumCol v => NumCol (map (fun o => Some (default q o)) v)
  | StrCol v => StrCol v
  end.

(** Positional selection of rows: [take] with an indexer. *)
Definition take_list {A} (indexer : list nat) (l : list A) : list A :=
  omap (fun i => l !! i) indexer.

Definition take_column (indexer : list nat) (c : column) : column :=
  match c with
  | NumCol v => NumCol (take_list indexer v)
  | StrCol v => StrCol (take_list indexer v)
  end.

Definition take_rows (indexer : list nat) (df : DataFrame) : DataFrame :=
  {| index := take_list indexer (index df);
     data := map (fun nc => (nc.1, take_column indexer nc.2)) (data df) |}.

(** [df[mask]] for a boolean mask: the positions where the mask holds. *)
Fixpoint mask_positions (from : nat) (mask : list bool) : list nat :=
  match mask with
  | [] => []
  | b :: m => (if b then [from] else []) ++ mask_positions (S from) m
  end.

Definition select_mask (mask : list bool) (df : DataFrame) : DataFrame :=
  take_rows (mask_positions 0 mask) df.

(** [df[names]] for a list of labels: for each label, the columns that
    carry it; a label without a column raises [KeyError]. *)
Definition with_label (d : list (string * column)) (n : string)
    : list (string * column) :=
  filter (fun nc => nc.1 = n) d.

Fixpoint select_columns_data (names : list string) (d : list (string * column))
    : result (list (string * column)) :=
  match names with
  | [] => Ok []
  | n :: ns =>
      match with_label d n with
      | [] => Err (KeyError n)
      | cs => match select_columns_data ns d with
              | Ok r => Ok (cs ++ r)
              | Err e => Err e
              end
      end
  end.

Definition select_columns (names : list string) (df : DataFrame) : result DataFrame :=
  match select_columns_data names (data df) with
  | Ok d => Ok {| index := index df; data := d |}
  | Err e => Err e
  end.

End Pandas.

(** ** A plain CSV reader

    The reader stands for [pd.read_csv(..., on_bad_lines="skip")] on the
    files it covers: lines ended by a line feed, fields separated by commas,
    no quoting, a header of distinct names.  Blank lines are dropped, a line
    with more fields than the header is skipped, a shorter one is padded with
    missing values, and a column is numeric when every field present in it is
    a decimal literal. *)

Module Csv.

(** [s.split(sep)] for a one-character separator. *)
Fixpoint split_on (sep : ascii) (s : string) : list string :=
  match s with
  | EmptyString => [EmptyString]
  | String c s' =>
      if Ascii.eqb c sep then EmptyString :: split_on sep s'
      else match split_on sep s' with
           | w :: ws => String c w :: ws
           | [] => [String c EmptyString]
           end
  end.

(** The value of a run of decimal digits, with the number of digits. *)
Fixpoint digits (acc : N) (s : string) : option N :=
  match s with
  | EmptyString => Some acc
  | String c s' =>
      if Py.is_digit c then digits (acc * 10 + N.of_nat (Py.code c - 48)) s'
      else None
  end.

Fixpoint pow10 (n : nat) : positive :=
  match n with
  | O => 1%positive
  | S n' => (10 * pow10 n')%positive
  end.

Definition unsigned_decimal (s : string) : option Q :=
  match split_on "." s with
  | [i] =>
      match i with
      | EmptyString => None
      | _ => (fun n => inject_Z (Z.of_N n)) <$> digits 0 i
      end
  | [i; f] =>
      match (i +:+ f)%string with
      | EmptyString => None
      | _ =>
          (fun n => Qmake (Z.of_N n) (pow10 (String.length f)))
            <$> digits 0 (i +:+ f)
      end
  | _ => None
  end.

(** Decimal literals: an optional sign, digits, an optional fraction. *)
Definition parse_number (s : string) : option Q :=
  match s with
  | String "-" r => Qopp <$> unsigned_decimal r
  | String "+" r => unsigned_decimal r
  | _ => unsigned_decimal s
  end.

(** The spellings read as a missing value. *)
Definition na_values : list string :=
  [""; "#N/A"; "#N/A N/A"; "#NA"; "-1.#IND"; "-1.#QNAN"; "-NaN"; "-nan";
   "1.#IND"; "1.#QNAN"; "<NA>"; "N/A"; "NA"; "NULL"; "NaN"; "None"; "n/a";
   "nan"; "null"].

Definition field_value (f : string) : option string :=
  if bool_decide (f ∈ na_values) then None else Some f.

Definition is_numeric_field (o : option string) : bool :=
  match o with
  | None => true
  | Some f => bool_decide (is_Some (parse_number f))
  end.

Definition infer_column (fields : list string) : Pandas.column :=
  let vals := map field_value fields in
  if negb (bool_decide (fields = [])) && forallb is_numeric_field vals
  then Pandas.NumCol (map (fun o => o ≫= parse_number) vals)
  else Pandas.StrCol vals.

Definition read_csv (bytes : string) : result Pandas.DataFrame :=
  let lines := filter (fun l => l ≠ EmptyString) (split_on "010" bytes) in
  match lines with
  | [] => Err (EmptyDataError "No columns to parse from file")
  | header :: rows =>
      let names := split_on "," header in
      let good := filter (fun r => length r ≤ length names)
                    (map (split_on ",") rows) in
      Ok {| Pandas.index := seq 0 (length good);
            Pandas.data :=
              imap (fun i name =>
                      (name, infer_column (map (fun r => default EmptyString (r !! i)) good)))
                   names |}
  end.

End Csv.

(** ** Regular expressions: the patterns the model evaluates itself

    Patterns made of plain characters, [.] and escaped punctuation, matched
    with [re.IGNORECASE] against any text, character by character.
    Everything else (repetition, classes, groups, alternation, anchors) is
    left to the matcher the application is run with, and so is the case table
    for the pattern characters beyond ASCII. *)

Module Re.

Inductive atom : Type :=
| Lit (ch : string)
| AnyChar.

(** The characters with a meaning of their own in a pattern. *)
Definition is_meta (c : ascii) : bool :=
  bool_decide (c ∈ [".";"^";"$";"*";"+";"?";"{";"}";"[";"]";"\";"|";"(";")"]%char).

Definition is_ascii (c : ascii) : bool := (Py.code c <? 128)%nat.

Definition is_alnum (c : ascii) : bool :=
  Py.is_upper c || Py.is_lower c || Py.is_digit c.

Definition meta_char (ch : string) : bool :=
  match ch with
  | String c EmptyString => is_meta c
  | _ => false
  end.

(** A character that a backslash turns into itself. *)
Definition escapable (ch : string) : bool :=
  match ch with
  | String d EmptyString => is_ascii d && negb (is_alnum d)
  | _ => false
  end.

(** The patterns evaluated here, from the characters of the pattern:
    literal characters, escaped punctuation and the dot. *)
Fixpoint compile_simple (pat : list string) : option (list atom) :=
  match pat with
  | [] => Some []
  | ch :: rest =>
      if String.eqb ch "." then cons AnyChar <$> compile_simple rest
      else if String.eqb ch "\" then
        match rest with
        | d :: rest' =>
            if escapable d then cons (Lit d) <$> compile_simple rest'
            else None
        | [] => None
        end
      else if meta_char ch then None
      else cons (Lit ch) <$> compile_simple rest
  end.


(** U+0130, U+0131, U+017F and U+212A: the characters beyond ASCII that the
    engine, ignoring case, takes for [i], [i], [s] and [k]. *)
Definition dotted_I : string := String "196" (String "176" EmptyString).
Definition dotless_i : string := String "196" (String "177" EmptyString).
Definition long_s : string := String "197" (String "191" EmptyString).
Definition kelvin : string := String "226" (String "132" (String "170" EmptyString)).

(** Whether the character [x] of a text is the ASCII character [a] of a
    pattern, letter case apart. *)
Definition ascii_same (a : ascii) (x : string) : bool :=
  match x with
  | String b EmptyString => Ascii.eqb (Py.lower_char a) (Py.lower_char b)
  | _ =>
      Ascii.eqb (Py.lower_char a) "i" && (String.eqb x dotted_I || String.eqb x dotless_i)
      || Ascii.eqb (Py.lower_char a) "s" && String.eqb x long_s
      || Ascii.eqb (Py.lower_char a) "k" && String.eqb x kelvin
  end.

Section Engine.
(** The same test for a pattern character beyond ASCII: it follows the case
    tables of Unicode. *)
Variable unicode_same : string -> string -> bool.

Definition same_letter (p x : string) : bool :=
  match p with
  | String a EmptyString => if is_ascii a then ascii_same a x else unicode_same p x
  | _ => unicode_same p x
  end.

Definition match_atom (a : atom) (x : string) : bool :=
  match a with
  | Lit p => same_letter p x
  | AnyChar => negb (String.eqb x (String "010" EmptyString))
  end.

Fixpoint match_here (atoms : list atom) (t : list string) : bool :=
  match atoms, t with
  | [], _ => true
  | a :: atoms', x :: t' => match_atom a x && match_here atoms' t'
  | _ :: _, [] => false
  end.

(** [regex.search(t) is not None], on the characters of [t]. *)
Fixpoint search (atoms : list atom) (t : list string) : bool :=
  match_here atoms t ||
  match t with
  | [] => false
  | _ :: t' => search atoms t'
  end.

End Engine.

End Re.

(** ** Global configuration *)

Definition CATALOG_URL : string :=
  "https://apis.datos.gob.ar/series/api/dump/series-tiempo-metadatos.csv".
Definition API_BASE : string :=
  "https://apis.datos.gob.ar/series/api/series?format=csv&".

Definition _EMBEDDED_CSV : string :=
  "serie_id,serie_titulo,dataset_tema,dataset_descripcion,serie_descripcion,consultas_90_dias
TEST123,Serie de ejemplo,Actividad,Dataset de prueba,Desc corta,999
".

(** ** The world: what Streamlit shows, the network, the files *)

Inductive place : Type := Page | Sidebar.

(** [st.success], [st.info], [st.warning], [st.error]. *)
Inductive level : Type := Success | Info | Warning | Error.

(** The regular files by path, the directories, and the paths that can be
    opened for writing (the parent directory exists, permissions allow). *)
Record fsys : Type := {
  files : gmap string string;
  dirs : gset string;
  writable : string -> bool;
}.

Inductive event : Type :=
| Shown (at_ : place) (lv : level) (text : string)
| Fetched (url : string)
| Wrote (path content : string)
| Ran (argv : list string) (returncode : Z).

(** The state threaded through the script; [trace] is in order of time. *)
Record world : Type := {
  fs : fsys;
  trace : list event;
}.

Definition log (e : event) (w : world) : world :=
  {| fs := fs w; trace := trace w ++ [e] |}.

(** Computations that may raise. *)
Definition M (A : Type) : Type := world -> result A * world.

Definition ret {A} (a : A) : M A := fun w => (Ok a, w).
Definition raise {A} (e : exn) : M A := fun w => (Err e, w).

Definition bind {A B} (c : M A) (k : A -> M B) : M B :=
  fun w => match c w with
           | (Ok a, w') => k a w'
           | (Err e, w') => (Err e, w')
           end.

(** [try: c  except Exception as e: h e] *)
Definition try_except {A} (c : M A) (h : exn -> M A) : M A :=
  fun w => match c w with
           | (Ok a, w') => (Ok a, w')
           | (Err e, w') => h e w'
           end.

Definition emit (e : event) : M unit := fun w => (Ok tt, log e w).

(** [os.path.exists(path)] *)
Definition path_exists (path : string) (f : fsys) : bool :=
  bool_decide (is_Some (files f !! path) \/ path ∈ dirs f).

Definition os_path_exists (path : string) : M bool :=
  fun w => (Ok (path_exists path (fs w)), w).

(** [with open(path, "w") as f: f.write(content)]: the file is created or
    replaced; opening a path that is not writable raises [OSError]. *)
Definition write_file (path content : string) : M unit :=
  fun w =>
    if writable (fs w) path then
      (Ok tt,
       {| fs := {| files := <[path := content]> (files (fs w));
                   dirs := dirs (fs w);
                   writable := writable (fs w) |};
          trace := trace w ++ [Wrote path content] |})
    else (Err (OSError path), w).

(** The outcome of [subprocess.run(argv, capture_output=True, text=True)]. *)
Record completed : Type := {
  returncode : Z;
  stderr : string;
}.

Definition lift {A} (r : result A) : M A := fun w => (r, w).

Notation "'let*' x ':=' c 'in' k" := (bind c (fun x => k))
  (at level 10, x pattern, c at level 100, k at level 200).
Notation "c ';;' k" := (bind c (fun _ => k))
  (at level 100, k at level 200, right associativity).

(** The [requests] module, when it is installed.  A request either fails
    with an exception of the library or yields a response; the answer may
    depend on what happened before. *)
Record response : Type := {
  status_code : nat;
  content : string;
}.

Record requests_module : Type := {
  respond : list event -> string -> string + response;
}.

(** [requests.get(url, timeout=60)] *)
Definition requests_get (rq : requests_module) (url : string) : M response :=
  fun w => match respond rq (trace w) url with
           | inl msg => (Err (RequestException msg), log (Fetched url) w)
           | inr r => (Ok r, log (Fetched url) w)
           end.

(** [r.raise_for_status()]: an [HTTPError] (a [RequestException]) for the
    4xx and 5xx codes.  The message keeps the kind of error and the URL. *)
Definition raise_for_status (url : string) (r : response) : M unit :=
  if (400 <=? status_code r)%nat && (status_code r <? 600)%nat then
    raise (RequestException
             ((if (status_code r <? 500)%nat then "Client Error" else "Server Error")
              +:+ " for url: " +:+ url))
  else ret tt.

(** ** Helpers *)

(** [q[key] = v] on a dict that has no [key] yet, guarded by [if v:]. *)
Definition set_if_truthy (key : string) (v : option string)
    (q : list (string * string)) : list (string * string) :=
  match v with
  | Some (String _ _ as s) => q ++ [(key, s)]
  | _ => q
  end.

Definition build_api_url (serie_id : string) (start end_ : option string) : string :=
  let q := [("ids", serie_id)] in
  let q := set_if_truthy "start_date" start q in
  let q := set_if_truthy "end_date" end_ q in
  API_BASE +:+ Urllib.urlencode q.

(** The query parameter the interface description gives for an optional
    date: [&key=value] when the value is non-empty, nothing otherwise. *)
Definition optional_param (key : string) (v : option string) : string :=
  match v with
  | Some (String _ _ as s) => "&" +:+ key +:+ "=" +:+ Urllib.quote_plus s
  | _ => ""
  end.

(** [load_catalog] and [download_series] depend on the CSV reader and the
    numeric parser of pandas and on whether [requests] could be imported.
    The memoising decorator is left out: the definitions describe the call
    that computes the value. *)

Section Catalog.
Variable read_csv : string -> result Pandas.DataFrame.
Variable to_number : string -> option Q.
Variable requests : option requests_module.

Definition load_catalog : M Pandas.DataFrame :=
  let* csv_bytes :=
    match requests with
    | None =>
        emit (Shown Page Warning "No se encontró *requests*. Se usará el CSV embebido.") ;;
        ret _EMBEDDED_CSV
    | Some rq =>
        try_except
          (let* r := requests_get rq CATALOG_URL in
           raise_for_status CATALOG_URL r ;;
           ret (content r))
          (fun e =>
             emit (Shown Page Warning
                     ("Fallo descarga catálogo → " +:+ exn_str e
                      +:+ ". Se usará versión mínima.")) ;;
             ret _EMBEDDED_CSV)
    end in
  let* df := lift (read_csv csv_bytes) in
  let df :=
    if negb (Pandas.has_column "consultas_90_dias" df)
    then Pandas.setitem "consultas_90_dias" (Pandas.scalar_column 0 df) df
    else df in
  let* c := lift (Pandas.getitem "consultas_90_dias" df) in
  ret (Pandas.setitem "consultas_90_dias"
         (Pandas.fillna 0 (Pandas.to_numeric to_number c)) df).

Definition download_series (url : string) : M string :=
  match requests with
  | None =>
      raise (RuntimeError "Necesitas la librería *requests* para descargar las series.")
  | Some rq =>
      let* r := requests_get rq url in
      raise_for_status url r ;;
      ret (content r)
  end.

End Catalog.

(** ** Filters and order (section 4 of the script) *)

(** What the regular-expression engine does beyond what [Re] evaluates:
    the search with a pattern [Re] does not compile (whether it is found, or
    the error raised), and the comparison, letter case apart, of a pattern
    character beyond ASCII with a character of the text. *)
Record regex_rest : Type := {
  search_other : string -> string -> result bool;
  unicode_same : string -> string -> bool;
}.

Section Filters.
Variable re_rest : regex_rest.

(** [re.compile(pat, re.IGNORECASE).search(text) is not None] *)
Definition re_search_ignorecase (pat text : string) : result bool :=
  match Re.compile_simple (Py.chars pat) with
  | Some atoms => Ok (Re.search (unicode_same re_rest) atoms (Py.chars text))
  | None => search_other re_rest pat text
  end.

Fixpoint contains_mask (pat : string) (vals : list (option string))
    : result (list bool) :=
  match vals with
  | [] => Ok []
  | o :: vals' =>
      match (match o with
             | Some t => re_search_ignorecase pat t
             | None => Ok false
             end) with
      | Err e => Err e
      | Ok b => match contains_mask pat vals' with
                | Ok m => Ok (b :: m)
                | Err e => Err e
                end
      end
  end.

(** [col.str.contains(pat, case=False, na=False)]: the pattern is a
    regular expression, as [regex] is left to its default. *)
Definition str_contains (pat : string) (c : Pandas.column) : result (list bool) :=
  match c with
  | Pandas.NumCol _ =>
      Err (AttributeError "Can only use .str accessor with string values!")
  | Pandas.StrCol vals => contains_mask pat vals
  end.

(** Lines 146-148. *)
Definition text_filter (query : string) (filtered : Pandas.DataFrame)
    : result Pandas.DataFrame :=
  match query with
  | EmptyString => Ok filtered
  | _ =>
      match Pandas.getitem "serie_titulo" filtered with
      | Err e => Err e
      | Ok c =>
          match str_contains query c with
          | Err e => Err e
          | Ok mask => Ok (Pandas.select_mask mask filtered)
          end
      end
  end.

End Filters.

Section Sort.
(** [a.argsort(kind="quicksort")] of numpy on an array whose elements
    are compared by [leb]; [sort_values] is called without [kind], so this
    default is the algorithm that runs. *)
Variable argsort : forall K : Type, (K -> K -> bool) -> list K -> list nat.

Definition isna {K} (o : option K) : bool :=
  match o with
  | None => true
  | Some _ => false
  end.

(** [nargsort(items, kind="quicksort", ascending, na_position="last")] of
    [pandas.core.sorting]. *)
Definition nargsort {K} (leb : K -> K -> bool) (items : list (option K))
    (ascending : bool) : list nat :=
  let mask := map isna items in
  let non_nans := omap id items in
  let non_nan_idx := Pandas.mask_positions 0 (map negb mask) in
  let nan_idx := Pandas.mask_positions 0 mask in
  let non_nans := if ascending then non_nans else reverse non_nans in
  let non_nan_idx := if ascending then non_nan_idx else reverse non_nan_idx in
  let indexer := Pandas.take_list (argsort K leb non_nans) non_nan_idx in
  let indexer := if ascending then indexer else reverse indexer in
  indexer ++ nan_idx.

(** Line 156: [filtered.sort_values(order_col, ascending=asc,
    na_position="last")]. *)
Definition sort_values (order_col : string) (asc : bool) (filtered : Pandas.DataFrame)
    : result Pandas.DataFrame :=
  match Pandas.getitem order_col filtered with
  | Err e => Err e
  | Ok (Pandas.NumCol v) => Ok (Pandas.take_rows (nargsort Qle_bool v asc) filtered)
  | Ok (Pandas.StrCol v) => Ok (Pandas.take_rows (nargsort String.leb v asc) filtered)
  end.

End Sort.

(** What numpy promises of [argsort] whatever the [kind]: the indices are
    a permutation of the positions and list the elements in order. *)
Definition sorts (argsort : forall K : Type, (K -> K -> bool) -> list K -> list nat)
    : Prop :=
  forall (K : Type) (leb : K -> K -> bool) (l : list K),
    (forall a b, leb a b = true \/ leb b a = true) ->
    (forall a b c, leb a b = true -> leb b c = true -> leb a c = true) ->
    argsort K leb l ≡ₚ seq 0 (length l)
    /\ StronglySorted (fun a b => leb a b = true) (Pandas.take_list (argsort K leb l) l).

(** The keys of a sorted frame: the present values in the requested
    direction, then the missing ones. *)
Definition sorted_then_missing {K} (leb : K -> K -> bool) (ascending : bool)
    (keys : list (option K)) : Prop :=
  exists present m,
    keys = map Some present ++ replicate m None
    /\ StronglySorted
         (fun a b => if ascending then leb a b = true else leb b a = true) present.



(** A sorting routine that meets [sorts] and lists equal elements from the
    last to the first: the pairs of position and element are ordered by
    element, then by decreasing position. *)
Definition ties_reversed {K} (leb : K -> K -> bool) (p q : nat * K) : Prop :=
  leb p.2 q.2 && (negb (leb q.2 p.2) || (q.1 <=? p.1)%nat) = true.

#[global] Instance ties_reversed_dec {K} (leb : K -> K -> bool) (p q : nat * K) :
  Decision (ties_reversed leb p q).
Proof. unfold ties_reversed. apply _. Defined.

Definition argsort_ties_reversed (K : Type) (leb : K -> K -> bool) (l : list K)
    : list nat :=
  (merge_sort (ties_reversed leb) (zip (seq 0 (length l)) l)).*1.

(** ** numpy: the argsort that runs by default

    [aquicksort] of numpy's [npysort/quicksort.cpp], the routine behind
    [a.argsort(kind="quicksort")] where no vectorised sort is dispatched:
    median of three, partition, insertion sort for 17 elements or fewer, an
    explicit stack of the partitions left to sort.  [tosort] is a list of
    indices into the keys [v], positions in it are integers, and every loop
    carries the number of rounds it may run ([None] when they are used up).
    When the depth limit is reached numpy goes on with a heap sort, which is
    not modelled: the result is [None] then. *)

Module Numpy.

Section Quicksort.
Context {K : Type} (less : K -> K -> bool) (v : list K).

(** [Tag::less(v[i], v[j])] *)
Definition less_at (i j : nat) : bool :=
  match v !! i, v !! j with
  | Some a, Some b => less a b
  | _, _ => false
  end.

Definition get (a : list nat) (p : Z) : nat := default 0 (a !! Z.to_nat p).
Definition set (a : list nat) (p : Z) (x : nat) : list nat := <[Z.to_nat p := x]> a.

(** [INTP_SWAP] of the entries at two positions. *)
Definition swap (a : list nat) (p q : Z) : list nat :=
  set (set a p (get a q)) q (get a p).

Definition SMALL_QUICKSORT : Z := 16.

(** The three comparisons that put the median of [*pl], [*pm], [*pr] at
    [pm]. *)
Definition median3 (a : list nat) (pl pm pr : Z) : list nat :=
  let a := if less_at (get a pm) (get a pl) then swap a pm pl else a in
  let a := if less_at (get a pr) (get a pm) then swap a pr pm else a in
  let a := if less_at (get a pm) (get a pl) then swap a pm pl else a in
  a.

(** [do { ++pi; } while (less(v[*pi], vp));] with [vp = v[ip]]. *)
Fixpoint scan_up (fuel : nat) (a : list nat) (ip : nat) (pi : Z) : option Z :=
  match fuel with
  | O => None
  | S fuel =>
      let pi := (pi + 1)%Z in
      if less_at (get a pi) ip then scan_up fuel a ip pi else Some pi
  end.

(** [do { --pj; } while (less(vp, v[*pj]));] *)
Fixpoint scan_down (fuel : nat) (a : list nat) (ip : nat) (pj : Z) : option Z :=
  match fuel with
  | O => None
  | S fuel =>
      let pj := (pj - 1)%Z in
      if less_at ip (get a pj) then scan_down fuel a ip pj else Some pj
  end.

(** The [for (;;)] loop of the partition. *)
Fixpoint partition_loop (fuel : nat) (a : list nat) (ip : nat) (pi pj : Z)
    : option (list nat * Z) :=
  match fuel with
  | O => None
  | S fuel =>
      match scan_up (S (length a)) a ip pi with
      | None => None
      | Some pi =>
          match scan_down (S (length a)) a ip pj with
          | None => None
          | Some pj =>
              if (pi >=? pj)%Z then Some (a, pi)
              else partition_loop fuel (swap a pi pj) ip pi pj
          end
      end
  end.

(** One round of [while ((pr - pl) > SMALL_QUICKSORT)]: the array after the
    partition and the place of the pivot. *)
Definition partition (a : list nat) (pl pr : Z) : option (list nat * Z) :=
  let pm := (pl + Z.shiftr (pr - pl) 1)%Z in
  let a := median3 a pl pm pr in
  let ip := get a pm in
  let pj := (pr - 1)%Z in
  let a := swap a pm pj in
  match partition_loop (S (length a)) a ip pl pj with
  | None => None
  | Some (a, pi) => Some (swap a pi (pr - 1)%Z, pi)
  end.

(** [while (pj > pl && less(vp, v[*pk])) { *pj-- = *pk--; }] with
    [pk = pj - 1]. *)
Fixpoint shift_up (fuel : nat) (a : list nat) (ip : nat) (pl pj : Z)
    : option (list nat * Z) :=
  match fuel with
  | O => None
  | S fuel =>
      if (pj >? pl)%Z && less_at ip (get a (pj - 1)%Z)
      then shift_up fuel (set a pj (get a (pj - 1)%Z)) ip pl (pj - 1)%Z
      else Some (a, pj)
  end.

(** The insertion sort of the positions [pl] to [pr], from [pi] on. *)
Fixpoint insertion (fuel : nat) (a : list nat) (pl pr pi : Z) : option (list nat) :=
  match fuel with
  | O => None
  | S fuel =>
      if (pi <=? pr)%Z then
        let vi := get a pi in
        match shift_up (S (length a)) a vi pl pi with
        | None => None
        | Some (a, pj) => insertion fuel (set a pj vi) pl pr (pi + 1)%Z
        end
      else Some a
  end.

(** The partitions, as long as the one at hand has more than
    [SMALL_QUICKSORT] + 1 elements: the larger part goes on the stack with
    the depth left, the smaller one is taken next. *)
Fixpoint partitions (fuel : nat) (a : list nat) (pl pr : Z)
    (stack : list (Z * Z * Z)) (cdepth : Z)
    : option (list nat * Z * Z * list (Z * Z * Z) * Z) :=
  match fuel with
  | O => None
  | S fuel =>
      if (pr - pl >? SMALL_QUICKSORT)%Z then
        match partition a pl pr with
        | None => None
        | Some (a, pi) =>
            let cdepth := (cdepth - 1)%Z in
            if (pi - pl <? pr - pi)%Z
            then partitions fuel a pl (pi - 1)%Z (((pi + 1)%Z, pr, cdepth) :: stack) cdepth
            else partitions fuel a (pi + 1)%Z pr ((pl, (pi - 1)%Z, cdepth) :: stack) cdepth
        end
      else Some (a, pl, pr, stack, cdepth)
  end.

(** The [while (1)] loop. *)
Fixpoint run (fuel : nat) (a : list nat) (pl pr : Z)
    (stack : list (Z * Z * Z)) (cdepth : Z) : option (list nat) :=
  match fuel with
  | O => None
  | S fuel =>
      if (cdepth <? 0)%Z then None
      else
        match partitions (S (length a)) a pl pr stack cdepth with
        | None => None
        | Some (a, pl, pr, stack, cdepth) =>
            match insertion (S (length a)) a pl pr (pl + 1)%Z with
            | None => None
            | Some a =>
                match stack with
                | [] => Some a
                | (pl', pr', cdepth') :: stack' => run fuel a pl' pr' stack' cdepth'
                end
            end
        end
  end.

(** [aquicksort(v, tosort, num)] on [tosort = 0, 1, ..., num - 1]; the depth
    limit is [npy_get_msb(num) * 2]. *)
Definition aquicksort : option (list nat) :=
  let num := length v in
  run (S num) (seq 0 num) 0 (Z.of_nat num - 1) [] (2 * Z.log2 (Z.of_nat num)).

End Quicksort.

(** [a.argsort(kind="quicksort")] for keys compared by [leb]: the strict
    test of numpy is [a < b]; where the model has no answer the positions are
    left as they are. *)
Definition argsort (K : Type) (leb : K -> K -> bool) (l : list K) : list nat :=
  default (seq 0 (length l)) (aquicksort (fun a b => negb (leb b a)) l).

End Numpy.

















(** ** Column order for the view (section 5 of the script) *)

Definition preferred_order : list string :=
  ["consultas_90_dias"; "dataset_descripcion"; "dataset_fuente"; "dataset_tema";
   "serie_indice_final"; "serie_indice_inicio"; "serie_unidades";
   "serie_valor_ultimo"].

(** Lines 171-173, for a preferred list [preferred]. *)
Definition reorder_columns (preferred : list string) (filtered : Pandas.DataFrame)
    : result Pandas.DataFrame :=
  let existing_preferred :=
    filter (fun c => c ∈ Pandas.columns filtered) preferred in
  let remaining_cols :=
    filter (fun c => c ∉ existing_preferred) (Pandas.columns filtered) in
  Pandas.select_columns (existing_preferred ++ remaining_cols) filtered.

(** The fallback [slugify] of the module, used when the [slugify] package
    is not installed:
    [re.sub(r"[^a-z0-9]+", "-", txt.lower()).strip("-")]. *)

(** The class [[a-z0-9]]. *)
Definition is_slug_char (c : ascii) : bool := Py.is_lower c || Py.is_digit c.

(** [re.sub(r"[^a-z0-9]+", "-", s)]: every maximal run of characters outside
    the class is replaced by one ["-"].  [in_run] tells that the previous
    character already belonged to the run being replaced. *)
Fixpoint sub_runs (in_run : bool) (s : string) : string :=
  match s with
  | EmptyString => EmptyString
  | String c s' =>
      if is_slug_char c then String c (sub_runs false s')
      else if in_run then sub_runs true s'
      else String "-" (sub_runs true s')
  end.

Definition is_dash (c : ascii) : bool := Ascii.eqb c "-".

Definition slugify (txt : string) : string :=
  Py.strip_by is_dash (sub_runs false (Py.lower txt)).



(** ** The download section: names derived from the selected row *)

(** [start_date.strip() or None] *)
Definition date_arg (text : string) : option string := Py.or_none (Py.strip text).

(** Lines 203-212: the name of the downloaded file. *)
Definition fname_of (base_slug : string) (start end_ : option string) : string :=
  if Py.truthy start || Py.truthy end_ then
    let parts := [] in
    let parts := if Py.truthy start then parts ++ [default "" start] else parts in
    let parts := if Py.truthy end_ then parts ++ [default "" end_] else parts in
    let suffix := Py.join "_" parts in
    base_slug +:+ "_" +:+ suffix +:+ ".csv"
  else base_slug +:+ ".csv".

(** [fname] as computed from the title of the selected row and the two
    date boxes of the sidebar. *)
Definition fname (serie_titulo start_date end_date : string) : string :=
  fname_of (slugify serie_titulo) (date_arg start_date) (date_arg end_date).

(** Line 222. *)
Definition script_name_of (base_slug : string) : string := base_slug +:+ ".py".

Definition script_name (serie_titulo : string) : string :=
  script_name_of (slugify serie_titulo).

(** [os.path.join(a, b)], POSIX flavour. *)
Definition path_join (a b : string) : string :=
  if Py.startswith b "/" then b
  else if String.eqb a "" || Py.endswith a "/" then a +:+ b
  else a +:+ "/" +:+ b.

(** The directories of the application, next to the script. [app_dir] is
    [os.path.dirname(__file__)]. *)
Definition DL_DIR (app_dir : string) : string := path_join app_dir "descargas".
Definition SCRIPTS_DIR (app_dir : string) : string := path_join app_dir "scripts_series".

(** ** Saving on the server (lines 214-275) *)

(** U+00A0, the no-break space. *)
Definition nbsp : string := String "194" (String "160" EmptyString).

Definition nl : string := String "010" EmptyString.
Definition dq : string := String "034" EmptyString.

(** The text written to a new companion script, one element per
    [sf.write] call. *)
Definition script_text (script_name serie_titulo today : string) : string :=
  Py.join ""
    [ "# " +:+ script_name +:+ nl;
      "# Script asociado a la serie '" +:+ serie_titulo +:+ "'" +:+ nl;
      "# Creado el " +:+ today +:+ nl +:+ nl;
      dq +:+ dq +:+ dq +:+ nl;
      "¿Por qué necesito una ruta robusta en este contexto?" +:+ nl;
      "- Permite calcular rutas relativas al script, sin depender del directorio de ejecución." +:+ nl;
      "- Usa os.path.dirname(__file__) para construir rutas siempre válidas." +:+ nl;
      "- Evita errores al mover la app o cambiar de máquina." +:+ nl;
      dq +:+ dq +:+ dq +:+ nl +:+ nl;
      "# Ejemplos de rutas robustas:" +:+ nl;
      "# base = os.path.splitext(os.path.basename(__file__))[0]" +:+ nl;
      "# output_dir = os.path.join(os.path.dirname(__file__), 'series_transformadas')" +:+ nl;
      "# os.makedirs(output_dir, exist_ok=True)" +:+ nl;
      nl;
      dq +:+ dq +:+ dq +:+ nl;
      "¿Qué son los requisitos?" +:+ nl;
      "- Son los requisitos necesarios para ejecutar este script." +:+ nl;
      "- Ejemplos: serie IPC actualizada, un archivo o recurso determinado." +:+ nl;
      "- SON OPCIONALES. Solo se mostrarán en la aplicación antes de que inicies la descarga." +:+ nl;
      dq +:+ dq +:+ dq +:+ nl +:+ nl;
      "import os" +:+ nl;
      "import json" +:+ nl +:+ nl;
      "# Crear carpeta requisitos_script y JSON de requisitos vacío" +:+ nl;
      "base_dir = os.path.dirname(__file__)" +:+ nl;
      "requisitos_dir = os.path.join(base_dir, 'requisitos_script')" +:+ nl;
      "os.makedirs(requisitos_dir, exist_ok=True)" +:+ nl +:+ nl;
      "script_name = os.path.splitext(os.path.basename(__file__))[0]" +:+ nl;
      "json_path = os.path.join(requisitos_dir, f" +:+ dq
        +:+ "{script_name}_requisitos.json" +:+ dq +:+ ")" +:+ nl +:+ nl;
      "requisitos_data = {" +:+ nl;
      "    'serie_titulo': " +:+ dq +:+ serie_titulo +:+ dq +:+ "," +:+ nl;
      "    'requisitos': []" +:+ nl;
      "}" +:+ nl +:+ nl;
      "with open(json_path, 'w', encoding='utf-8') as rf:" +:+ nl;
      "    json.dump(requisitos_data, rf, ensure_ascii=False, indent=4)" +:+ nl;
      "# ----------------------------------------------------------------------------------------------" +:+ nl;
      "# TODO: Agrega tus manipulaciones aquí" +:+ nl;
      "# ----------------------------------------------------------------------------------------------" ].

Section Workflow.
Variable requests : option requests_module.
(** The child process: what it leaves of the files, its exit code and its
    standard error; or the exception [subprocess.run] raises. *)
Variable subprocess_run : list string -> fsys -> result (completed * fsys).
(** [os.path.dirname(__file__)], [sys.executable] and
    [date.today().isoformat()]. *)
Variable app_dir : string.
Variable sys_executable : string.
Variable today : string.

Definition run_process (argv : list string) : M completed :=
  fun w =>
    match subprocess_run argv (fs w) with
    | Ok (c, f') =>
        (Ok c, {| fs := f'; trace := trace w ++ [Ran argv (returncode c)] |})
    | Err e => (Err e, w)
    end.

(** Lines 216-220: download, write the CSV, report. *)
Definition save_file (api_url fname : string) : M string :=
  let* content := download_series requests api_url in
  let file_path := path_join (DL_DIR app_dir) fname in
  write_file file_path content ;;
  emit (Shown Sidebar Success ("✅ Guardado en servidor: descargas/" +:+ fname)) ;;
  ret file_path.

(** Lines 222-263: the companion script is written only when no file of
    its name exists. *)
Definition ensure_script (base_slug serie_titulo : string) : M string :=
  let script_name := base_slug +:+ ".py" in
  let script_path := path_join (SCRIPTS_DIR app_dir) script_name in
  let* present := os_path_exists script_path in
  (if negb present then
     write_file script_path (script_text script_name serie_titulo today) ;;
     emit (Shown Sidebar Success ("✅ Script creado: scripts_series/" +:+ script_name))
   else ret tt) ;;
  ret script_path.

(** Lines 265-273: run the script on the saved file and report. *)
Definition run_script (script_path file_path : string) : M unit :=
  let* result := run_process [sys_executable; script_path; file_path] in
  if (returncode result =? 0)%Z then
    emit (Shown Sidebar Success "✅ Script ejecutado correctamente")
  else
    emit (Shown Sidebar Error
            ("⚠️ Error al ejecutar script:" +:+ nl +:+ stderr result)).

(** The body of [if st.sidebar.button("💾 Guardar en servidor"):]. *)
Definition save_on_server (api_url fname base_slug serie_titulo : string) : M unit :=
  try_except
    (let* file_path := save_file api_url fname in
     let* script_path := ensure_script base_slug serie_titulo in
     run_script script_path file_path)
    (fun e =>
       emit (Shown Sidebar Error
               ("Error al guardar o ejecutar en servidor: " +:+ exn_str e))).

(** Lines 196-275 for a selected row, once the save button is pressed:
    the names are derived from the row and the two date boxes. *)
Definition save_selected (serie_id serie_titulo start_date end_date : string) : M unit :=
  let start := date_arg start_date in
  let end_ := date_arg end_date in
  let api_url := build_api_url serie_id start end_ in
  let base_slug := slugify serie_titulo in
  save_on_server api_url (fname_of base_slug start end_) base_slug serie_titulo.

End Workflow.

(** The number of times the workflow wrote the file [path] in a trace. *)
Fixpoint count_writes (path : string) (t : list event) : nat :=
  match t with
  | [] => 0
  | Wrote p _ :: t' => (if String.eqb p path then 1 else 0) + count_writes path t'
  | _ :: t' => count_writes path t'
  end.

(** [w'] continues [w] with [n] more writes of the file [path]. *)
Definition extends (path : string) (n : nat) (w w' : world) : Prop :=
  exists added, trace w' = trace w ++ added /\ count_writes path added = n.

(** A child process that removes no file. *)
Definition keeps_files (subprocess_run : list string -> fsys -> result (completed * fsys))
    : Prop :=
  forall argv f c f',
    subprocess_run argv f = Ok (c, f') ->
    forall p, path_exists p f = true -> path_exists p f' = true.

(** ** Topics, default order and row labels (sections 4 and 7 of the script) *)

(** A value held by a cell or chosen in a select box: a number or a text. *)
Inductive scalar : Type :=
| SNum (q : Q)
| SStr (s : string).

(** [col == x], element by element: a missing value equals nothing, and a
    value of the other type is different. *)
Definition eq_scalar (c : Pandas.column) (x : scalar) : list bool :=
  match c, x with
  | Pandas.NumCol v, SNum q =>
      map (fun o => match o with Some a => Qeq_bool a q | None => false end) v
  | Pandas.StrCol v, SStr s =>
      map (fun o => match o with Some a => String.eqb a s | None => false end) v
  | Pandas.NumCol v, SStr _ => map (fun _ => false) v
  | Pandas.StrCol v, SNum _ => map (fun _ => false) v
  end.

(** [c.unique()]: the first occurrence of every value, in order. *)
Fixpoint unique {A} (eqb : A -> A -> bool) (l : list A) : list A :=
  match l with
  | [] => []
  | x :: l' => x :: List.filter (fun y => negb (eqb x y)) (unique eqb l')
  end.

(** The order [sorted] follows, from its test.  The values sorted here are
    distinct, so the result does not depend on how equal ones are placed. *)
Definition by_leb {A} (leb : A -> A -> bool) : relation A :=
  fun a b => leb a b = true.

#[global] Instance by_leb_dec {A} (leb : A -> A -> bool) (a b : A) :
  Decision (by_leb leb a b).
Proof. unfold by_leb. apply _. Defined.

(** Line 142: [sorted(meta["dataset_tema"].dropna().unique())]. *)
Definition all_topics (meta : Pandas.DataFrame) : result (list scalar) :=
  match Pandas.getitem "dataset_tema" meta with
  | Err e => Err e
  | Ok (Pandas.StrCol v) =>
      Ok (SStr <$> merge_sort (by_leb String.leb) (unique String.eqb (omap id v)))
  | Ok (Pandas.NumCol v) =>
      Ok (SNum <$> merge_sort (by_leb Qle_bool) (unique Qeq_bool (omap id v)))
  end.

(** Line 143: the options of the topic box. *)
Definition topic_options (meta : Pandas.DataFrame) : result (list scalar) :=
  match all_topics meta with
  | Ok topics => Ok (SStr "Todos" :: topics)
  | Err e => Err e
  end.

(** [sel_topic == "Todos"] *)
Definition is_todos (sel_topic : scalar) : bool :=
  match sel_topic with
  | SStr s => String.eqb s "Todos"
  | SNum _ => false
  end.

(** Line 144. *)
Definition topic_filter (sel_topic : scalar) (meta : Pandas.DataFrame)
    : result Pandas.DataFrame :=
  if is_todos sel_topic then Ok meta
  else
    match Pandas.getitem "dataset_tema" meta with
    | Err e => Err e
    | Ok c => Ok (Pandas.select_mask (eq_scalar c sel_topic) meta)
    end.

(** [l.index(x)]; [None] stands for [ValueError]. *)
Fixpoint index_of (x : string) (l : list string) : option nat :=
  match l with
  | [] => None
  | y :: l' => if String.eqb y x then Some 0 else S <$> index_of x l'
  end.

(** Lines 149-154: the column the sort box shows when nothing was chosen;
    a box without options gives [None]. *)
Definition default_order_col (cols_for_sort : list string) : option string :=
  let index :=
    if bool_decide ("consultas_90_dias" ∈ cols_for_sort)
    then default 0 (index_of "consultas_90_dias" cols_for_sort)
    else 0 in
  cols_for_sort !! index.

(** Lines 187-197: the row box.  [str] of a row label, and [int] on a text
    of decimal digits, the only texts the box offers besides its first
    entry; [None] for any other text. *)
Definition no_choice : string := "— Elige una —".

Definition str_of_nat (n : nat) : string :=
  DecimalString.NilZero.string_of_uint (Nat.to_uint n).

Definition int_of_str (s : string) : option nat :=
  Nat.of_uint <$> DecimalString.NilZero.uint_of_string s.

Definition fila_labels (filtered : Pandas.DataFrame) : list string :=
  no_choice :: map str_of_nat (Pandas.index filtered).

(** The value at a position of a column; [None] for a missing value. *)
Definition value_at (pos : nat) (c : Pandas.column) : option (option scalar) :=
  match c with
  | Pandas.NumCol v => option_map SNum <$> v !! pos
  | Pandas.StrCol v => option_map SStr <$> v !! pos
  end.

(** [df.loc[idx]] on a frame whose row labels are distinct: the row with
    that label, as the values by column; [KeyError] without such a row. *)
Definition loc (idx : nat) (df : Pandas.DataFrame)
    : result (list (string * option scalar)) :=
  match list_find (fun l => l = idx) (Pandas.index df) with
  | None => Err (KeyError (str_of_nat idx))
  | Some (pos, _) =>
      Ok (omap (fun nc => (fun v => (nc.1, v)) <$> value_at pos nc.2) (Pandas.data df))
  end.

(** [serie_row[name]] *)
Fixpoint row_get (name : string) (row : list (string * option scalar))
    : result (option scalar) :=
  match row with
  | [] => Err (KeyError name)
  | (n, v) :: row' => if String.eqb n name then Ok v else row_get name row'
  end.

(** [filtered.loc[idx][name]], as in lines 197-198. *)
Definition row_value (idx : nat) (name : string) (df : Pandas.DataFrame)
    : result (option scalar) :=
  match loc idx df with
  | Ok row => row_get name row
  | Err e => Err e
  end.

(** A frame in which every column has one entry per row label. *)
Definition rectangular (df : Pandas.DataFrame) : Prop :=
  Forall (fun nc => Pandas.col_length nc.2 = length (Pandas.index df)) (Pandas.data df).

Section View.
Variable re_rest : regex_rest.
Variable argsort : forall K : Type, (K -> K -> bool) -> list K -> list nat.

(** Lines 144-173: the table that is shown, for the values of the sidebar
    widgets. *)
Definition catalog_view (sel_topic : scalar) (query order_col : string) (asc : bool)
    (meta : Pandas.DataFrame) : result Pandas.DataFrame :=
  match topic_filter sel_topic meta with
  | Err e => Err e
  | Ok filtered =>
      match text_filter re_rest query filtered with
      | Err e => Err e
      | Ok filtered =>
          match sort_values argsort order_col asc filtered with
          | Err e => Err e
          | Ok filtered => reorder_columns preferred_order filtered
          end
      end
  end.

End View.

(** The rows of [view] are rows of [meta]: the labels of [view] are
    distinct labels of [meta], the columns are those of [meta] in some
    order, and a cell found by label and column holds what it holds in
    [meta]. *)
Definition rows_of (meta view : Pandas.DataFrame) : Prop :=
  rectangular view
  /\ NoDup (Pandas.index view)
  /\ NoDup (Pandas.columns view)
  /\ Pandas.index view ⊆ Pandas.index meta
  /\ Pandas.columns view ≡ₚ Pandas.columns meta
  /\ forall idx name,
       idx ∈ Pandas.index view -> row_value idx name view = row_value idx name meta.

(** ** One run of the download section (lines 195-287) *)

Section DownloadSection.
Variable requests : option requests_module.
Variable subprocess_run : list string -> fsys -> result (completed * fsys).
Variable app_dir : string.
Variable sys_executable : string.
Variable today : string.
(** [str] of a number held by a cell and the name of its type: both are
    decided by pandas and numpy. *)
Variable str_of_number : Q -> string.
Variable type_of_number : Q -> string.

(** [int(sel_fila)] on an entry of the row box. *)
Definition int_of_label (s : string) : result nat :=
  match int_of_str s with
  | Some n => Ok n
  | None => Err (ValueError ("invalid literal for int() with base 10: '" +:+ s +:+ "'"))
  end.

(** [str(v)] for the value of a cell; a missing value is the float [nan]. *)
Definition str_of_cell (v : option scalar) : string :=
  match v with
  | Some (SStr s) => s
  | Some (SNum q) => str_of_number q
  | None => "nan"
  end.

(** [serie_row.serie_titulo]: the attribute is looked up among the labels
    of the row. *)
Definition row_attr (name : string) (row : list (string * option scalar))
    : result (option scalar) :=
  match row_get name row with
  | Ok v => Ok v
  | Err _ => Err (AttributeError ("'Series' object has no attribute '" +:+ name +:+ "'"))
  end.

(** The fallback [slugify] on the value of a cell: [txt.lower()] exists for a
    text only. *)
Definition slugify_cell (v : option scalar) : result string :=
  match v with
  | Some (SStr s) => Ok (slugify s)
  | Some (SNum q) =>
      Err (AttributeError ("'" +:+ type_of_number q +:+ "' object has no attribute 'lower'"))
  | None => Err (AttributeError "'float' object has no attribute 'lower'")
  end.

(** Lines 277-285: the button for the local download.  Its [data] argument
    is [download_series(api_url)], evaluated when the script reaches the
    call, pressed or not; the widget itself leaves no event. *)
Definition local_download (api_url : string) : M unit :=
  try_except
    (let* data := download_series requests api_url in
     ret tt)
    (fun e => emit (Shown Sidebar Error ("Error en descarga local: " +:+ exn_str e))).

(** Lines 195-287 for a run of the script on the table [filtered], with the
    entry [sel_fila] of the row box and the texts of the two date boxes;
    [pressed] tells whether the save button was pressed.  Lines 196-212 run
    outside every [try]. *)
Definition download_section (filtered : Pandas.DataFrame)
    (sel_fila start_date end_date : string) (pressed : bool) : M unit :=
  if negb (String.eqb sel_fila no_choice) then
    let* idx := lift (int_of_label sel_fila) in
    let* serie_row := lift (loc idx filtered) in
    let* sel_id := lift (row_get "serie_id" serie_row) in
    let start := date_arg start_date in
    let end_ := date_arg end_date in
    let api_url := build_api_url (str_of_cell sel_id) start end_ in
    let* serie_titulo := lift (row_attr "serie_titulo" serie_row) in
    let* base_slug := lift (slugify_cell serie_titulo) in
    let fname := fname_of base_slug start end_ in
    (if pressed then
       save_on_server requests subprocess_run app_dir sys_executable today
         api_url fname base_slug (str_of_cell serie_titulo)
     else ret tt) ;;
    local_download api_url
  else
    emit (Shown Sidebar Info
            "Selecciona una fila para activar las opciones de descarga.").

End DownloadSection.

(** The requests recorded in a trace. *)
Definition fetched (t : list event) : list string :=
  omap (fun e => match e with Fetched url => Some url | _ => None end) t.

(** ** Reading a query string back

    The decoding that undoes [quote_plus] (what [urllib.parse.unquote_plus]
    does with the escapes that [quote_plus] writes); it serves to show that
    escaping loses nothing. *)

Definition hex_value (c : ascii) : nat :=
  if Py.is_digit c then Py.code c - 48 else Py.code c - 55.

Fixpoint unquote_plus (s : string) : string :=
  match s with
  | EmptyString => EmptyString
  | String c s1 =>
      if Ascii.eqb c "+" then String " " (unquote_plus s1)
      else if Ascii.eqb c "%" then
        match s1 with
        | String h (String l s3) =>
            String (ascii_of_nat (16 * hex_value h + hex_value l)) (unquote_plus s3)
        | _ => s
        end
      else String c (unquote_plus s1)
  end.

(** A date argument as [if start:] sees it: the text when there is some. *)
Definition present (v : option string) : option string :=
  match v with
  | Some (String _ _ as s) => Some s
  | _ => None
  end.

(** Text that is over, or goes on with [&]. *)
Definition amp_or_end (r : string) : bool :=
  match r with
  | EmptyString => true
  | String c _ => Ascii.eqb c "&"
  end.

(** The characters a request URL is made of. *)
Definition url_char (c : ascii) : bool :=
  Urllib.always_safe c ||
  bool_decide (c ∈ ["%"; "+"; "&"; "="; ":"; "/"; "?"]%char).

(** ** Sample environments used in the examples *)

Definition empty_world : world :=
  {| fs := {| files := ∅; dirs := ∅; writable := fun _ => true |}; trace := [] |}.

(** A child process that touches no file and exits with [code]. *)
Definition process_exiting (code : Z) (err : string) (argv : list string) (f : fsys)
    : result (completed * fsys) :=
  Ok ({| returncode := code; stderr := err |}, f).

(** The world after the CSV of the sample series was saved, and after its
    script was put in place, on a server that answers with two lines. *)
Definition sample_saved : world :=
  (save_file (Some {| respond := fun _ _ =>
                        inr {| status_code := 200; content := "fecha,valor" |} |})
     "/srv/app" (build_api_url "TEST123" None None)
     (fname "Serie de ejemplo" "" "") empty_world).2.

Definition sample_scripted : world :=
  (ensure_script "/srv/app" "2025-01-01" (slugify "Serie de ejemplo")
     "Serie de ejemplo" sample_saved).2.

(** A server that answers every request with status 200 and [body]. *)
Definition server_with (body : string) : requests_module :=
  {| respond := fun _ _ => inr {| status_code := 200; content := body |} |}.


(** The frame read from the embedded CSV. *)
Definition embedded_frame : Pandas.DataFrame :=
  {| Pandas.index := [0];
     Pandas.data :=
       [("serie_id", Pandas.StrCol [Some "TEST123"]);
        ("serie_titulo", Pandas.StrCol [Some "Serie de ejemplo"]);
        ("dataset_tema", Pandas.StrCol [Some "Actividad"]);
        ("dataset_descripcion", Pandas.StrCol [Some "Dataset de prueba"]);
        ("serie_descripcion", Pandas.StrCol [Some "Desc corta"]);
        ("consultas_90_dias", Pandas.NumCol [Some 999%Q])] |}.

(** The query counts the normalisation of [load_catalog] is described to
    leave in a column [c]: the number where there is one, 0 elsewhere. *)
Definition coerced_counts (to_number : string -> option Q) (c : Pandas.column) : list Q :=
  match c with
  | Pandas.NumCol v => map (default 0%Q) v
  | Pandas.StrCol v => map (fun o => default 0%Q (o ≫= to_number)) v
  end.

Definition missing_requests_warning : event :=
  Shown Page Warning "No se encontró *requests*. Se usará el CSV embebido.".

(** A table with the columns B, C, A, D. *)
Definition sample_bcad : Pandas.DataFrame :=
  {| Pandas.index := [0];
     Pandas.data := [("B", Pandas.StrCol [Some "b"]); ("C", Pandas.StrCol [Some "c"]);
                     ("A", Pandas.NumCol [Some 1%Q]); ("D", Pandas.StrCol [None])] |}.

(** An engine that rejects every pattern beyond those of [Re] and takes a
    character beyond ASCII for itself only. *)
Definition no_other_patterns : regex_rest :=
  {| search_other := fun pat _ => Err (ReError pat);
     unicode_same := String.eqb |}.




(* ================================================================== *)
(** * Properties *)
(* ================================================================== *)

(** ** Strings *)

Section StringFacts.

Lemma append_assoc (a b c : string) : (a +:+ b) +:+ c = a +:+ (b +:+ c).
Proof. induction a as [|x a IH]; simpl; [done | by rewrite IH]. Qed.

Lemma append_empty_r (a : string) : a +:+ "" = a.
Proof. induction a as [|x a IH]; simpl; [done | by rewrite IH]. Qed.

Lemma all_chars_app p (a b : string) :
  Py.all_chars p (a +:+ b) = Py.all_chars p a && Py.all_chars p b.
Proof.
  induction a as [|x a IH]; simpl; [done|].
  by rewrite IH, andb_assoc.
Qed.

Lemma all_chars_weaken (p q : ascii -> bool) (s : string) :
  (forall c, p c = true -> q c = true) ->
  Py.all_chars p s = true -> Py.all_chars q s = true.
Proof.
  intros Hpq. induction s as [|x s IH]; simpl; [done|].
  intros [Hx Hs]%andb_true_iff. rewrite (Hpq _ Hx). by apply IH.
Qed.

Lemma startswith_app (p t : string) : Py.startswith (p +:+ t) p = true.
Proof.
  induction p as [|x p IH]; simpl; [by destruct t|].
  by rewrite Ascii.eqb_refl.
Qed.

Lemma contains_here (n s : string) :
  Py.startswith s n = true -> Py.contains n s = true.
Proof. intros H. destruct s; simpl in *; by rewrite H. Qed.

(** A needle that starts with [c] cannot begin inside text free of [c]. *)
Lemma contains_skip (c : ascii) (n s t : string) :
  Py.all_chars (fun x => negb (Ascii.eqb c x)) s = true ->
  Py.contains (String c n) (s +:+ t) = Py.contains (String c n) t.
Proof.
  induction s as [|x s IH]; simpl; [done|].
  intros [Hx Hs]%andb_true_iff.
  apply negb_true_iff in Hx. rewrite Hx. simpl. by apply IH.
Qed.

Lemma contains_absent (c : ascii) (n s : string) :
  Py.all_chars (fun x => negb (Ascii.eqb c x)) s = true ->
  Py.contains (String c n) s = false.
Proof.
  intros H. rewrite <- (append_empty_r s), contains_skip by done. done.
Qed.

Lemma startswith_empty (s : string) : Py.startswith s "" = true.
Proof. by destruct s. Qed.

End StringFacts.

(** ** The request URL *)

Lemma percent_chars (c : ascii) :
  Py.all_chars (fun x => Urllib.always_safe x || Ascii.eqb x "%") (Urllib.percent c) = true.
Proof. by destruct c as [[] [] [] [] [] [] [] []]. Qed.

(** Escaped text is made of safe characters, [%] and [+] only. *)
Lemma quote_plus_chars (s : string) :
  Py.all_chars (fun x => Urllib.always_safe x || Ascii.eqb x "%" || Ascii.eqb x "+")
    (Urllib.quote_plus s) = true.
Proof.
  induction s as [|c s IH]; simpl; [done|].
  rewrite all_chars_app, IH, andb_true_r. unfold Urllib.quote_char.
  destruct (Urllib.always_safe c) eqn:Hs.
  - simpl. by rewrite Hs.
  - destruct (Ascii.eqb c " "); [done|].
    eapply all_chars_weaken; [|apply percent_chars].
    intros x Hx; simpl in Hx. by rewrite Hx.
Qed.

Lemma quote_plus_no_amp (s : string) :
  Py.all_chars (fun x => negb (Ascii.eqb "&" x)) (Urllib.quote_plus s) = true.
Proof.
  eapply all_chars_weaken; [|apply quote_plus_chars].
  intros c. by destruct c as [[] [] [] [] [] [] [] []].
Qed.

(** Text without reserved characters is left as it is. *)
Lemma quote_plus_safe (s : string) :
  Py.all_chars Urllib.always_safe s = true -> Urllib.quote_plus s = s.
Proof.
  induction s as [|c s IH]; simpl; [done|].
  intros [Hc Hs]%andb_true_iff. unfold Urllib.quote_char.
  rewrite Hc. simpl. by rewrite IH.
Qed.

Lemma build_api_url_eq (serie_id : string) (start end_ : option string) :
  build_api_url serie_id start end_ =
  API_BASE +:+ "ids=" +:+ Urllib.quote_plus serie_id
    +:+ optional_param "start_date" start +:+ optional_param "end_date" end_.
Proof.
  unfold build_api_url, set_if_truthy, optional_param, Urllib.urlencode.
  f_equal.
  destruct start as [[|a s]|], end_ as [[|b e]|]; simpl;
    rewrite ?append_empty_r; try done.
Qed.

Lemma contains_app_r (n s t : string) :
  Py.contains n t = true -> Py.contains n (s +:+ t) = true.
Proof.
  intros H. induction s as [|x s IH]; simpl; [done|].
  rewrite IH. apply orb_true_r.
Qed.

Lemma optional_param_truthy (key : string) (v : option string) :
  optional_param key v =
  if Py.truthy v then "&" +:+ key +:+ "=" +:+ Urllib.quote_plus (default "" v) else "".
Proof. by destruct v as [[|a s]|]. Qed.

Ltac skip_escaped :=
  first [ rewrite startswith_empty
        | rewrite contains_skip by apply quote_plus_no_amp
        | rewrite contains_absent by apply quote_plus_no_amp ];
  simpl.

Lemma contains_start_date (serie_id : string) (start end_ : option string) :
  Py.contains "&start_date=" (build_api_url serie_id start end_) = Py.truthy start.
Proof.
  rewrite build_api_url_eq, !optional_param_truthy. unfold API_BASE.
  simpl. skip_escaped.
  destruct (Py.truthy start), (Py.truthy end_); simpl; try done.
  all: by repeat skip_escaped.
Qed.

Lemma contains_end_date (serie_id : string) (start end_ : option string) :
  Py.contains "&end_date=" (build_api_url serie_id start end_) = Py.truthy end_.
Proof.
  rewrite build_api_url_eq, !optional_param_truthy. unfold API_BASE.
  simpl. skip_escaped.
  destruct (Py.truthy start), (Py.truthy end_); simpl; try done.
  all: by repeat skip_escaped.
Qed.

Lemma contains_ids (serie_id : string) (start end_ : option string) :
  Py.contains ("ids=" +:+ Urllib.quote_plus serie_id)
    (build_api_url serie_id start end_) = true.
Proof.
  rewrite build_api_url_eq.
  apply contains_app_r, contains_here.
  rewrite <- append_assoc. apply startswith_app.
Qed.

(** C9. [build_api_url] is a function of its three arguments alone; the URL
    is the API base followed by [ids=<escaped id>], then [&start_date=...]
    and [&end_date=...] exactly for the non-empty dates, with every value
    escaped by [quote_plus].  [build_api_url("ABC")] ends with [ids=ABC] and
    names neither date; with both dates all three parameters are there. *)
Theorem build_api_url_query (serie_id : string) (start end_ : option string) :
  build_api_url serie_id start end_ =
    API_BASE +:+ "ids=" +:+ Urllib.quote_plus serie_id
      +:+ optional_param "start_date" start +:+ optional_param "end_date" end_
  /\ Py.contains ("ids=" +:+ Urllib.quote_plus serie_id)
       (build_api_url serie_id start end_) = true
  /\ Py.contains "&start_date=" (build_api_url serie_id start end_) = Py.truthy start
  /\ Py.contains "&end_date=" (build_api_url serie_id start end_) = Py.truthy end_
  /\ Py.endswith (build_api_url "ABC" None None) "ids=ABC" = true
  /\ Py.contains "start_date" (build_api_url "ABC" None None) = false
  /\ Py.contains "end_date" (build_api_url "ABC" None None) = false
  /\ Py.contains "ids=ABC"
       (build_api_url "ABC" (Some "2020-01-01") (Some "2020-02-01")) = true
  /\ Py.contains "start_date=2020-01-01"
       (build_api_url "ABC" (Some "2020-01-01") (Some "2020-02-01")) = true
  /\ Py.contains "end_date=2020-02-01"
       (build_api_url "ABC" (Some "2020-01-01") (Some "2020-02-01")) = true.
Proof.
  split; [apply build_api_url_eq|].
  split; [apply contains_ids|].
  split; [apply contains_start_date|].
  split; [apply contains_end_date|].
  repeat split; vm_compute; reflexivity.
Qed.

Example build_api_url_abc :
  build_api_url "ABC" None None =
  "https://apis.datos.gob.ar/series/api/series?format=csv&ids=ABC".
Proof. reflexivity. Qed.

Example build_api_url_dates :
  build_api_url "ABC" (Some "2020-01-01") (Some "2020-02-01") =
  "https://apis.datos.gob.ar/series/api/series?format=csv&ids=ABC&start_date=2020-01-01&end_date=2020-02-01".
Proof. reflexivity. Qed.

Example quote_plus_ex : Urllib.quote_plus "a b&c=d/é" = "a+b%26c%3Dd%2F%C3%A9".
Proof. reflexivity. Qed.

(** ** Stripping *)

Section Strip.
Variable p : ascii -> bool.

Lemma lstrip_split (s : string) :
  exists u, s = u +:+ Py.lstrip p s /\ Py.all_chars p u = true.
Proof.
  induction s as [|c s (u & Hs & Hu)]; simpl.
  - by exists "".
  - destruct (p c) eqn:Hc.
    + exists (String c u). simpl. rewrite Hc, Hu. by rewrite <- Hs.
    + by exists "".
Qed.

Lemma rstrip_split (s : string) :
  exists t, s = Py.rstrip p s +:+ t /\ Py.all_chars p t = true.
Proof.
  induction s as [|c s (t & Hs & Ht)]; simpl.
  - by exists "".
  - destruct (Py.rstrip p s) as [|d r] eqn:Hr.
    + simpl in Hs. subst t. destruct (p c) eqn:Hc.
      * exists (String c s). simpl. by rewrite Hc, Ht.
      * exists s. by rewrite Ht.
    + exists t. split; [|done]. rewrite Hs at 1. done.
Qed.

(** [strip] removes a prefix and a suffix made of the stripped class. *)
Lemma strip_by_split (s : string) :
  exists u t, s = u +:+ Py.strip_by p s +:+ t
              /\ Py.all_chars p u = true /\ Py.all_chars p t = true.
Proof.
  destruct (lstrip_split s) as (u & Hu & Hpu).
  destruct (rstrip_split (Py.lstrip p s)) as (t & Ht & Hpt).
  exists u, t. unfold Py.strip_by. by rewrite <- Ht, <- Hu.
Qed.

Lemma lstrip_head (s : string) : Py.head_is p (Py.lstrip p s) = false.
Proof.
  induction s as [|c s IH]; simpl; [done|].
  destruct (p c) eqn:Hc; [done|]. simpl. done.
Qed.

Lemma rstrip_head (s : string) :
  Py.head_is p s = false -> Py.head_is p (Py.rstrip p s) = false.
Proof.
  destruct s as [|c s]; simpl; [done|]. intros Hc.
  destruct (Py.rstrip p s); simpl; [by rewrite Hc|done].
Qed.

Lemma rstrip_last (s : string) : Py.last_is p (Py.rstrip p s) = false.
Proof.
  induction s as [|c s IH]; simpl; [done|].
  destruct (Py.rstrip p s) as [|d r] eqn:Hr.
  - destruct (p c) eqn:Hc; simpl; done.
  - change (Py.last_is p (String c (String d r))) with (Py.last_is p (String d r)).
    done.
Qed.

Lemma strip_by_ends (s : string) :
  Py.head_is p (Py.strip_by p s) = false /\ Py.last_is p (Py.strip_by p s) = false.
Proof.
  unfold Py.strip_by. split; [|apply rstrip_last].
  apply rstrip_head, lstrip_head.
Qed.

Lemma strip_by_all (s : string) :
  Py.all_chars p s = true -> Py.strip_by p s = "".
Proof.
  intros H. unfold Py.strip_by.
  assert (Py.lstrip p s = "") as ->; [|done].
  induction s as [|c s IH]; simpl in *; [done|].
  apply andb_true_iff in H as [Hc Hs]. rewrite Hc. by apply IH.
Qed.

End Strip.

Section StringFacts2.

Lemma startswith_app_l (a n t : string) :
  Py.startswith a n = true -> Py.startswith (a +:+ t) n = true.
Proof.
  revert a. induction n as [|x n IH]; intros a.
  - intros _. apply startswith_empty.
  - destruct a as [|y a]; simpl; [done|].
    intros [-> Ha]%andb_true_iff. simpl. by apply IH.
Qed.

Lemma contains_app_l (n a t : string) :
  Py.contains n a = true -> Py.contains n (a +:+ t) = true.
Proof.
  induction a as [|y a IH]; simpl.
  - rewrite orb_false_r. intros H. apply contains_here.
    destruct n; [apply startswith_empty | done].
  - intros [H|H]%orb_true_iff.
    + apply (startswith_app_l (String y a) n t) in H. simpl in H.
      by rewrite H.
    + rewrite IH by done. apply orb_true_r.
Qed.

Lemma keep_chars_app q (a b : string) :
  Py.keep_chars q (a +:+ b) = Py.keep_chars q a +:+ Py.keep_chars q b.
Proof.
  induction a as [|x a IH]; simpl; [done|].
  destruct (q x); simpl; by rewrite IH.
Qed.

Lemma keep_chars_none q (a : string) :
  Py.all_chars (fun c => negb (q c)) a = true -> Py.keep_chars q a = "".
Proof.
  induction a as [|x a IH]; simpl; [done|].
  intros [Hx Ha]%andb_true_iff. apply negb_true_iff in Hx. rewrite Hx. auto.
Qed.

Lemma endswith_char (c : ascii) (s : string) :
  Py.endswith s (String c "") = Py.last_is (Ascii.eqb c) s.
Proof.
  induction s as [|x s IH]; [done|].
  destruct s as [|y s].
  - simpl. rewrite orb_false_r, Ascii.eqb_sym. by destruct (Ascii.eqb c x).
  - change (Py.last_is (Ascii.eqb c) (String x (String y s)))
      with (Py.last_is (Ascii.eqb c) (String y s)).
    rewrite <- IH. simpl. by destruct (Ascii.eqb x c).
Qed.

Lemma startswith_char (c : ascii) (s : string) :
  Py.startswith s (String c "") = Py.head_is (Ascii.eqb c) s.
Proof. destruct s as [|x s]; simpl; [done|]. by rewrite startswith_empty, andb_true_r. Qed.

End StringFacts2.

(** ** Characters and whitespace *)

Section DropFacts.
Context {A : Type} (p : A -> bool).

Lemma ldrop_split (l : list A) :
  exists u, l = u ++ Py.ldrop p l /\ forallb p u = true.
Proof.
  induction l as [|x l (u & Hl & Hu)]; simpl.
  - by exists [].
  - destruct (p x) eqn:Hx.
    + exists (x :: u). simpl. rewrite Hx, Hu. by rewrite <- Hl.
    + by exists [].
Qed.

Lemma rdrop_split (l : list A) :
  exists t, l = Py.rdrop p l ++ t /\ forallb p t = true.
Proof.
  induction l as [|x l (t & Hl & Ht)]; simpl.
  - by exists [].
  - destruct (Py.rdrop p l) as [|y r] eqn:Hr.
    + simpl in Hl. subst t. destruct (p x) eqn:Hx.
      * exists (x :: l). simpl. by rewrite Hx, Ht.
      * exists l. by rewrite Ht.
    + exists t. split; [|done]. rewrite Hl at 1. done.
Qed.

Lemma ldrop_all (l : list A) : forallb p l = true -> Py.ldrop p l = [].
Proof.
  induction l as [|x l IH]; simpl; [done|].
  intros [Hx Hl]%andb_true_iff. rewrite Hx. by apply IH.
Qed.

Lemma rdrop_all (l : list A) : forallb p l = true -> Py.rdrop p l = [].
Proof.
  induction l as [|x l IH]; simpl; [done|].
  intros [Hx Hl]%andb_true_iff. by rewrite (IH Hl), Hx.
Qed.

Lemma ldrop_app_all (u l : list A) :
  forallb p u = true -> Py.ldrop p (u ++ l) = Py.ldrop p l.
Proof.
  induction u as [|x u IH]; simpl; [done|].
  intros [Hx Hu]%andb_true_iff. rewrite Hx. by apply IH.
Qed.

Lemma rdrop_app_all (l t : list A) :
  forallb p t = true -> Py.rdrop p (l ++ t) = Py.rdrop p l.
Proof.
  intros Ht. induction l as [|x l IH]; simpl.
  - by apply rdrop_all.
  - by rewrite IH.
Qed.

Lemma ldrop_app (l t : list A) :
  Py.ldrop p l <> [] -> Py.ldrop p (l ++ t) = Py.ldrop p l ++ t.
Proof.
  induction l as [|x l IH]; simpl; [done|].
  destruct (p x); [exact IH | done].
Qed.



Lemma drop_padding (u l t : list A) :
  forallb p u = true -> forallb p t = true ->
  Py.rdrop p (Py.ldrop p (u ++ l ++ t)) = Py.rdrop p (Py.ldrop p l).
Proof.
  intros Hu Ht. rewrite ldrop_app_all by done.
  destruct (Py.ldrop p l) as [|x r] eqn:E.
  - destruct (ldrop_split l) as (v & Hl & Hv). rewrite E, app_nil_r in Hl. subst v.
    rewrite ldrop_all; [done|]. rewrite forallb_app. by rewrite Hv, Ht.
  - rewrite ldrop_app by (by rewrite E). rewrite E. by apply rdrop_app_all.
Qed.

End DropFacts.

Section CharFacts.

Lemma unchars_app (l1 l2 : list string) :
  Py.unchars (l1 ++ l2) = Py.unchars l1 +:+ Py.unchars l2.
Proof.
  induction l1 as [|ch l1 IH]; simpl; [done|]. by rewrite IH, append_assoc.
Qed.

Lemma chars_cons (b : ascii) (s : string) :
  Py.chars (String b s) =
  match Py.chars s with
  | ch :: rest =>
      if Py.head_is Py.is_cont ch then String b ch :: rest
      else String b "" :: ch :: rest
  | [] => [String b ""]
  end.
Proof. reflexivity. Qed.

(** The first character begins with the first byte. *)
Lemma chars_head (s : string) (ch : string) (rest : list string) :
  Py.chars s = ch :: rest ->
  exists b t tl, s = String b t /\ ch = String b tl.
Proof.
  destruct s as [|b s]; [done|]. rewrite chars_cons.
  destruct (Py.chars s) as [|ch' r]; [intros [= <- <-]; by eexists _, _, _|].
  destruct (Py.head_is Py.is_cont ch'); intros [= <- <-]; by eexists _, _, _.
Qed.

Lemma chars_nil (s : string) : Py.chars s = [] -> s = "".
Proof.
  destruct s as [|b s]; [done|]. rewrite chars_cons.
  destruct (Py.chars s) as [|ch r]; [done|].
  by destruct (Py.head_is Py.is_cont ch).
Qed.

Lemma unchars_chars (s : string) : Py.unchars (Py.chars s) = s.
Proof.
  induction s as [|b s IH]; [done|]. rewrite chars_cons.
  destruct (Py.chars s) as [|ch r]; [by rewrite <- IH|].
  destruct (Py.head_is Py.is_cont ch); by rewrite <- IH.
Qed.

Lemma boundary_head (s ch : string) (rest : list string) :
  Py.boundary s = true -> Py.chars s = ch :: rest ->
  Py.head_is Py.is_cont ch = false.
Proof.
  intros Hb (b & t & tl & -> & ->)%chars_head.
  unfold Py.boundary in Hb. simpl in *. by apply negb_true_iff in Hb.
Qed.

Lemma chars_app (s t : string) :
  Py.boundary t = true -> Py.chars (s +:+ t) = Py.chars s ++ Py.chars t.
Proof.
  intros Hb. induction s as [|b s IH]; [done|].
  change (String b s +:+ t) with (String b (s +:+ t)).
  rewrite !chars_cons, IH.
  destruct (Py.chars s) as [|ch r] eqn:Hs;
    [|simpl; by destruct (Py.head_is Py.is_cont ch)].
  simpl. destruct (Py.chars t) as [|ch r] eqn:Ht; [done|].
  by rewrite (boundary_head t ch r Hb Ht).
Qed.

Lemma boundary_app (s t : string) :
  Py.boundary s = true -> Py.boundary t = true -> Py.boundary (s +:+ t) = true.
Proof. by destruct s. Qed.

(** A whitespace character starts with a byte that starts a character. *)
Lemma isspace_head (ch : string) :
  Py.isspace ch = true -> Py.head_is Py.is_cont ch = false.
Proof.
  destruct ch as [|a [|b [|c [|d r]]]]; try done; unfold Py.isspace;
    unfold Py.head_is, Py.is_cont, Py.is_space, Py.in_range;
    rewrite ?orb_true_iff, ?andb_true_iff, ?Nat.eqb_eq, ?Nat.leb_le;
    intros H; apply andb_false_iff; rewrite !Nat.leb_gt; lia.
Qed.

Lemma blank_boundary (s : string) : Py.blank s = true -> Py.boundary s = true.
Proof.
  unfold Py.blank, Py.boundary. intros H.
  destruct (Py.chars s) as [|ch r] eqn:E.
  - by rewrite (chars_nil s E).
  - simpl in H. apply andb_true_iff in H as [Hch _].
    apply isspace_head in Hch.
    apply chars_head in E as (b & t & tl & -> & ->). simpl in *. by rewrite Hch.
Qed.


(** Whitespace around a text does not change what [strip] returns. *)
Lemma strip_padding (u d v : string) :
  Py.blank u = true -> Py.blank v = true -> Py.boundary d = true ->
  Py.strip (u +:+ d +:+ v) = Py.strip d.
Proof.
  intros Hu Hv Hd. unfold Py.strip.
  rewrite chars_app.
  2:{ destruct d; [by apply blank_boundary | done]. }
  rewrite chars_app by by apply blank_boundary.
  by rewrite drop_padding.
Qed.

Lemma strip_blank (u : string) : Py.blank u = true -> Py.strip u = "".
Proof.
  intros Hu. unfold Py.strip. by rewrite ldrop_all.
Qed.


(** [strip] removes a blank prefix and a blank suffix. *)
Lemma strip_split (s : string) :
  exists u v, s = u +:+ Py.strip s +:+ v.
Proof.
  unfold Py.strip.
  destruct (ldrop_split Py.isspace (Py.chars s)) as (lu & Hl & _).
  destruct (rdrop_split Py.isspace (Py.ldrop Py.isspace (Py.chars s))) as (lv & Hr & _).
  exists (Py.unchars lu), (Py.unchars lv).
  rewrite <- unchars_app, <- Hr, <- unchars_app, <- Hl. symmetry. apply unchars_chars.
Qed.


End CharFacts.

(** ** Slugs and file names *)

Lemma slug_char_not_dash (c : ascii) : is_slug_char c = true -> is_dash c = false.
Proof. by destruct c as [[] [] [] [] [] [] [] []]. Qed.

Lemma sub_runs_chars (b : bool) (s : string) :
  Py.all_chars (fun c => is_slug_char c || is_dash c) (sub_runs b s) = true.
Proof.
  revert b. induction s as [|c s IH]; intros b; simpl; [done|].
  destruct (is_slug_char c) eqn:Hc.
  - simpl. by rewrite Hc, IH.
  - destruct b; simpl; by rewrite ?IH.
Qed.

Lemma contains_dashes_cons (c : ascii) (s : string) :
  Py.contains "--" (String c s) =
  is_dash c && Py.head_is is_dash s || Py.contains "--" s.
Proof.
  change (Py.contains "--" (String c s))
    with (Py.startswith (String c s) "--" || Py.contains "--" s).
  f_equal.
  change (Py.startswith (String c s) "--")
    with (Ascii.eqb "-" c && Py.startswith s "-").
  rewrite startswith_char, (Ascii.eqb_sym "-" c).
  change (Ascii.eqb c "-") with (is_dash c). by f_equal.
Qed.

(** The replacement never yields two separators in a row, and yields no
    separator first when the previous character was already replaced. *)
Lemma sub_runs_dashes (b : bool) (s : string) :
  Py.contains "--" (sub_runs b s) = false
  /\ (b = true -> Py.head_is is_dash (sub_runs b s) = false).
Proof.
  revert b. induction s as [|c s IH]; intros b; simpl; [done|].
  destruct (is_slug_char c) eqn:Hc.
  - destruct (IH false) as [IH1 _].
    rewrite contains_dashes_cons, IH1. simpl.
    apply slug_char_not_dash in Hc. by rewrite Hc.
  - destruct (IH true) as [IH1 IH2]. destruct b; [done|].
    split; [|done].
    by rewrite contains_dashes_cons, IH1, (IH2 eq_refl).
Qed.

Lemma sub_runs_keep (b : bool) (s : string) :
  Py.keep_chars is_slug_char (sub_runs b s) = Py.keep_chars is_slug_char s.
Proof.
  revert b. induction s as [|c s IH]; intros b; simpl; [done|].
  destruct (is_slug_char c) eqn:Hc.
  - simpl. by rewrite Hc, IH.
  - destruct b; simpl; by rewrite IH.
Qed.

Lemma sub_runs_no_slug_char (b : bool) (s : string) :
  Py.all_chars (fun c => negb (is_slug_char c)) s = true ->
  Py.all_chars is_dash (sub_runs b s) = true.
Proof.
  revert b. induction s as [|c s IH]; intros b; simpl; [done|].
  intros [Hc Hs]%andb_true_iff. apply negb_true_iff in Hc. rewrite Hc.
  destruct b; simpl; by apply IH.
Qed.

Section SlugFacts.
Variable txt : string.

Lemma slugify_chars :
  Py.all_chars (fun c => is_slug_char c || is_dash c) (slugify txt) = true.
Proof.
  unfold slugify.
  destruct (strip_by_split is_dash (sub_runs false (Py.lower txt)))
    as (u & t & Hs & _ & _).
  pose proof (sub_runs_chars false (Py.lower txt)) as H.
  rewrite Hs, !all_chars_app in H.
  by apply andb_true_iff in H as [_ [H _]%andb_true_iff].
Qed.

Lemma slugify_keep :
  Py.keep_chars is_slug_char (slugify txt) =
  Py.keep_chars is_slug_char (Py.lower txt).
Proof.
  unfold slugify.
  destruct (strip_by_split is_dash (sub_runs false (Py.lower txt)))
    as (u & t & Hs & Hu & Ht).
  rewrite <- (sub_runs_keep false (Py.lower txt)).
  rewrite Hs at 2. rewrite !keep_chars_app.
  assert (forall w, Py.all_chars is_dash w = true ->
                    Py.keep_chars is_slug_char w = "") as Hd.
  { intros w Hw. apply keep_chars_none.
    eapply all_chars_weaken; [|exact Hw].
    intros c Hc. destruct (is_slug_char c) eqn:E; [|done].
    apply slug_char_not_dash in E. congruence. }
  by rewrite (Hd u Hu), (Hd t Ht), append_empty_r.
Qed.

Lemma slugify_no_double_dash : Py.contains "--" (slugify txt) = false.
Proof.
  unfold slugify.
  destruct (strip_by_split is_dash (sub_runs false (Py.lower txt)))
    as (u & t & Hs & _ & _).
  destruct (sub_runs_dashes false (Py.lower txt)) as [H _].
  destruct (Py.contains "--" (Py.strip_by is_dash _)) eqn:E; [|done].
  rewrite Hs in H. rewrite <- H. symmetry.
  by apply contains_app_r, contains_app_l.
Qed.

Lemma slugify_ends :
  Py.startswith (slugify txt) "-" = false /\ Py.endswith (slugify txt) "-" = false.
Proof.
  rewrite startswith_char, endswith_char. unfold slugify.
  destruct (strip_by_ends is_dash (sub_runs false (Py.lower txt))) as [Hh Hl].
  split; [exact Hh | exact Hl].
Qed.

End SlugFacts.

Lemma endswith_app (a b : string) : Py.endswith (a +:+ b) b = true.
Proof.
  induction a as [|x a IH]; simpl.
  - destruct b as [|y b]; [done|].
    change (String.eqb (String y b) (String y b) || Py.endswith b (String y b) = true).
    by rewrite String.eqb_refl.
  - rewrite IH. apply orb_true_r.
Qed.

Lemma date_arg_cases (text : string) :
  date_arg text = None \/ exists c s, date_arg text = Some (String c s).
Proof. unfold date_arg. destruct (Py.strip text); simpl; eauto. Qed.

Lemma fname_cases (serie_titulo start_date end_date : string) :
  fname serie_titulo start_date end_date =
    match date_arg start_date, date_arg end_date with
    | Some s, Some e => slugify serie_titulo +:+ "_" +:+ s +:+ "_" +:+ e +:+ ".csv"
    | Some s, None => slugify serie_titulo +:+ "_" +:+ s +:+ ".csv"
    | None, Some e => slugify serie_titulo +:+ "_" +:+ e +:+ ".csv"
    | None, None => slugify serie_titulo +:+ ".csv"
    end.
Proof.
  unfold fname, fname_of.
  destruct (date_arg_cases start_date) as [->|(c & s & ->)],
           (date_arg_cases end_date) as [->|(d & e & ->)]; simpl; try done.
  by rewrite append_assoc.
Qed.

(** *** The slug, run by run *)










(** *** Every text is whitespace, a bare text, whitespace *)





Lemma date_arg_padding (u d v : string) :
  Py.blank u = true -> Py.blank v = true -> Py.boundary d = true ->
  date_arg (u +:+ d +:+ v) = date_arg d.
Proof.
  intros Hu Hv Hd. unfold date_arg. by rewrite strip_padding.
Qed.

Lemma date_arg_blank (u : string) : Py.blank u = true -> date_arg u = None.
Proof.
  intros Hu. unfold date_arg. by rewrite strip_blank.
Qed.

Lemma chars_nonempty (s : string) : Forall (fun ch => ch <> "") (Py.chars s).
Proof.
  induction s as [|b s IH]; [constructor|]. rewrite chars_cons.
  destruct (Py.chars s) as [|ch r]; [by repeat constructor|].
  apply Forall_cons in IH as [Hch Hr].
  destruct (Py.head_is Py.is_cont ch); repeat (constructor; try done).
Qed.

Lemma unchars_empty (l : list string) :
  Forall (fun ch => ch <> "") l -> Py.unchars l = "" -> l = [].
Proof.
  destruct l as [|ch l]; [done|]. intros [Hch _]%Forall_cons. simpl.
  by destruct ch.
Qed.

(** A date box counts as empty exactly when it holds whitespace only. *)
Lemma date_arg_None (text : string) :
  date_arg text = None <-> Py.blank text = true.
Proof.
  split; [|apply date_arg_blank].
  unfold date_arg, Py.strip, Py.blank. intros H.
  destruct (ldrop_split Py.isspace (Py.chars text)) as (u & Hu & Hpu).
  destruct (rdrop_split Py.isspace (Py.ldrop Py.isspace (Py.chars text)))
    as (t & Ht & Hpt).
  assert (Py.rdrop Py.isspace (Py.ldrop Py.isspace (Py.chars text)) = []) as E.
  { apply unchars_empty.
    - pose proof (chars_nonempty text) as Hne.
      rewrite Hu, Ht, !Forall_app in Hne. by destruct Hne as (_ & ? & _).
    - by destruct (Py.unchars _). }
  rewrite E in Ht. simpl in Ht. rewrite Hu, Ht, forallb_app. by rewrite Hpu, Hpt.
Qed.





(** C10. A title without any character of [a-z0-9] after lower-casing has
    the empty slug: without dates its file is [.csv] and its script [.py],
    so two such titles share the download path and the script path. *)
Theorem slugify_without_alnum (app_dir t1 t2 : string) :
  Py.all_chars (fun c => negb (is_slug_char c)) (Py.lower t1) = true ->
  Py.all_chars (fun c => negb (is_slug_char c)) (Py.lower t2) = true ->
  slugify t1 = ""
  /\ fname t1 "" "" = ".csv"
  /\ script_name t1 = ".py"
  /\ path_join (DL_DIR app_dir) (fname t1 "" "") =
     path_join (DL_DIR app_dir) (fname t2 "" "")
  /\ path_join (SCRIPTS_DIR app_dir) (script_name t1) =
     path_join (SCRIPTS_DIR app_dir) (script_name t2).
Proof.
  intros H1 H2.
  assert (forall t, Py.all_chars (fun c => negb (is_slug_char c)) (Py.lower t) = true ->
                    slugify t = "") as Hs.
  { intros t Ht. unfold slugify. by apply strip_by_all, sub_runs_no_slug_char. }
  unfold script_name, fname. rewrite (Hs t1 H1), (Hs t2 H2). done.
Qed.

Lemma slugify_without_alnum_witness :
  slugify "¿¡!?" = "" /\ fname "¿¡!?" "" "" = ".csv" /\ script_name "ÑÉ" = ".py".
Proof.
  destruct (slugify_without_alnum "/srv/app" "¿¡!?" "ÑÉ") as (H1 & H2 & H3 & H4 & H5);
    [reflexivity | reflexivity |].
  split; [exact H1|]. split; [exact H2|]. reflexivity.
Defined.

Example slugify_example : slugify "Serie de Ejemplo!!" = "serie-de-ejemplo".
Proof. reflexivity. Qed.

Example slugify_accents : slugify "¡Índice – Año!" = "ndice-a-o".
Proof. reflexivity. Qed.

Example slugify_dotted_capital_i : slugify "İstanbul" = "i-stanbul".
Proof. reflexivity. Qed.

Example slugify_kelvin_sign : slugify "300 K" = "300-k".
Proof. reflexivity. Qed.

Example fname_example_1 : fname "Serie de Ejemplo!!" "" "" = "serie-de-ejemplo.csv".
Proof. reflexivity. Qed.

Example fname_example_2 :
  fname "Serie de Ejemplo!!" " 2020-01-01 " "" = "serie-de-ejemplo_2020-01-01.csv".
Proof. reflexivity. Qed.

Example fname_example_3 :
  fname "Serie de Ejemplo!!" "" "2020-02-01" = "serie-de-ejemplo_2020-02-01.csv".
Proof. reflexivity. Qed.

Example fname_example_4 :
  fname "IPC" "2020-01-01" "2020-02-01" = "ipc_2020-01-01_2020-02-01.csv".
Proof. reflexivity. Qed.

(** ** Loading the catalogue *)

Section FrameFacts.
Import Pandas.

Lemma assoc_assign (name : string) (c : column) (d : list (string * column)) :
  assoc name (assign name c d) = Some c.
Proof.
  induction d as [|[n c'] d IH]; simpl.
  - by rewrite String.eqb_refl.
  - destruct (String.eqb n name) eqn:E; simpl; by rewrite E.
Qed.

Lemma assoc_None (name : string) (d : list (string * column)) :
  assoc name d = None <-> name ∉ map fst d.
Proof.
  induction d as [|[n c'] d IH]; simpl.
  - split; [intros _; apply not_elem_of_nil | done].
  - rewrite not_elem_of_cons. destruct (String.eqb n name) eqn:E.
    + apply String.eqb_eq in E. split; [done | intros [? _]; congruence].
    + apply String.eqb_neq in E. rewrite IH.
      split; [intros ?; split; congruence | by intros [_ ?]].
Qed.

Lemma assign_fresh (name : string) (c : column) (d : list (string * column)) :
  assoc name d = None -> assign name c d = d ++ [(name, c)].
Proof.
  induction d as [|[n c'] d IH]; simpl; [done|].
  destruct (String.eqb n name); [done|]. intros H. by rewrite IH.
Qed.

Lemma has_column_assoc (name : string) (df : DataFrame) :
  has_column name df = false <-> assoc name (data df) = None.
Proof.
  unfold has_column, columns. rewrite bool_decide_eq_false. symmetry.
  apply assoc_None.
Qed.

Lemma fillna_to_numeric (to_number : string -> option Q) (c : column) :
  fillna 0 (to_numeric to_number c) = NumCol (map Some (coerced_counts to_number c)).
Proof.
  destruct c as [v|v]; simpl; f_equal; rewrite !map_map; done.
Qed.

End FrameFacts.

Lemma bind_Ok {A B} (c : M A) (k : A -> M B) (w w' : world) (b : B) :
  bind c k w = (Ok b, w') ->
  exists a w1, c w = (Ok a, w1) /\ k a w1 = (Ok b, w').
Proof.
  unfold bind. destruct (c w) as [[a|e] w1]; [eauto | done].
Qed.

(** What [load_catalog] returns, in terms of the frame the reader parsed. *)
Lemma load_catalog_inv read_csv to_number requests (w w' : world) (df : Pandas.DataFrame) :
  load_catalog read_csv to_number requests w = (Ok df, w') ->
  exists bytes raw c,
    read_csv bytes = Ok raw
    /\ c = default (Pandas.scalar_column 0 raw)
             (Pandas.assoc "consultas_90_dias" (Pandas.data raw))
    /\ df = Pandas.setitem "consultas_90_dias"
              (Pandas.NumCol (map Some (coerced_counts to_number c)))
              (if Pandas.has_column "consultas_90_dias" raw then raw
               else Pandas.setitem "consultas_90_dias" (Pandas.scalar_column 0 raw) raw).
Proof.
  unfold load_catalog. intros (bytes & w1 & _ & H)%bind_Ok.
  apply bind_Ok in H as (raw & w2 & Hraw & H).
  unfold lift in Hraw. injection Hraw as Hraw <-.
  apply bind_Ok in H as (c0 & w3 & Hc0 & H).
  unfold lift in Hc0. injection Hc0 as Hc0 <-.
  unfold ret in H. injection H as <- <-.
  rename Hc0 into H.
  exists bytes, raw.
  destruct (Pandas.has_column "consultas_90_dias" raw) eqn:Hc; simpl in H.
  - unfold Pandas.getitem in H.
    destruct (Pandas.assoc "consultas_90_dias" (Pandas.data raw)) as [c|] eqn:Ha.
    + exists c. simpl. rewrite <- fillna_to_numeric. by simplify_eq.
    + apply has_column_assoc in Ha. congruence.
  - unfold Pandas.getitem in H. simpl in H. rewrite assoc_assign in H.
    apply has_column_assoc in Hc. rewrite Hc. simpl.
    exists (Pandas.scalar_column 0 raw).
    rewrite <- fillna_to_numeric. by simplify_eq.
Qed.

(** Without [requests] the embedded CSV is read, whatever the world. *)
Lemma load_catalog_fallback (w : world) :
  load_catalog Csv.read_csv Csv.parse_number None w =
  (Ok embedded_frame, log missing_requests_warning w).
Proof. reflexivity. Qed.

(** C1, as the code has it.  In every catalogue [load_catalog] returns the
    column [consultas_90_dias] exists and holds numbers only, none of them
    missing: a number that was read is kept (a negative one too), text that
    is not a number and missing values become 0, and a column that was absent
    is created with 0 in every row.  The embedded fallback holds no negative
    value. *)
Theorem load_catalog_counts read_csv to_number requests (w w' : world)
    (df : Pandas.DataFrame) :
  load_catalog read_csv to_number requests w = (Ok df, w') ->
  exists raw counts,
    (exists bytes, read_csv bytes = Ok raw)
    /\ Pandas.has_column "consultas_90_dias" df = true
    /\ Pandas.assoc "consultas_90_dias" (Pandas.data df) =
         Some (Pandas.NumCol (map Some counts))
    /\ (forall v, Pandas.assoc "consultas_90_dias" (Pandas.data raw) =
                    Some (Pandas.NumCol v) ->
                  counts = map (fun o => match o with Some q => q | None => 0%Q end) v)
    /\ (forall v, Pandas.assoc "consultas_90_dias" (Pandas.data raw) =
                    Some (Pandas.StrCol v) ->
                  counts = map (fun o => match o ≫= to_number with
                                         | Some q => q
                                         | None => 0%Q
                                         end) v)
    /\ (Pandas.assoc "consultas_90_dias" (Pandas.data raw) = None ->
        counts = replicate (Pandas.nrows raw) 0%Q
        /\ Pandas.data df = Pandas.data raw ++
             [("consultas_90_dias", Pandas.NumCol (map Some counts))])
    /\ (forall w0, load_catalog Csv.read_csv Csv.parse_number None w0 =
                     (Ok embedded_frame, log missing_requests_warning w0))
    /\ Pandas.assoc "consultas_90_dias" (Pandas.data embedded_frame) =
         Some (Pandas.NumCol [Some 999%Q])
    /\ (0 <= 999)%Q.
Proof.
  intros (bytes & raw & c & Hraw & Hc & ->)%load_catalog_inv.
  exists raw, (coerced_counts to_number c).
  split; [eauto|].
  assert (Pandas.assoc "consultas_90_dias"
            (Pandas.data (Pandas.setitem "consultas_90_dias"
               (Pandas.NumCol (map Some (coerced_counts to_number c)))
               (if Pandas.has_column "consultas_90_dias" raw then raw
                else Pandas.setitem "consultas_90_dias"
                       (Pandas.scalar_column 0 raw) raw))) =
          Some (Pandas.NumCol (map Some (coerced_counts to_number c)))) as Hget
    by apply assoc_assign.
  split.
  { destruct (Pandas.has_column _ (Pandas.setitem _ _ _)) eqn:E; [done|].
    apply has_column_assoc in E. congruence. }
  split; [exact Hget|].
  split; [intros v Hv; rewrite Hv in Hc; by subst c|].
  split; [intros v Hv; rewrite Hv in Hc; by subst c|].
  split; [|done].
  intros Hnone. rewrite Hnone in Hc. simpl in Hc. subst c.
  assert (coerced_counts to_number (Pandas.scalar_column 0 raw) =
          replicate (Pandas.nrows raw) 0%Q) as ->.
  { unfold Pandas.scalar_column. simpl.
    induction (Pandas.nrows raw) as [|n IH]; simpl; by rewrite ?IH. }
  split; [done|].
  apply has_column_assoc in Hnone as Hcol. rewrite Hcol. simpl.
  rewrite (assign_fresh _ _ _ Hnone).
  replace (Pandas.assign "consultas_90_dias"
             (Pandas.NumCol (map Some (replicate (Pandas.nrows raw) 0%Q)))
             (Pandas.data raw ++ [("consultas_90_dias", Pandas.scalar_column 0 raw)]))
    with (Pandas.data raw ++
            Pandas.assign "consultas_90_dias"
              (Pandas.NumCol (map Some (replicate (Pandas.nrows raw) 0%Q)))
              [("consultas_90_dias", Pandas.scalar_column 0 raw)]); [done|].
  clear -Hnone. induction (Pandas.data raw) as [|[n c] d IH]; simpl in *; [done|].
  destruct (String.eqb n "consultas_90_dias"); [done|]. by rewrite IH.
Qed.

Lemma load_catalog_counts_witness :
  exists raw counts,
    (exists bytes, Csv.read_csv bytes = Ok raw)
    /\ Pandas.assoc "consultas_90_dias" (Pandas.data embedded_frame) =
         Some (Pandas.NumCol (map Some counts)).
Proof.
  destruct (load_catalog_counts Csv.read_csv Csv.parse_number None empty_world
              (log missing_requests_warning empty_world) embedded_frame eq_refl)
    as (raw & counts & Hraw & _ & Hcounts & _).
  exists raw, counts. split; [exact Hraw | exact Hcounts].
Defined.

(** C1 as stated fails: a catalogue fetched from the network with a negative
    query count keeps it. *)
Lemma load_catalog_negative_count :
  exists df w',
    load_catalog Csv.read_csv Csv.parse_number
      (Some (server_with "serie_id,consultas_90_dias
A,-5
")) empty_world = (Ok df, w')
    /\ Pandas.assoc "consultas_90_dias" (Pandas.data df) =
         Some (Pandas.NumCol [Some (-5)%Q])
    /\ (-5 < 0)%Q.
Proof.
  eexists _, _. split; [reflexivity|]. split; [reflexivity|]. reflexivity.
Qed.

(** ** Downloading without the network client *)

Lemma download_series_errors (rq : requests_module) (url : string) (w w' : world)
    (e : exn) :
  download_series (Some rq) url w = (Err e, w') ->
  (exists m, e = RequestException m) /\ trace w' = trace w ++ [Fetched url].
Proof.
  unfold download_series, bind, requests_get, raise_for_status, raise, ret.
  destruct (respond rq (trace w) url) as [m|r]; [naive_solver|].
  destruct ((400 <=? status_code r)%nat && (status_code r <? 600)%nat);
    [naive_solver | done].
Qed.

(** C7. Without [requests], [download_series] raises its own [RuntimeError]
    from the check at its first line: nothing is fetched and the world is as
    before, and no failure of an actual request has that class.
    [load_catalog] does not fail: it shows a warning, fetches nothing and
    returns the embedded table, one row under the six embedded columns. *)
Theorem requests_missing (url : string) (w : world) :
  download_series None url w =
    (Err (RuntimeError "Necesitas la librería *requests* para descargar las series."), w)
  /\ (forall rq e w', download_series (Some rq) url w = (Err e, w') ->
                      (exists m, e = RequestException m)
                      /\ trace w' = trace w ++ [Fetched url])
  /\ load_catalog Csv.read_csv Csv.parse_number None w =
       (Ok embedded_frame, log missing_requests_warning w)
  /\ Csv.read_csv _EMBEDDED_CSV = Ok embedded_frame
  /\ Pandas.nrows embedded_frame = 1
  /\ Pandas.columns embedded_frame =
       ["serie_id"; "serie_titulo"; "dataset_tema"; "dataset_descripcion";
        "serie_descripcion"; "consultas_90_dias"].
Proof.
  split; [reflexivity|].
  split; [intros rq e w'; apply download_series_errors|].
  split; [apply load_catalog_fallback|].
  split; [reflexivity|]. split; reflexivity.
Qed.

(** ** The text filter *)

Section MaskFacts.

Lemma elem_of_mask_positions (mask : list bool) (k i : nat) :
  i ∈ Pandas.mask_positions k mask <-> k <= i /\ mask !! (i - k) = Some true.
Proof.
  revert k. induction mask as [|b m IH]; intros k; simpl.
  - rewrite elem_of_nil. split; [done|]. by intros [_ ?].
  - rewrite elem_of_app, IH. destruct b; simpl.
    + rewrite list_elem_of_singleton. split.
      * intros [->|[Hk Hi]]; [by rewrite Nat.sub_diag|].
        split; [lia|]. by replace (i - k) with (S (i - S k)) by lia.
      * intros [Hk Hi]. destruct (decide (i = k)) as [->|Hne]; [by left|].
        right. split; [lia|].
        by replace (i - k) with (S (i - S k)) in Hi by lia.
    + rewrite elem_of_nil. split.
      * intros [[]|[Hk Hi]].
        split; [lia|]. by replace (i - k) with (S (i - S k)) by lia.
      * intros [Hk Hi]. right.
        destruct (decide (i = k)) as [->|Hne];
          [by rewrite Nat.sub_diag in Hi|].
        split; [lia|].
        by replace (i - k) with (S (i - S k)) in Hi by lia.
Qed.

Lemma mask_positions_sorted (mask : list bool) (k : nat) :
  StronglySorted lt (Pandas.mask_positions k mask).
Proof.
  revert k. induction mask as [|b m IH]; intros k; simpl; [constructor|].
  destruct b; simpl; [|apply IH].
  constructor; [apply IH|].
  apply Forall_forall. intros i [Hi _]%elem_of_mask_positions. lia.
Qed.

End MaskFacts.

Section PlainPatterns.
Variable re_rest : regex_rest.







End PlainPatterns.

(** *** ASCII search texts on ordinary titles *)

Section AsciiSearch.
Variable uni : string -> string -> bool.









Lemma ascii_not_lead_byte (c : ascii) :
  Re.is_ascii c = true -> Ascii.eqb c "196" = false /\ Ascii.eqb c "226" = false.
Proof. by destruct c as [[] [] [] [] [] [] [] []]. Qed.

Lemma startswith_dotted_I (c c2 : ascii) (s : string) :
  Py.startswith (String c (String c2 s)) Re.dotted_I =
  Ascii.eqb "196" c && Ascii.eqb "176" c2.
Proof.
  change (Py.startswith (String c (String c2 s)) Re.dotted_I)
    with (Ascii.eqb "196" c && (Ascii.eqb "176" c2 && Py.startswith s "")).
  by rewrite startswith_empty, andb_true_r.
Qed.

Lemma startswith_kelvin (c c2 c3 : ascii) (s : string) :
  Py.startswith (String c (String c2 (String c3 s))) Re.kelvin =
  Ascii.eqb "226" c && (Ascii.eqb "132" c2 && Ascii.eqb "170" c3).
Proof.
  change (Py.startswith (String c (String c2 (String c3 s))) Re.kelvin)
    with (Ascii.eqb "226" c && (Ascii.eqb "132" c2
                                && (Ascii.eqb "170" c3 && Py.startswith s ""))).
  by rewrite startswith_empty, andb_true_r.
Qed.

(** One step of [lower] where none of its two special characters begins. *)
Lemma lower_step (c : ascii) (s : string) :
  Py.startswith (String c s) Re.dotted_I = false ->
  Py.startswith (String c s) Re.kelvin = false ->
  Py.lower (String c s) = String (Py.lower_char c) (Py.lower s).
Proof.
  destruct s as [|c2 s2]; [done|].
  change (Py.lower (String c (String c2 s2))) with
    (if Ascii.eqb c "196" && Ascii.eqb c2 "176"
     then String "i" (String "204" (String "135" (Py.lower s2)))
     else
       match s2 with
       | EmptyString => String (Py.lower_char c) (Py.lower (String c2 s2))
       | String c3 s3 =>
           if Ascii.eqb c "226" && Ascii.eqb c2 "132" && Ascii.eqb c3 "170"
           then String "k" (Py.lower s3)
           else String (Py.lower_char c) (Py.lower (String c2 s2))
       end).
  rewrite startswith_dotted_I, (Ascii.eqb_sym "196" c), (Ascii.eqb_sym "176" c2).
  intros -> HK. destruct s2 as [|c3 s3]; [done|].
  rewrite startswith_kelvin, (Ascii.eqb_sym "226" c), (Ascii.eqb_sym "132" c2),
    (Ascii.eqb_sym "170" c3), andb_assoc in HK.
  by rewrite HK.
Qed.

Lemma startswith_head_false (c : ascii) (s p : string) (a : ascii) (p' : string) :
  p = String a p' -> Ascii.eqb a c = false -> Py.startswith (String c s) p = false.
Proof. intros -> H. simpl. by rewrite H. Qed.

(** On ASCII text [lower] works character by character. *)
Lemma lower_ascii (s : string) :
  Py.all_chars Re.is_ascii s = true -> Py.lower s = Py.map_chars Py.lower_char s.
Proof.
  induction s as [|c s IH]; [done|].
  intros [Hc Hs]%andb_true_iff.
  destruct (ascii_not_lead_byte c Hc) as [H196 H226].
  rewrite lower_step, (IH Hs); [done| |].
  - apply (startswith_head_false c s _ "196" _ eq_refl). by rewrite Ascii.eqb_sym.
  - apply (startswith_head_false c s _ "226" _ eq_refl). by rewrite Ascii.eqb_sym.
Qed.














End AsciiSearch.




(** ** Column order *)

Section Reorder.
Import Pandas.

Lemma select_columns_data_bind (names : list string) (d : list (string * column)) :
  (forall n, n ∈ names -> n ∈ map fst d) ->
  select_columns_data names d = Ok (names ≫= with_label d).
Proof.
  induction names as [|n names IH]; intros Hin; [done|].
  simpl. rewrite IH by (intros m Hm; apply Hin; by right).
  destruct (with_label d n) as [|x l] eqn:E; [|done].
  exfalso. assert (n ∈ map fst d) as Hn by (apply Hin; by left).
  apply list_elem_of_fmap in Hn as ([n' c] & -> & Hnc).
  eapply (filter_nil_not_elem_of _ _ (n', c)); [exact E | done | done].
Qed.

Lemma with_label_absent (d : list (string * column)) (n : string) :
  n ∉ map fst d -> with_label d n = [].
Proof.
  unfold with_label. induction d as [|[m c] d IH]; [done|].
  simpl. intros [Hm Hd]%not_elem_of_cons.
  rewrite filter_cons_False by (simpl; congruence). by apply IH.
Qed.

(** With distinct labels, a label selects its one column. *)
Lemma with_label_singleton (d : list (string * column)) (n : string) (c : column) :
  NoDup (map fst d) -> (n, c) ∈ d -> with_label d n = [(n, c)].
Proof.
  induction d as [|[m c'] d IH]; intros Hnd Hin.
  - by apply elem_of_nil in Hin.
  - simpl in Hnd. apply NoDup_cons in Hnd as [Hm Hnd].
    unfold with_label. apply elem_of_cons in Hin as [[= <- <-]|Hin].
    + rewrite filter_cons_True by done. f_equal. by apply with_label_absent.
    + rewrite filter_cons_False; [by apply IH|].
      simpl. intros ->. apply Hm.
      apply list_elem_of_fmap. by exists (n, c).
Qed.

Lemma bind_with_label (d l : list (string * column)) :
  NoDup (map fst d) -> (forall nc, nc ∈ l -> nc ∈ d) ->
  map fst l ≫= with_label d = l.
Proof.
  intros Hnd. induction l as [|[n c] l IH]; intros Hin; [done|].
  change (map fst ((n, c) :: l)) with (n :: map fst l).
  rewrite bind_cons, IH by (intros nc Hnc; apply Hin; by right).
  rewrite (with_label_singleton d n c) by (try done; apply Hin; by left).
  done.
Qed.

Lemma filter_iff_elem (P Q : string -> Prop)
    `{!forall x, Decision (P x), !forall x, Decision (Q x)} (l : list string) :
  (forall x, x ∈ l -> P x <-> Q x) -> filter P l = filter Q l.
Proof.
  induction l as [|x l IH]; intros HPQ; [done|].
  rewrite !filter_cons, IH by (intros y Hy; apply HPQ; by right).
  assert (P x <-> Q x) as Hx by (apply HPQ; by left).
  destruct (decide (P x)), (decide (Q x)); tauto.
Qed.

Lemma assoc_elem_of (d : list (string * column)) (n : string) (c : column) :
  NoDup (map fst d) -> assoc n d = Some c <-> (n, c) ∈ d.
Proof.
  induction d as [|[m c'] d IH]; intros Hnd; simpl.
  - split; [done | by intros ?%elem_of_nil].
  - simpl in Hnd. apply NoDup_cons in Hnd as [Hm Hnd].
    rewrite elem_of_cons, <- (IH Hnd).
    destruct (String.eqb m n) eqn:E.
    + apply String.eqb_eq in E as ->. split.
      * intros [= ->]. by left.
      * intros [[= ->]|Ha]; [done|]. exfalso. apply Hm.
        apply (IH Hnd) in Ha. apply list_elem_of_fmap. by exists (n, c).
    + apply String.eqb_neq in E. split; [by right|].
      intros [[= -> ->]|Ha]; [done | exact Ha].
Qed.

Lemma assoc_Permutation (d d' : list (string * column)) (n : string) :
  NoDup (map fst d) -> d ≡ₚ d' -> assoc n d = assoc n d'.
Proof.
  intros Hnd Hp.
  assert (NoDup (map fst d')) as Hnd' by by rewrite <- Hp.
  destruct (assoc n d) as [c|] eqn:E.
  - symmetry. apply assoc_elem_of; [done|]. rewrite <- Hp.
    by apply assoc_elem_of.
  - destruct (assoc n d') as [c|] eqn:E'; [|done].
    apply assoc_elem_of in E'; [|done]. rewrite <- Hp in E'.
    apply assoc_elem_of in E'; [congruence | done].
Qed.

Variable preferred : list string.
Variable df : DataFrame.
Hypothesis preferred_distinct : NoDup preferred.
Hypothesis columns_distinct : NoDup (columns df).

Let existing_preferred := filter (fun c => c ∈ columns df) preferred.
Let remaining_cols := filter (fun c => c ∉ existing_preferred) (columns df).

Lemma remaining_cols_eq :
  remaining_cols = filter (fun c => c ∉ preferred) (columns df).
Proof.
  apply filter_iff_elem. intros c Hc. unfold existing_preferred.
  rewrite list_elem_of_filter. tauto.
Qed.

Lemma new_order_Permutation :
  existing_preferred ++ remaining_cols ≡ₚ columns df.
Proof.
  apply NoDup_Permutation; [|done|].
  - apply NoDup_app. split; [by apply NoDup_filter|].
    split; [|by apply NoDup_filter].
    intros c Hc [Hn _]%list_elem_of_filter. by apply Hn.
  - intros c. rewrite elem_of_app. unfold remaining_cols.
    rewrite list_elem_of_filter. unfold existing_preferred at 1.
    rewrite list_elem_of_filter. split; [tauto|].
    intros Hc. destruct (decide (c ∈ existing_preferred)) as [Hin|Hout].
    + apply list_elem_of_filter in Hin. tauto.
    + tauto.
Qed.

Lemma reorder_columns_ok :
  exists df',
    reorder_columns preferred df = Ok df'
    /\ columns df' = existing_preferred ++ remaining_cols
    /\ data df' ≡ₚ data df
    /\ index df' = index df.
Proof.
  unfold reorder_columns, select_columns.
  fold existing_preferred. fold remaining_cols.
  rewrite select_columns_data_bind.
  2:{ intros n Hn. rewrite new_order_Permutation in Hn. exact Hn. }
  eexists. split; [reflexivity|]. unfold columns at 1. simpl.
  assert ((existing_preferred ++ remaining_cols) ≫= with_label (data df) ≡ₚ data df)
    as Hperm.
  { rewrite new_order_Permutation. unfold columns.
    by rewrite bind_with_label. }
  split; [|done].
  pose proof new_order_Permutation as Hp.
  generalize dependent (existing_preferred ++ remaining_cols).
  intros names _ Hnames. clear -columns_distinct Hnames.
  assert (forall n, n ∈ names -> n ∈ columns df) as Hin
    by (intros n; by rewrite Hnames).
  clear Hnames. induction names as [|n names IH]; [done|].
  rewrite bind_cons, map_app, IH by (intros m Hm; apply Hin; by right).
  assert (n ∈ columns df) as Hn by (apply Hin; by left).
  apply list_elem_of_fmap in Hn as ([n' c] & -> & Hnc).
  by rewrite (with_label_singleton _ _ c).
Qed.

End Reorder.

Lemma preferred_order_distinct : NoDup preferred_order.
Proof. apply (bool_decide_unpack _). vm_compute. exact I. Qed.

(** C3. Reordering a table whose columns have distinct labels succeeds and
    only permutes the columns: the preferred labels that are present come
    first, in the order of the preferred list, the others follow in their
    original order; the columns are the same with the same values, and the
    rows are untouched.  With [A; C] preferred, [B; C; A; D] becomes
    [A; C; B; D]. *)
Theorem reorder_columns_permutation (preferred : list string) (df : Pandas.DataFrame) :
  NoDup preferred ->
  NoDup (Pandas.columns df) ->
  (exists df',
      reorder_columns preferred df = Ok df'
      /\ Pandas.columns df' =
           filter (fun c => c ∈ Pandas.columns df) preferred ++
           filter (fun c => c ∉ preferred) (Pandas.columns df)
      /\ Pandas.columns df' ≡ₚ Pandas.columns df
      /\ NoDup (Pandas.columns df')
      /\ length (Pandas.columns df') = length (Pandas.columns df)
      /\ Pandas.data df' ≡ₚ Pandas.data df
      /\ (forall name, Pandas.assoc name (Pandas.data df') =
                       Pandas.assoc name (Pandas.data df))
      /\ Pandas.index df' = Pandas.index df)
  /\ NoDup preferred_order
  /\ (Pandas.columns df = ["B"; "C"; "A"; "D"] ->
      exists df', reorder_columns ["A"; "C"] df = Ok df'
                  /\ Pandas.columns df' = ["A"; "C"; "B"; "D"]).
Proof.
  intros Hpref Hcols. split; [|split; [apply preferred_order_distinct|]].
  - destruct (reorder_columns_ok preferred df Hpref Hcols)
      as (df' & Hok & Hc & Hperm & Hidx).
    exists df'. split; [done|].
    rewrite <- (remaining_cols_eq preferred df). split; [done|].
    assert (Pandas.columns df' ≡ₚ Pandas.columns df) as Hcp.
    { rewrite Hc. by apply new_order_Permutation. }
    split; [done|]. split; [by rewrite Hcp|]. split; [by rewrite Hcp|].
    split; [done|]. split; [|done].
    intros name. symmetry. by apply assoc_Permutation.
  - intros Habcd.
    assert (NoDup ["A"; "C"]) as Hac
      by (apply (bool_decide_unpack _); vm_compute; exact I).
    destruct (reorder_columns_ok ["A"; "C"] df Hac Hcols)
      as (df' & Hok & Hc & _).
    exists df'. split; [done|]. rewrite Hc, Habcd. reflexivity.
Qed.

Lemma reorder_columns_permutation_witness :
  exists df', reorder_columns ["A"; "C"] sample_bcad = Ok df'
              /\ Pandas.columns df' = ["A"; "C"; "B"; "D"].
Proof.
  assert (NoDup ["A"; "C"]) as Hac
    by (apply (bool_decide_unpack _); vm_compute; exact I).
  assert (NoDup (Pandas.columns sample_bcad)) as Hcols
    by (apply (bool_decide_unpack _); vm_compute; exact I).
  destruct (reorder_columns_permutation ["A"; "C"] sample_bcad Hac Hcols)
    as (_ & _ & Hex).
  exact (Hex eq_refl).
Defined.

(** ** Sorting *)

#[local] Arguments Pandas.take_list : simpl never.

Section TakeFacts.
Import Pandas.
Context {A : Type}.
Implicit Types (l : list A) (a b : list nat).

Lemma take_list_cons i a l :
  take_list (i :: a) l =
  match l !! i with
  | Some x => x :: take_list a l
  | None => take_list a l
  end.
Proof. done. Qed.

Lemma take_list_app a b l : take_list (a ++ b) l = take_list a l ++ take_list b l.
Proof. apply omap_app. Qed.

Lemma take_list_reverse a l : take_list (reverse a) l = reverse (take_list a l).
Proof.
  induction a as [|i a IH]; [done|].
  rewrite reverse_cons, take_list_app, IH, !take_list_cons.
  destruct (l !! i); by rewrite ?reverse_cons, ?app_nil_r.
Qed.

Lemma take_list_seq_app l1 l2 :
  take_list (seq (length l1) (length l2)) (l1 ++ l2) = l2.
Proof.
  revert l1. induction l2 as [|x l2 IH]; intros l1; [done|].
  change (seq (length l1) (length (x :: l2)))
    with (length l1 :: seq (S (length l1)) (length l2)).
  rewrite take_list_cons, lookup_app_r by lia. rewrite Nat.sub_diag. simpl. f_equal.
  specialize (IH (l1 ++ [x])). rewrite length_app in IH. simpl in IH.
  rewrite Nat.add_1_r, <- app_assoc in IH. exact IH.
Qed.

Lemma take_list_seq l : take_list (seq 0 (length l)) l = l.
Proof. apply (take_list_seq_app [] l). Qed.

Lemma take_list_Permutation a b l : a ≡ₚ b -> take_list a l ≡ₚ take_list b l.
Proof. intros H. unfold take_list. by rewrite H. Qed.

Lemma take_list_lookup (ix : list nat) l j :
  Forall (fun i => i < length l) ix ->
  take_list ix l !! j = ix !! j ≫= (l !!.).
Proof.
  intros Hix. revert j. induction Hix as [|i ix Hi _ IH]; intros j; [done|].
  rewrite take_list_cons.
  destruct (lookup_lt_is_Some_2 l i Hi) as [x Hx]. rewrite Hx.
  destruct j as [|j]; simpl; [done|]. apply IH.
Qed.

Lemma take_list_in_range a l :
  Forall (fun i => i < length l) a -> length (take_list a l) = length a.
Proof.
  induction 1 as [|i a Hi _ IH]; [done|].
  rewrite take_list_cons.
  destruct (lookup_lt_is_Some_2 l i Hi) as [x ->]. simpl. by rewrite IH.
Qed.

End TakeFacts.

(** Taking through an indexer that was itself taken. *)
Lemma take_list_take_list {A} (a ix : list nat) (l : list A) :
  Forall (fun i => i < length l) ix ->
  Pandas.take_list (Pandas.take_list a ix) l =
  Pandas.take_list a (Pandas.take_list ix l).
Proof.
  intros Hix. induction a as [|j a IH]; [done|].
  rewrite !take_list_cons, (take_list_lookup ix l j Hix).
  destruct (ix !! j) as [i|]; simpl; [|done].
  rewrite take_list_cons. destruct (l !! i); simpl; by rewrite IH.
Qed.

Lemma take_list_fmap {A B} (f : A -> B) (a : list nat) (l : list A) :
  Pandas.take_list a (f <$> l) = f <$> Pandas.take_list a l.
Proof.
  induction a as [|i a IH]; [done|].
  rewrite !take_list_cons, IH, list_lookup_fmap.
  by destruct (l !! i).
Qed.

Section MaskSplit.
Import Pandas.
Context {K : Type}.
Implicit Types (v pre : list (option K)).

Lemma take_present pre v :
  take_list (mask_positions (length pre) (map negb (map isna v))) (pre ++ v) =
  Some <$> omap id v.
Proof.
  revert pre. induction v as [|o v IH]; intros pre; [done|].
  specialize (IH (pre ++ [o])). rewrite length_app, <- app_assoc in IH.
  simpl in IH. rewrite Nat.add_1_r in IH.
  simpl. rewrite take_list_app, IH. destruct o as [x|]; simpl; [|done].
  rewrite take_list_cons, lookup_app_r by lia. by rewrite Nat.sub_diag.
Qed.

Lemma take_missing pre v :
  take_list (mask_positions (length pre) (map isna v)) (pre ++ v) =
  replicate (length (mask_positions (length pre) (map isna v))) None.
Proof.
  revert pre. induction v as [|o v IH]; intros pre; [done|].
  specialize (IH (pre ++ [o])). rewrite length_app, <- app_assoc in IH.
  simpl in IH. rewrite Nat.add_1_r in IH.
  simpl. rewrite take_list_app, IH, length_app.
  destruct o as [x|]; simpl; [done|].
  rewrite take_list_cons, lookup_app_r by lia. by rewrite Nat.sub_diag.
Qed.

Lemma mask_positions_split (k : nat) (mask : list bool) :
  mask_positions k (map negb mask) ++ mask_positions k mask ≡ₚ seq k (length mask).
Proof.
  revert k. induction mask as [|b mask IH]; intros k; [done|].
  simpl. rewrite <- (IH (S k)). destruct b; simpl; [|done].
  symmetry. apply Permutation_middle.
Qed.

Lemma mask_positions_bound (k : nat) (mask : list bool) :
  Forall (fun i => i < k + length mask) (mask_positions k mask).
Proof.
  apply Forall_forall. intros i [Hk Hi]%elem_of_mask_positions.
  apply lookup_lt_Some in Hi. lia.
Qed.

Lemma length_present v :
  length (mask_positions 0 (map negb (map isna v))) = length (omap id v).
Proof.
  pose proof (take_present [] v) as H. simpl in H.
  apply (f_equal length) in H. rewrite length_fmap in H. rewrite <- H.
  symmetry. apply take_list_in_range.
  eapply Forall_impl; [apply mask_positions_bound|].
  intros i. simpl. by rewrite !length_map.
Qed.

End MaskSplit.

Lemma StronglySorted_reverse_flip {A} (R : relation A) (l : list A) :
  StronglySorted R l -> StronglySorted (flip R) (reverse l).
Proof.
  induction 1 as [|x l Hl IH Hx]; [constructor|].
  rewrite reverse_cons. apply StronglySorted_app_2; [|done | by repeat constructor].
  intros a b Ha Hb%list_elem_of_singleton. subst b.
  rewrite elem_of_reverse in Ha. rewrite Forall_forall in Hx. exact (Hx a Ha).
Qed.

Section NargsortFacts.
Import Pandas.
Context {K : Type} (leb : K -> K -> bool).
Hypothesis leb_total : forall a b, leb a b = true \/ leb b a = true.
Hypothesis leb_trans : forall a b c, leb a b = true -> leb b c = true -> leb a c = true.
Variable argsort : forall K : Type, (K -> K -> bool) -> list K -> list nat.
Hypothesis argsort_sorts : sorts argsort.

(** The non-missing part of the indexer, for keys [n] found at the
    positions [ix] of [v]. *)
Lemma argsort_present (v : list (option K)) (n : list K) (ix : list nat) :
  take_list ix v = Some <$> n ->
  Forall (fun i => i < length v) ix ->
  take_list (argsort K leb n) ix ≡ₚ ix
  /\ take_list (take_list (argsort K leb n) ix) v =
       Some <$> take_list (argsort K leb n) n
  /\ StronglySorted (fun a b => leb a b = true) (take_list (argsort K leb n) n).
Proof.
  intros Htake Hrange.
  destruct (argsort_sorts K leb n leb_total leb_trans) as [Hperm Hsorted].
  assert (length n = length ix) as Hlen.
  { rewrite <- (take_list_in_range ix v Hrange), Htake. by rewrite length_fmap. }
  split; [|split; [|done]].
  - rewrite (take_list_Permutation _ _ ix Hperm), Hlen. by rewrite take_list_seq.
  - by rewrite take_list_take_list, Htake, take_list_fmap.
Qed.

Lemma nargsort_spec (v : list (option K)) (ascending : bool) :
  nargsort argsort leb v ascending ≡ₚ seq 0 (length v)
  /\ sorted_then_missing leb ascending (take_list (nargsort argsort leb v ascending) v)
  /\ exists present,
       nargsort argsort leb v ascending =
       present ++ mask_positions 0 (map isna v).
Proof.
  pose proof (take_present [] v) as Hpres. simpl in Hpres.
  pose proof (take_missing [] v) as Hmiss. simpl in Hmiss.
  assert (Forall (fun i => i < length v)
            (mask_positions 0 (map negb (map isna v)))) as Hrange.
  { eapply Forall_impl; [apply mask_positions_bound|].
    intros i. simpl. by rewrite !length_map. }
  pose proof (mask_positions_split 0 (map isna v)) as Hsplit.
  rewrite length_map in Hsplit.
  unfold nargsort. destruct ascending.
  - destruct (argsort_present v (omap id v) _ Hpres Hrange) as (Hp & Ht & Hs).
    split; [by rewrite Hp|]. split; [|eauto].
    rewrite take_list_app, Ht, Hmiss. by eexists _, _.
  - assert (take_list (reverse (mask_positions 0 (map negb (map isna v)))) v =
            Some <$> reverse (omap id v)) as Hpres'
      by by rewrite take_list_reverse, Hpres, fmap_reverse.
    assert (Forall (fun i => i < length v)
              (reverse (mask_positions 0 (map negb (map isna v))))) as Hrange'.
    { apply Forall_forall. intros i Hi. rewrite elem_of_reverse in Hi.
      rewrite Forall_forall in Hrange. by apply Hrange. }
    destruct (argsort_present v (reverse (omap id v)) _ Hpres' Hrange')
      as (Hp & Ht & Hs).
    split; [by rewrite reverse_Permutation, Hp, reverse_Permutation|].
    split; [|eauto].
    rewrite take_list_app, take_list_reverse, Ht, Hmiss, <- fmap_reverse.
    eexists _, _. split; [done|].
    by apply StronglySorted_reverse_flip in Hs.
Qed.

End NargsortFacts.

Section KeyOrders.

Lemma Qle_bool_total (a b : Q) : Qle_bool a b = true \/ Qle_bool b a = true.
Proof.
  rewrite !Qle_bool_iff.
  destruct (Qlt_le_dec a b) as [H|H]; [left; by apply Qlt_le_weak | by right].
Qed.

Lemma Qle_bool_trans (a b c : Q) :
  Qle_bool a b = true -> Qle_bool b c = true -> Qle_bool a c = true.
Proof. rewrite !Qle_bool_iff. apply Qle_trans. Qed.

Lemma string_leb_trans (a b c : string) :
  String.leb a b = true -> String.leb b c = true -> String.leb a c = true.
Proof.
  intros H1%Is_true_true H2%Is_true_true. apply Is_true_true.
  change (strings.String.le a c).
  transitivity b; [exact H1 | exact H2].
Qed.

End KeyOrders.

Section TiesReversed.
Context {K : Type} (leb : K -> K -> bool).
Hypothesis leb_total : forall a b, leb a b = true \/ leb b a = true.
Hypothesis leb_trans : forall a b c, leb a b = true -> leb b c = true -> leb a c = true.

#[local] Instance ties_reversed_total : Total (ties_reversed leb).
Proof.
  intros [i a] [j b]. unfold ties_reversed. simpl.
  destruct (leb a b) eqn:Hab, (leb b a) eqn:Hba; simpl; auto.
  - destruct (Nat.leb_spec j i), (Nat.leb_spec i j); auto; lia.
  - destruct (leb_total a b); congruence.
Qed.

#[local] Instance ties_reversed_trans : Transitive (ties_reversed leb).
Proof.
  intros [i a] [j b] [k c]. unfold ties_reversed. simpl.
  intros [Hab H1]%andb_true_iff [Hbc H2]%andb_true_iff.
  rewrite (leb_trans a b c Hab Hbc). simpl.
  destruct (leb c a) eqn:Hca; [|done]. simpl.
  rewrite (leb_trans b c a Hbc Hca) in H1.
  rewrite (leb_trans c a b Hca Hab) in H2. simpl in *.
  apply Nat.leb_le in H1, H2. apply Nat.leb_le. lia.
Qed.

Lemma elem_of_zip_seq (l : list K) (i : nat) (a : K) :
  (i, a) ∈ zip (seq 0 (length l)) l -> l !! i = Some a.
Proof.
  intros (j & Hj)%list_elem_of_lookup.
  apply lookup_zip_with_Some in Hj as (i' & a' & [= <- <-] & Hi & Ha).
  apply lookup_seq in Hi as [-> _]. done.
Qed.

Lemma take_list_fst (l : list K) (s : list (nat * K)) :
  (forall i a, (i, a) ∈ s -> l !! i = Some a) ->
  Pandas.take_list (s.*1) l = s.*2.
Proof.
  induction s as [|[i a] s IH]; intros Hs; [done|].
  rewrite !fmap_cons, take_list_cons. simpl.
  rewrite (Hs i a) by by left. f_equal. apply IH.
  intros j b Hj. apply Hs. by right.
Qed.

Lemma argsort_ties_reversed_sorts (l : list K) :
  argsort_ties_reversed K leb l ≡ₚ seq 0 (length l)
  /\ StronglySorted (fun a b => leb a b = true)
       (Pandas.take_list (argsort_ties_reversed K leb l) l).
Proof.
  unfold argsort_ties_reversed.
  set (s := merge_sort (ties_reversed leb) (zip (seq 0 (length l)) l)).
  assert (s ≡ₚ zip (seq 0 (length l)) l) as Hperm by apply merge_sort_Permutation.
  split.
  - rewrite Hperm, fst_zip; [done|]. by rewrite length_seq.
  - rewrite take_list_fst.
    + apply (StronglySorted_fmap _ (ties_reversed leb)).
      * intros [i a] [j b] Hr. unfold ties_reversed in Hr. simpl in *.
        by apply andb_true_iff in Hr as [? _].
      * apply StronglySorted_merge_sort; apply _.
    + intros i a Hia. rewrite Hperm in Hia. by apply elem_of_zip_seq.
Qed.

End TiesReversed.

Lemma argsort_ties_reversed_ok : sorts argsort_ties_reversed.
Proof. intros K leb l Htotal Htrans. by apply argsort_ties_reversed_sorts. Qed.

Lemma assoc_take_rows (name : string) (indexer : list nat) (df : Pandas.DataFrame) :
  Pandas.assoc name (Pandas.data (Pandas.take_rows indexer df)) =
  Pandas.take_column indexer <$> Pandas.assoc name (Pandas.data df).
Proof.
  unfold Pandas.take_rows. simpl.
  induction (Pandas.data df) as [|[n c] d IH]; simpl; [done|].
  by destruct (String.eqb n name).
Qed.




(** ** Saving on the server *)

Section PathFacts.

Lemma last_is_app (p : ascii -> bool) (a b : string) :
  b <> "" -> Py.last_is p (a +:+ b) = Py.last_is p b.
Proof.
  intros Hb. induction a as [|x a IH]; [done|].
  change (String x a +:+ b) with (String x (a +:+ b)).
  destruct (a +:+ b) as [|y r] eqn:E; [|exact IH].
  destruct a; simpl in E; [by subst b | done].
Qed.

Lemma last_is_path_join (p : ascii -> bool) (a b : string) :
  b <> "" -> Py.last_is p (path_join a b) = Py.last_is p b.
Proof.
  intros Hb. unfold path_join.
  destruct (Py.startswith b "/"); [done|].
  destruct (String.eqb a "" || Py.endswith a "/").
  - by apply last_is_app.
  - rewrite last_is_app; [by apply last_is_app|]. by destruct b.
Qed.

(** A download never has the path of a companion script. *)
Lemma csv_path_not_script (d1 d2 base1 base2 : string) (start end_ : option string) :
  path_join d1 (fname_of base1 start end_) <> path_join d2 (script_name_of base2).
Proof.
  intros Heq. apply (f_equal (Py.last_is (Ascii.eqb "v"))) in Heq.
  rewrite !last_is_path_join in Heq.
  - unfold script_name_of in Heq. rewrite (last_is_app _ base2 ".py") in Heq by done.
    unfold fname_of in Heq.
    destruct (Py.truthy start || Py.truthy end_).
    + rewrite <- !append_assoc in Heq.
      rewrite (last_is_app _ _ ".csv") in Heq by done. done.
    + rewrite (last_is_app _ _ ".csv") in Heq by done. done.
  - unfold script_name_of. by destruct base2.
  - unfold fname_of. destruct (Py.truthy start || Py.truthy end_); by destruct base1.
Qed.

Lemma count_writes_app (path : string) (t1 t2 : list event) :
  count_writes path (t1 ++ t2) = count_writes path t1 + count_writes path t2.
Proof.
  induction t1 as [|e t1 IH]; [done|].
  destruct e; simpl; rewrite IH; lia.
Qed.

End PathFacts.

Section StepFacts.
Variable sp : string.

Lemma extends_refl (w : world) : extends sp 0 w w.
Proof. exists []. by rewrite app_nil_r. Qed.

Lemma extends_trans (n m : nat) (w1 w2 w3 : world) :
  extends sp n w1 w2 -> extends sp m w2 w3 -> extends sp (n + m) w1 w3.
Proof.
  intros (a1 & H1 & <-) (a2 & H2 & <-). exists (a1 ++ a2).
  by rewrite H2, H1, app_assoc, count_writes_app.
Qed.

Lemma extends_log (e : event) (w : world) :
  count_writes sp [e] = 0 -> extends sp 0 w (log e w).
Proof. intros H. by exists [e]. Qed.

Lemma path_exists_insert (p q c : string) (f : fsys) :
  path_exists p {| files := <[q := c]> (files f); dirs := dirs f;
                   writable := writable f |} =
  path_exists p f || bool_decide (p = q).
Proof.
  unfold path_exists. simpl. apply eq_true_iff_eq.
  rewrite orb_true_iff, !bool_decide_eq_true.
  destruct (decide (p = q)) as [->|Hne].
  - rewrite lookup_insert_eq. split; [by right | intros _; left; eauto].
  - rewrite lookup_insert_ne by done. split; [by left | by intros [?|?]].
Qed.

Lemma download_series_trace requests (url : string) (w w' : world)
    (r : result string) :
  download_series requests url w = (r, w') ->
  fs w' = fs w
  /\ exists added, trace w' = trace w ++ added
                   /\ (added = [] \/ added = [Fetched url]).
Proof.
  unfold download_series, bind, requests_get, raise_for_status, raise, ret.
  destruct requests as [rq|].
  2:{ intros [= <- <-]. split; [done|]. exists []. rewrite app_nil_r. auto. }
  destruct (respond rq (trace w) url) as [m|resp].
  - intros [= <- <-]. split; [done|]. exists [Fetched url]. auto.
  - destruct ((400 <=? status_code resp)%nat && (status_code resp <? 600)%nat);
      intros [= <- <-]; (split; [done|]); exists [Fetched url]; auto.
Qed.

Lemma download_series_extends requests (url : string) (w w' : world)
    (r : result string) :
  download_series requests url w = (r, w') ->
  fs w' = fs w
  /\ exists added, trace w' = trace w ++ added
                   /\ count_writes sp added = 0
                   /\ forall e, Shown Sidebar Error e ∉ added.
Proof.
  intros [Hfs (added & Ht & Ha)]%download_series_trace. split; [done|].
  exists added. split; [done|].
  destruct Ha as [->| ->]; (split; [done|]); intros e He.
  - by apply elem_of_nil in He.
  - apply list_elem_of_singleton in He. done.
Qed.

(** Writing a file: it fails and changes nothing, or the file is there. *)
Lemma write_file_cases (path text : string) (w w' : world) (r : result unit) :
  write_file path text w = (r, w') ->
  (writable (fs w) path = false /\ r = Err (OSError path) /\ w' = w)
  \/ (writable (fs w) path = true /\ r = Ok tt
      /\ trace w' = trace w ++ [Wrote path text]
      /\ files (fs w') = <[path := text]> (files (fs w))
      /\ forall p, path_exists p (fs w') = path_exists p (fs w) || bool_decide (p = path)).
Proof.
  unfold write_file. destruct (writable (fs w) path); intros [= <- <-].
  - right. split; [done|]. split; [done|]. split; [done|].
    split; [done|]. intros p. apply path_exists_insert.
  - by left.
Qed.

End StepFacts.

Lemma bind_cases {A B} (c : M A) (k : A -> M B) (w w' : world) (r : result B) :
  bind c k w = (r, w') ->
  (exists e, c w = (Err e, w') /\ r = Err e)
  \/ (exists a w1, c w = (Ok a, w1) /\ k a w1 = (r, w')).
Proof.
  unfold bind. destruct (c w) as [[a|e] w1]; [eauto|].
  intros [= <- <-]. eauto.
Qed.

Section WorkflowFacts.
Variable requests : option requests_module.
Variable subprocess_run : list string -> fsys -> result (completed * fsys).
Variables app_dir sys_executable today : string.
Variables api_url fname base_slug serie_titulo : string.

Let file_path := path_join (DL_DIR app_dir) fname.
Let sp := path_join (SCRIPTS_DIR app_dir) (base_slug +:+ ".py").
Let saved := Shown Sidebar Success ("✅ Guardado en servidor: descargas/" +:+ fname).

Hypothesis paths_differ : file_path <> sp.

Lemma count_csv_write (text : string) : count_writes sp [Wrote file_path text] = 0.
Proof.
  simpl. destruct (String.eqb file_path sp) eqn:E; [|done].
  by apply String.eqb_eq in E.
Qed.

Lemma save_file_spec (w w' : world) (r : result string) :
  save_file requests app_dir api_url fname w = (r, w') ->
  exists added,
    trace w' = trace w ++ added
    /\ count_writes sp added = 0
    /\ (forall p, path_exists p (fs w) = true -> path_exists p (fs w') = true)
    /\ path_exists sp (fs w') = path_exists sp (fs w)
    /\ ((exists e, r = Err e)
        \/ (r = Ok file_path
            /\ exists text pre,
                 added = pre ++ [Wrote file_path text; saved]
                 /\ files (fs w') !! file_path = Some text))
    /\ (forall text w1,
          download_series requests api_url w = (Ok text, w1) ->
          writable (fs w1) file_path = true ->
          r = Ok file_path
          /\ Wrote file_path text ∈ added
          /\ saved ∈ added
          /\ files (fs w') !! file_path = Some text)
    /\ (forall e, Shown Sidebar Error e ∉ added).
Proof.
  unfold save_file. fold file_path. fold saved.
  intros [(e & Hdl & ->)|(text & w1 & Hdl & H)]%bind_cases.
  { apply (download_series_extends sp) in Hdl as Hd.
    destruct Hd as [Hfs (added & Ht & Hc & Hne)].
    exists added. rewrite Hfs. split; [done|]. split; [done|].
    split; [done|]. split; [done|]. split; [eauto|]. split; [|done].
    intros text w1 Hdl'. congruence. }
  apply (download_series_extends sp) in Hdl as Hd.
  destruct Hd as [Hfs (pre & Ht & Hc & Hne)].
  apply bind_cases in H as [(e & Hw & ->)|([] & w2 & Hw & H)].
  { apply write_file_cases in Hw as [(Hnw & _ & ->)|(_ & [=] & _)].
    exists pre. rewrite Hfs. split; [done|]. split; [done|].
    split; [done|]. split; [done|]. split; [eauto|]. split; [|done].
    intros text' w1' Hdl'. rewrite Hdl in Hdl'. injection Hdl' as <- <-.
    congruence. }
  apply write_file_cases in Hw as [(_ & [=] & _)|(Hwr & _ & Ht2 & Hfile & Hex)].
  unfold bind, emit, ret in H. injection H as <- <-.
  exists (pre ++ [Wrote file_path text; saved]). simpl.
  split. { rewrite Ht2, Ht, <- !app_assoc. done. }
  split. { rewrite count_writes_app, Hc. simpl.
           destruct (String.eqb file_path sp) eqn:E; [|done].
           by apply String.eqb_eq in E. }
  split. { intros p Hp. rewrite Hex, Hfs, Hp. done. }
  split. { rewrite Hex, Hfs. rewrite bool_decide_eq_false_2 by done.
           apply orb_false_r. }
  assert (files (fs w2) !! file_path = Some text) as Hlook
    by (rewrite Hfile; apply lookup_insert_eq).
  split. { right. split; [done|]. eauto. }
  split.
  { intros text' w1' Hdl' _. rewrite Hdl in Hdl'. injection Hdl' as <- <-.
    split; [done|]. rewrite !elem_of_app, !elem_of_cons. by auto 6. }
  intros e [He|He]%elem_of_app; [by apply (Hne e)|].
  apply elem_of_cons in He as [[=]|He].
  apply elem_of_cons in He as [He|He]; [by inversion He|].
  by apply elem_of_nil in He.
Qed.

Lemma ensure_script_spec (w w' : world) (r : result string) :
  ensure_script app_dir today base_slug serie_titulo w = (r, w') ->
  exists added,
    trace w' = trace w ++ added
    /\ count_writes sp added <= 1
    /\ (path_exists sp (fs w) = true -> added = [] /\ w' = w /\ r = Ok sp)
    /\ (count_writes sp added = 1 -> path_exists sp (fs w') = true)
    /\ (forall p, path_exists p (fs w) = true -> path_exists p (fs w') = true)
    /\ (forall q, q <> sp -> files (fs w') !! q = files (fs w) !! q)
    /\ (forall e, Shown Sidebar Error e ∉ added).
Proof.
  unfold ensure_script. fold sp.
  unfold bind at 1, os_path_exists.
  destruct (path_exists sp (fs w)) eqn:Hex; simpl.
  - unfold bind, ret. intros [= <- <-]. exists []. rewrite app_nil_r.
    split; [done|]. split; [simpl; lia|]. split; [done|].
    split; [done|]. split; [done|]. split; [done|].
    intros e He. by apply elem_of_nil in He.
  - intros [(e & H & ->)|([] & w1 & H & Hret)]%bind_cases.
    + apply bind_cases in H as [(e' & Hw & [= <-])|([] & w2 & Hw & H)].
      * apply write_file_cases in Hw as [(_ & _ & ->)|(_ & [=] & _)].
        exists []. rewrite app_nil_r.
        split; [done|]. split; [simpl; lia|]. split; [done|].
        split; [done|]. split; [done|]. split; [done|].
        intros e0 He. by apply elem_of_nil in He.
      * unfold emit in H. done.
    + unfold ret in Hret. injection Hret as <- <-.
      apply bind_cases in H as [(e' & Hw & [=])|([] & w2 & Hw & H)].
      apply write_file_cases in Hw as [(_ & [=] & _)|(Hwr & _ & Ht & Hfile & Hp)].
      unfold emit in H. injection H as <-.
      eexists [Wrote sp _; _]. simpl.
      split. { rewrite Ht, <- app_assoc. done. }
      rewrite String.eqb_refl. simpl.
      split; [lia|]. split; [done|].
      split. { intros _. rewrite Hp. rewrite bool_decide_eq_true_2 by done.
               apply orb_true_r. }
      split. { intros p Hpe. by rewrite Hp, Hpe. }
      split. { intros q Hq. by rewrite Hfile, lookup_insert_ne. }
      intros e He. apply elem_of_cons in He as [[=]|He].
      apply elem_of_cons in He as [[=]|He]. by apply elem_of_nil in He.
Qed.

Let script_failed (c : completed) : event :=
  Shown Sidebar Error ("⚠️ Error al ejecutar script:" +:+ nl +:+ stderr c).

Lemma run_script_spec (w w' : world) (r : result unit) :
  run_script subprocess_run sys_executable sp file_path w = (r, w') ->
  exists added,
    trace w' = trace w ++ added
    /\ count_writes sp added = 0
    /\ (keeps_files subprocess_run ->
        forall p, path_exists p (fs w) = true -> path_exists p (fs w') = true)
    /\ (forall c f',
          subprocess_run [sys_executable; sp; file_path] (fs w) = Ok (c, f') ->
          returncode c <> 0%Z ->
          r = Ok tt /\ fs w' = f'
          /\ added = [Ran [sys_executable; sp; file_path] (returncode c);
                      script_failed c]).
Proof.
  unfold run_script, bind, run_process, emit, log.
  destruct (subprocess_run [sys_executable; sp; file_path] (fs w))
    as [[c f']|e] eqn:Hrun.
  - destruct (returncode c =? 0)%Z eqn:Hrc; intros [= <- <-]; simpl.
    + eexists [_; _]. split; [by rewrite <- app_assoc|]. split; [done|].
      split; [intros Hk p; by apply (Hk _ _ _ _ Hrun)|].
      intros c' f'' [= <- <-] Hne. apply Z.eqb_eq in Hrc. done.
    + eexists [_; _]. split; [by rewrite <- app_assoc|]. split; [done|].
      split; [intros Hk p; by apply (Hk _ _ _ _ Hrun)|].
      intros c' f'' [= <- <-] Hne. done.
  - intros [= <- <-]. exists []. rewrite app_nil_r.
    split; [done|]. split; [done|]. split; [done|]. intros c f' [=].
Qed.

(** One press of the save button. *)
Lemma save_on_server_spec (w : world) :
  exists w' added,
    save_on_server requests subprocess_run app_dir sys_executable today
      api_url fname base_slug serie_titulo w = (Ok tt, w')
    /\ trace w' = trace w ++ added
    /\ count_writes sp added <= 1
    /\ (path_exists sp (fs w) = true -> count_writes sp added = 0)
    /\ (keeps_files subprocess_run ->
        path_exists sp (fs w) = true \/ count_writes sp added = 1 ->
        path_exists sp (fs w') = true)
    /\ (forall text w1,
          download_series requests api_url w = (Ok text, w1) ->
          writable (fs w1) file_path = true ->
          Wrote file_path text ∈ added /\ saved ∈ added).
Proof.
  unfold save_on_server, try_except. fold file_path.
  destruct (bind _ _ w) as [r w'] eqn:Hbody.
  assert (exists added,
    trace w' = trace w ++ added
    /\ count_writes sp added <= 1
    /\ (path_exists sp (fs w) = true -> count_writes sp added = 0)
    /\ (keeps_files subprocess_run ->
        path_exists sp (fs w) = true \/ count_writes sp added = 1 ->
        path_exists sp (fs w') = true)
    /\ (forall text w1,
          download_series requests api_url w = (Ok text, w1) ->
          writable (fs w1) file_path = true ->
          Wrote file_path text ∈ added /\ saved ∈ added)) as Hsum.
  { apply bind_cases in Hbody as [(e & Hsave & ->)|(fp & w1 & Hsave & Hbody)].
    { apply save_file_spec in Hsave
        as (a1 & Ht1 & Hc1 & Hk1 & He1 & _ & Hcsv & _).
      exists a1. split; [done|]. split; [lia|]. split; [done|].
      split. { intros _ [Hex|?]; [by apply Hk1 | lia]. }
      intros text w0 Hdl Hwr. destruct (Hcsv text w0 Hdl Hwr) as ([=] & _). }
    apply save_file_spec in Hsave as Hs.
    destruct Hs as (a1 & Ht1 & Hc1 & Hk1 & He1 & Hr1 & Hcsv & _).
    assert (fp = file_path) as ->.
    { destruct Hr1 as [[e [=]]|[[= ->] _]]. done. }
    apply bind_cases in Hbody as [(e & Hens & ->)|(sp' & w2 & Hens & Hrun)].
    { apply ensure_script_spec in Hens
        as (a2 & Ht2 & Hc2 & Hex2 & Hnew2 & Hk2 & _).
      exists (a1 ++ a2). split; [by rewrite Ht2, Ht1, app_assoc|].
      rewrite count_writes_app, Hc1. split; [simpl; lia|].
      split. { intros Hex. rewrite <- He1 in Hex.
               by destruct (Hex2 Hex) as (-> & _). }
      split. { intros _ [Hex|Hone]; [by apply Hk2, Hk1 | by apply Hnew2]. }
      intros text w0 Hdl Hwr. destruct (Hcsv text w0 Hdl Hwr) as (_ & H1 & H2 & _).
      rewrite !elem_of_app. auto. }
    apply ensure_script_spec in Hens as He.
    destruct He as (a2 & Ht2 & Hc2 & Hex2 & Hnew2 & Hk2 & _).
    assert (sp' = sp) as ->.
    { unfold ensure_script in Hens. fold sp in Hens.
      apply bind_cases in Hens as [(e & _ & [=])|(b & w3 & _ & Hens)].
      apply bind_cases in Hens as [(e & _ & [=])|(u & w4 & _ & Hens)].
      unfold ret in Hens. by injection Hens as <- _. }
    apply run_script_spec in Hrun as (a3 & Ht3 & Hc3 & Hk3 & _).
    exists (a1 ++ a2 ++ a3).
    split; [by rewrite Ht3, Ht2, Ht1, <- !app_assoc|].
    rewrite !count_writes_app, Hc1, Hc3. split; [simpl; lia|].
    split. { intros Hex. rewrite <- He1 in Hex.
             destruct (Hex2 Hex) as (-> & _). simpl. lia. }
    split. { intros Hkeep [Hex|Hone]; apply (Hk3 Hkeep).
             - by apply Hk2, Hk1.
             - apply Hnew2. simpl in Hone. lia. }
    intros text w0 Hdl Hwr. destruct (Hcsv text w0 Hdl Hwr) as (_ & H1 & H2 & _).
    rewrite !elem_of_app. auto. }
  destruct Hsum as (added & Ht & Hc & Hex & Hk & Hcsv).
  destruct r as [[]|e].
  - exists w', added. done.
  - unfold emit. eexists _, (added ++ [_]). split; [reflexivity|].
    simpl. split; [by rewrite Ht, <- app_assoc|].
    rewrite count_writes_app. simpl. rewrite Nat.add_0_r.
    split; [done|]. split; [done|]. split; [done|].
    intros text w1 Hdl Hwr. destruct (Hcsv text w1 Hdl Hwr).
    rewrite !elem_of_app. auto.
Qed.

(** A press on which the script exits with a failure. *)
Lemma script_failure_spec (w w2 w3 : world) (c : completed) (f' : fsys) :
  save_file requests app_dir api_url fname w = (Ok file_path, w2) ->
  ensure_script app_dir today base_slug serie_titulo w2 = (Ok sp, w3) ->
  subprocess_run [sys_executable; sp; file_path] (fs w3) = Ok (c, f') ->
  returncode c <> 0%Z ->
  exists text before,
    save_on_server requests subprocess_run app_dir sys_executable today
      api_url fname base_slug serie_titulo w =
      (Ok tt, {| fs := f';
                 trace := trace w3 ++
                   [Ran [sys_executable; sp; file_path] (returncode c);
                    script_failed c] |})
    /\ trace w3 = trace w ++ before
    /\ Wrote file_path text ∈ before
    /\ saved ∈ before
    /\ (forall e, Shown Sidebar Error e ∉ before)
    /\ files (fs w3) !! file_path = Some text.
Proof.
  intros Hsave Hens Hrun Hrc.
  apply save_file_spec in Hsave as Hs.
  destruct Hs as (a1 & Ht1 & _ & _ & _ & Hr1 & _ & Hne1).
  destruct Hr1 as [[e [=]]|(_ & text & pre & -> & Hfile)].
  apply ensure_script_spec in Hens as He.
  destruct He as (a2 & Ht2 & _ & _ & _ & _ & Hsame & Hne2).
  exists text, ((pre ++ [Wrote file_path text; saved]) ++ a2).
  split.
  { unfold save_on_server, try_except, bind. fold file_path. fold sp.
    rewrite Hsave, Hens.
    unfold run_script, bind, run_process. rewrite Hrun.
    apply Z.eqb_neq in Hrc. rewrite Hrc. unfold emit, log. cbn [fs trace].
    rewrite <- app_assoc. reflexivity. }
  split; [by rewrite Ht2, Ht1, <- !app_assoc|].
  split; [rewrite !elem_of_app, !elem_of_cons; by auto 6|].
  split; [rewrite !elem_of_app, !elem_of_cons; by auto 6|].
  split.
  { intros e [He|He]%elem_of_app; [by apply (Hne1 e) | by apply (Hne2 e)]. }
  by rewrite Hsame.
Qed.

End WorkflowFacts.

(** C6. Two presses of the save button for one title, with a child process
    that removes no file: both presses end without an exception and write the
    companion script at most once between them; a press that finds the
    script (the second one whenever the first wrote it) does not write it,
    while the CSV is written again each time the download and the write
    succeed. *)
Theorem companion_script_written_once
    (requests : option requests_module)
    (subprocess_run : list string -> fsys -> result (completed * fsys))
    (app_dir sys_executable today : string)
    (serie_titulo id1 start1 end1 id2 start2 end2 : string) (w0 : world) :
  keeps_files subprocess_run ->
  exists w1 w2 added1 added2,
    save_selected requests subprocess_run app_dir sys_executable today
      id1 serie_titulo start1 end1 w0 = (Ok tt, w1)
    /\ save_selected requests subprocess_run app_dir sys_executable today
         id2 serie_titulo start2 end2 w1 = (Ok tt, w2)
    /\ trace w1 = trace w0 ++ added1
    /\ trace w2 = trace w1 ++ added2
    /\ count_writes (path_join (SCRIPTS_DIR app_dir) (script_name serie_titulo))
         (added1 ++ added2) <= 1
    /\ (count_writes (path_join (SCRIPTS_DIR app_dir) (script_name serie_titulo))
          added1 = 1 ->
        path_exists (path_join (SCRIPTS_DIR app_dir) (script_name serie_titulo))
          (fs w1) = true)
    /\ (path_exists (path_join (SCRIPTS_DIR app_dir) (script_name serie_titulo))
          (fs w1) = true ->
        count_writes (path_join (SCRIPTS_DIR app_dir) (script_name serie_titulo))
          added2 = 0)
    /\ (forall text w',
          download_series requests
            (build_api_url id2 (date_arg start2) (date_arg end2)) w1 = (Ok text, w') ->
          writable (fs w')
            (path_join (DL_DIR app_dir) (fname serie_titulo start2 end2)) = true ->
          Wrote (path_join (DL_DIR app_dir) (fname serie_titulo start2 end2)) text
            ∈ added2).
Proof.
  intros Hkeep. unfold save_selected, script_name, script_name_of, fname.
  set (sp := path_join (SCRIPTS_DIR app_dir) (slugify serie_titulo +:+ ".py")).
  destruct (save_on_server_spec requests subprocess_run app_dir sys_executable today
              (build_api_url id1 (date_arg start1) (date_arg end1))
              (fname_of (slugify serie_titulo) (date_arg start1) (date_arg end1))
              (slugify serie_titulo) serie_titulo
              (csv_path_not_script _ _ _ _ _ _) w0)
    as (w1 & added1 & Hrun1 & Ht1 & Hc1 & Hex1 & Hk1 & _).
  destruct (save_on_server_spec requests subprocess_run app_dir sys_executable today
              (build_api_url id2 (date_arg start2) (date_arg end2))
              (fname_of (slugify serie_titulo) (date_arg start2) (date_arg end2))
              (slugify serie_titulo) serie_titulo
              (csv_path_not_script _ _ _ _ _ _) w1)
    as (w2 & added2 & Hrun2 & Ht2 & Hc2 & Hex2 & _ & Hcsv2).
  fold sp in Hc1, Hex1, Hk1, Hc2, Hex2.
  exists w1, w2, added1, added2.
  split; [done|]. split; [done|]. split; [done|]. split; [done|].
  split.
  { rewrite count_writes_app.
    destruct (decide (count_writes sp added1 = 1)) as [Hone|Hnone]; [|lia].
    rewrite Hex2; [lia|]. apply (Hk1 Hkeep). by right. }
  split; [intros Hone; apply (Hk1 Hkeep); by right|].
  split; [done|].
  intros text w' Hdl Hwr. by destruct (Hcsv2 text w' Hdl Hwr).
Qed.

Lemma process_exiting_keeps_files (code : Z) (err : string) :
  keeps_files (process_exiting code err).
Proof. intros argv f c f' [= <- <-] p Hp. exact Hp. Qed.

Lemma companion_script_written_once_witness :
  exists w1 w2 added1 added2,
    save_selected (Some (server_with "fecha,valor")) (process_exiting 0 "")
      "/srv/app" "python3" "2025-01-01" "TEST123" "Serie de ejemplo" "" ""
      empty_world = (Ok tt, w1)
    /\ save_selected (Some (server_with "fecha,valor")) (process_exiting 0 "")
         "/srv/app" "python3" "2025-01-01" "TEST123" "Serie de ejemplo" "2020-01-01" ""
         w1 = (Ok tt, w2)
    /\ trace w1 = trace empty_world ++ added1
    /\ trace w2 = trace w1 ++ added2
    /\ count_writes (path_join (SCRIPTS_DIR "/srv/app") (script_name "Serie de ejemplo"))
         (added1 ++ added2) <= 1.
Proof.
  destruct (companion_script_written_once
              (Some (server_with "fecha,valor")) (process_exiting 0 "")
              "/srv/app" "python3" "2025-01-01" "Serie de ejemplo"
              "TEST123" "" "" "TEST123" "2020-01-01" "" empty_world
              (process_exiting_keeps_files 0 ""))
    as (w1 & w2 & added1 & added2 & H1 & H2 & H3 & H4 & H5 & _).
  exists w1, w2, added1, added2.
  split; [exact H1|]. split; [exact H2|]. split; [exact H3|].
  split; [exact H4 | exact H5].
Defined.

(** C8. When the CSV was saved, the script is in place and the child
    process exits with a non-zero code, the press ends without an exception:
    the failure is shown in the sidebar with the standard error of the
    script, after the message that the file was saved; the general failure
    message of the handler is not shown, the workflow does nothing more to
    the files, and the CSV it wrote was on disk, as downloaded, when the
    script started. *)
Theorem script_failure_is_reported
    (requests : option requests_module)
    (subprocess_run : list string -> fsys -> result (completed * fsys))
    (app_dir sys_executable today : string)
    (serie_id serie_titulo start_date end_date : string)
    (w w2 w3 : world) (c : completed) (f' : fsys) :
  save_file requests app_dir
    (build_api_url serie_id (date_arg start_date) (date_arg end_date))
    (fname serie_titulo start_date end_date) w =
    (Ok (path_join (DL_DIR app_dir) (fname serie_titulo start_date end_date)), w2) ->
  ensure_script app_dir today (slugify serie_titulo) serie_titulo w2 =
    (Ok (path_join (SCRIPTS_DIR app_dir) (script_name serie_titulo)), w3) ->
  subprocess_run
    [sys_executable;
     path_join (SCRIPTS_DIR app_dir) (script_name serie_titulo);
     path_join (DL_DIR app_dir) (fname serie_titulo start_date end_date)]
    (fs w3) = Ok (c, f') ->
  returncode c <> 0%Z ->
  exists text before,
    save_selected requests subprocess_run app_dir sys_executable today
      serie_id serie_titulo start_date end_date w =
      (Ok tt,
       {| fs := f';
          trace := trace w3 ++
            [Ran [sys_executable;
                  path_join (SCRIPTS_DIR app_dir) (script_name serie_titulo);
                  path_join (DL_DIR app_dir) (fname serie_titulo start_date end_date)]
               (returncode c);
             Shown Sidebar Error
               ("⚠️ Error al ejecutar script:" +:+ nl +:+ stderr c)] |})
    /\ trace w3 = trace w ++ before
    /\ Wrote (path_join (DL_DIR app_dir) (fname serie_titulo start_date end_date)) text
         ∈ before
    /\ Shown Sidebar Success
         ("✅ Guardado en servidor: descargas/" +:+ fname serie_titulo start_date end_date)
         ∈ before
    /\ (forall e, Shown Sidebar Error e ∉ before)
    /\ files (fs w3) !! path_join (DL_DIR app_dir) (fname serie_titulo start_date end_date)
         = Some text.
Proof.
  unfold save_selected, script_name, fname.
  apply script_failure_spec, csv_path_not_script.
Qed.

Lemma script_failure_is_reported_witness :
  exists text before,
    trace sample_scripted = trace empty_world ++ before
    /\ Wrote "/srv/app/descargas/serie-de-ejemplo.csv" text ∈ before
    /\ files (fs sample_scripted) !! "/srv/app/descargas/serie-de-ejemplo.csv"
         = Some text.
Proof.
  destruct (script_failure_is_reported
              (Some (server_with "fecha,valor")) (process_exiting 1 "boom")
              "/srv/app" "python3" "2025-01-01"
              "TEST123" "Serie de ejemplo" "" ""
              empty_world sample_saved sample_scripted
              {| returncode := 1; stderr := "boom" |} (fs sample_scripted))
    as (text & before & _ & Ht & Hw & _ & _ & Hf).
  - vm_compute. reflexivity.
  - vm_compute. reflexivity.
  - reflexivity.
  - discriminate.
  - exists text, before. split; [exact Ht|]. split; [exact Hw | exact Hf].
Defined.

(* ================================================================== *)
(** * Further properties of the helpers *)
(* ================================================================== *)

(** ** A slug is its own slug *)

Lemma slug_or_dash_lower (c : ascii) :
  is_slug_char c || is_dash c = true ->
  Re.is_ascii c = true /\ Py.lower_char c = c.
Proof. by destruct c as [[] [] [] [] [] [] [] []]. Qed.

Lemma is_dash_eq (c : ascii) : is_dash c = true -> c = "-"%char.
Proof. apply Ascii.eqb_eq. Qed.

Lemma lower_slug_text (s : string) :
  Py.all_chars (fun c => is_slug_char c || is_dash c) s = true -> Py.lower s = s.
Proof.
  intros H. rewrite lower_ascii.
  - induction s as [|c s IH]; [done|]. simpl in *.
    apply andb_true_iff in H as [Hc Hs].
    destruct (slug_or_dash_lower c Hc) as [_ ->]. by rewrite IH.
  - eapply all_chars_weaken; [|exact H]. intros c Hc.
    by destruct (slug_or_dash_lower c Hc).
Qed.

Lemma sub_runs_fixed (b : bool) (s : string) :
  Py.all_chars (fun c => is_slug_char c || is_dash c) s = true ->
  Py.contains "--" s = false ->
  (b = true -> Py.head_is is_dash s = false) ->
  sub_runs b s = s.
Proof.
  revert b. induction s as [|c s IH]; intros b Hall Hdd Hhead; [done|].
  simpl in Hall. apply andb_true_iff in Hall as [Hc Hs].
  rewrite contains_dashes_cons in Hdd. apply orb_false_iff in Hdd as [Hpair Hdd].
  simpl. destruct (is_slug_char c) eqn:Hslug.
  - f_equal. apply IH; [done | done | done].
  - simpl in Hc. destruct b; [simpl in Hhead; rewrite Hhead in Hc; done|].
    rewrite (is_dash_eq c Hc). f_equal. apply IH; [done | done |].
    intros _. rewrite Hc in Hpair. exact Hpair.
Qed.

Lemma lstrip_fixed (p : ascii -> bool) (s : string) :
  Py.head_is p s = false -> Py.lstrip p s = s.
Proof. destruct s as [|c s]; simpl; [done|]. by intros ->. Qed.

Lemma rstrip_fixed (p : ascii -> bool) (s : string) :
  Py.last_is p s = false -> Py.rstrip p s = s.
Proof.
  induction s as [|c s IH]; [done|].
  destruct s as [|d s].
  - simpl. by intros ->.
  - intros H. change (Py.last_is p (String d s) = false) in H.
    change (Py.rstrip p (String c (String d s))) with
      (match Py.rstrip p (String d s) with
       | EmptyString => if p c then EmptyString else String c EmptyString
       | r => String c r
       end).
    by rewrite (IH H).
Qed.

(** X1. [slugify] is idempotent: a slug is a fixed point. *)
Theorem slugify_idempotent (txt : string) : slugify (slugify txt) = slugify txt.
Proof.
  pose proof (slugify_chars txt) as Hchars.
  pose proof (slugify_no_double_dash txt) as Hdd.
  destruct (slugify_ends txt) as [Hhead Hlast].
  rewrite startswith_char in Hhead. rewrite endswith_char in Hlast.
  unfold slugify at 1. rewrite (lower_slug_text _ Hchars).
  rewrite (sub_runs_fixed false _ Hchars Hdd) by done.
  unfold Py.strip_by. rewrite lstrip_fixed by exact Hhead.
  apply rstrip_fixed. exact Hlast.
Qed.

(** ** The URL determines the request *)

Lemma unquote_percent (c : ascii) (r : string) :
  Urllib.always_safe c = false -> Ascii.eqb c " " = false ->
  unquote_plus (Urllib.percent c +:+ r) = String c (unquote_plus r).
Proof. destruct c as [[] [] [] [] [] [] [] []]; intros; try done. Qed.

Lemma safe_not_escape (c : ascii) :
  Urllib.always_safe c = true -> Ascii.eqb c "+" = false /\ Ascii.eqb c "%" = false.
Proof. by destruct c as [[] [] [] [] [] [] [] []]. Qed.

Lemma unquote_quote_plus (s : string) : unquote_plus (Urllib.quote_plus s) = s.
Proof.
  induction s as [|c s IH]; [done|].
  change (Urllib.quote_plus (String c s))
    with (Urllib.quote_char c +:+ Urllib.quote_plus s).
  unfold Urllib.quote_char.
  destruct (Urllib.always_safe c) eqn:Hsafe.
  - destruct (safe_not_escape c Hsafe) as [Hp Hq].
    change (String c "" +:+ Urllib.quote_plus s) with (String c (Urllib.quote_plus s)).
    change (unquote_plus (String c (Urllib.quote_plus s))) with
      (if Ascii.eqb c "+" then String " " (unquote_plus (Urllib.quote_plus s))
       else if Ascii.eqb c "%" then
         match Urllib.quote_plus s with
         | String h (String l s3) =>
             String (ascii_of_nat (16 * hex_value h + hex_value l)) (unquote_plus s3)
         | _ => String c (Urllib.quote_plus s)
         end
       else String c (unquote_plus (Urllib.quote_plus s))).
    by rewrite Hp, Hq, IH.
  - destruct (Ascii.eqb c " ") eqn:Hsp.
    + apply Ascii.eqb_eq in Hsp as ->. simpl. by rewrite IH.
    + by rewrite unquote_percent, IH.
Qed.

Lemma quote_plus_inj (a b : string) :
  Urllib.quote_plus a = Urllib.quote_plus b -> a = b.
Proof.
  intros H. apply (f_equal unquote_plus) in H. by rewrite !unquote_quote_plus in H.
Qed.

(** Two texts free of [&], each followed by the end or by [&]: equal wholes
    have equal parts. *)
Lemma no_amp_cons (c : ascii) (a : string) :
  Py.all_chars (fun x => negb (Ascii.eqb "&" x)) (String c a) = true ->
  Ascii.eqb c "&" = false
  /\ Py.all_chars (fun x => negb (Ascii.eqb "&" x)) a = true.
Proof.
  intros H.
  change (negb (Ascii.eqb "&" c)
            && Py.all_chars (fun x => negb (Ascii.eqb "&" x)) a = true) in H.
  apply andb_true_iff in H as [Hc Ha]. apply negb_true_iff in Hc.
  by rewrite Ascii.eqb_sym.
Qed.

Lemma amp_or_end_head (c : ascii) (a r : string) :
  amp_or_end (String c a +:+ r) = Ascii.eqb c "&".
Proof. done. Qed.

Lemma split_at_amp (a a' r r' : string) :
  Py.all_chars (fun x => negb (Ascii.eqb "&" x)) a = true ->
  Py.all_chars (fun x => negb (Ascii.eqb "&" x)) a' = true ->
  amp_or_end r = true -> amp_or_end r' = true ->
  a +:+ r = a' +:+ r' -> a = a' /\ r = r'.
Proof.
  revert a'. induction a as [|c a IH]; intros a' Ha Ha' Hr Hr' Heq.
  - destruct a' as [|c' a']; [done|].
    change ("" +:+ r) with r in Heq. subst r.
    apply no_amp_cons in Ha' as [Hc' _].
    rewrite amp_or_end_head in Hr. congruence.
  - destruct a' as [|c' a'].
    + change ("" +:+ r') with r' in Heq. subst r'.
      apply no_amp_cons in Ha as [Hc _].
      rewrite amp_or_end_head in Hr'. congruence.
    + change (String c (a +:+ r) = String c' (a' +:+ r')) in Heq.
      injection Heq as -> Heq.
      apply no_amp_cons in Ha as [_ Ha]. apply no_amp_cons in Ha' as [_ Ha'].
      destruct (IH a' Ha Ha' Hr Hr' Heq) as [-> ->]. done.
Qed.

Lemma optional_param_present (key : string) (v : option string) (rest : string) :
  optional_param key v +:+ rest =
  match present v with
  | Some x => ("&" +:+ key +:+ "=") +:+ (Urllib.quote_plus x +:+ rest)
  | None => rest
  end.
Proof.
  destruct v as [[|c x]|]; try done.
  unfold optional_param, present. by rewrite !append_assoc.
Qed.

Lemma param_inj (key x x' r r' : string) :
  amp_or_end r = true -> amp_or_end r' = true ->
  ("&" +:+ key +:+ "=") +:+ (Urllib.quote_plus x +:+ r) =
  ("&" +:+ key +:+ "=") +:+ (Urllib.quote_plus x' +:+ r') ->
  x = x' /\ r = r'.
Proof.
  intros Hr Hr' H. apply String.app_inj in H.
  apply split_at_amp in H as [Hx ->]; try done; try apply quote_plus_no_amp.
  split; [by apply quote_plus_inj | done].
Qed.

Lemma end_param_inj (e e' : option string) :
  optional_param "end_date" e = optional_param "end_date" e' ->
  present e = present e'.
Proof.
  rewrite <- (append_empty_r (optional_param "end_date" e)).
  rewrite <- (append_empty_r (optional_param "end_date" e')).
  rewrite !optional_param_present.
  destruct (present e) as [x|], (present e') as [x'|]; try done.
  intros H. apply param_inj in H as [-> _]; done.
Qed.

Lemma amp_or_end_optional (key : string) (v : option string) :
  amp_or_end (optional_param key v) = true.
Proof. by destruct v as [[|c x]|]. Qed.

Lemma build_api_url_same (id1 id2 : string) (start1 end1 start2 end2 : option string) :
  build_api_url id1 start1 end1 = build_api_url id2 start2 end2 ->
  id1 = id2 /\ present start1 = present start2 /\ present end1 = present end2.
Proof.
  rewrite !build_api_url_eq. intros H.
  apply String.app_inj in H. apply (String.app_inj "ids=") in H.
  apply split_at_amp in H as [Hid H]; try apply quote_plus_no_amp.
  2,3: rewrite optional_param_present;
       destruct (present _); [done | apply amp_or_end_optional].
  split; [by apply quote_plus_inj|].
  rewrite !optional_param_present in H.
  destruct (present start1) as [x|], (present start2) as [x'|].
  - apply param_inj in H as [-> H]; try apply amp_or_end_optional.
    split; [done | by apply end_param_inj].
  - exfalso. rewrite <- (append_empty_r (optional_param "end_date" end2)) in H.
    rewrite optional_param_present in H. destruct (present end2); discriminate.
  - exfalso. rewrite <- (append_empty_r (optional_param "end_date" end1)) in H.
    rewrite optional_param_present in H. destruct (present end1); discriminate.
  - split; [done | by apply end_param_inj].
Qed.

(** X2. The URL determines the request: two calls of [build_api_url] give
    the same URL only for the same identifier and the same dates, an empty
    date and no date counting as the same. *)
Theorem build_api_url_inj (id1 id2 : string) (start1 end1 start2 end2 : option string) :
  build_api_url id1 start1 end1 = build_api_url id2 start2 end2 ->
  id1 = id2 /\ present start1 = present start2 /\ present end1 = present end2.
Proof. apply build_api_url_same. Qed.

Lemma build_api_url_inj_witness :
  "ABC" = "ABC" /\ present (Some "") = present None
  /\ present (Some "2020-02-01") = present (Some "2020-02-01").
Proof.
  exact (build_api_url_inj "ABC" "ABC" (Some "") (Some "2020-02-01")
           None (Some "2020-02-01") eq_refl).
Defined.

Lemma url_char_weaken (s : string) :
  Py.all_chars (fun x => Urllib.always_safe x || Ascii.eqb x "%" || Ascii.eqb x "+") s = true ->
  Py.all_chars url_char s = true.
Proof.
  apply all_chars_weaken. intros c. by destruct c as [[] [] [] [] [] [] [] []].
Qed.

(** X3. Whatever the identifier and the dates hold, the URL is made of
    letters, digits and [_.-~%+&=:/?] only: no blank, no quote, no byte
    beyond ASCII. *)
Theorem build_api_url_chars (serie_id : string) (start end_ : option string) :
  Py.all_chars url_char (build_api_url serie_id start end_) = true.
Proof.
  rewrite build_api_url_eq, !all_chars_app.
  rewrite (url_char_weaken _ (quote_plus_chars serie_id)).
  assert (forall key v, Py.all_chars url_char key = true ->
                        Py.all_chars url_char (optional_param key v) = true) as Hopt.
  { intros key v Hkey. destruct v as [[|c x]|]; try done.
    unfold optional_param. rewrite !all_chars_app, Hkey.
    by rewrite (url_char_weaken _ (quote_plus_chars (String c x))). }
  rewrite !Hopt by done. done.
Qed.

(** ** Dates as typed *)

(** X4. Whitespace typed around a date does not count, and a date box
    holding whitespace only is an empty box, for every whitespace character
    that [str.strip] removes (the no-break space and the other Unicode spaces
    included): the request URL and the file name are those of the bare date,
    or of no date. *)
Theorem dates_ignore_blanks (serie_id serie_titulo u d v other : string) :
  Py.blank u = true ->
  Py.blank v = true ->
  Py.boundary d = true ->
  date_arg (u +:+ d +:+ v) = date_arg d
  /\ date_arg u = None
  /\ (date_arg d = None <-> Py.blank d = true)
  /\ fname serie_titulo (u +:+ d +:+ v) other = fname serie_titulo d other
  /\ fname serie_titulo other (u +:+ d +:+ v) = fname serie_titulo other d
  /\ fname serie_titulo u other = fname serie_titulo "" other
  /\ build_api_url serie_id (date_arg (u +:+ d +:+ v)) (date_arg other) =
     build_api_url serie_id (date_arg d) (date_arg other)
  /\ build_api_url serie_id (date_arg u) (date_arg other) =
     build_api_url serie_id None (date_arg other).
Proof.
  intros Hu Hv Hd. unfold fname.
  rewrite (date_arg_padding u d v Hu Hv Hd), (date_arg_blank u Hu).
  split; [done|]. split; [done|]. split; [apply date_arg_None | done].
Qed.

Lemma dates_ignore_blanks_witness :
  date_arg (nbsp +:+ "2020-01-01" +:+ "  ") = date_arg "2020-01-01"
  /\ date_arg nbsp = None
  /\ fname "IPC" (nbsp +:+ "2020-01-01" +:+ "  ") "" = fname "IPC" "2020-01-01" "".
Proof.
  destruct (dates_ignore_blanks "ABC" "IPC" nbsp "2020-01-01" "  " "")
    as (H1 & H2 & _ & H4 & _); [reflexivity | reflexivity | reflexivity |].
  split; [exact H1|]. split; [exact H2 | exact H4].
Defined.

(** X5. The file name does not tell a start date from an end date: the
    same text typed in either box, the other left empty, gives one and the
    same file name, while the two requests differ whenever the text is not
    whitespace only. *)
Theorem fname_start_end_collide (serie_id serie_titulo d : string) :
  fname serie_titulo d "" = fname serie_titulo "" d
  /\ (Py.blank d = false ->
      build_api_url serie_id (date_arg d) (date_arg "") <>
      build_api_url serie_id (date_arg "") (date_arg d))
  /\ (Py.blank d = true ->
      build_api_url serie_id (date_arg d) (date_arg "") =
      build_api_url serie_id (date_arg "") (date_arg d)).
Proof.
  split; [|split].
  - rewrite !fname_cases. change (date_arg "") with (@None string).
    by destruct (date_arg d).
  - intros Hd Heq. apply build_api_url_same in Heq as (_ & Hs & _).
    change (date_arg "") with (@None string) in Hs.
    destruct (date_arg_cases d) as [Hn|(c & x & Hx)].
    + apply date_arg_None in Hn. congruence.
    + by rewrite Hx in Hs.
  - intros Hd. by rewrite (date_arg_blank d Hd).
Qed.

(** ** No path separator in a script name *)

Lemma slug_or_dash_not_slash (c : ascii) :
  is_slug_char c || is_dash c = true -> negb (Ascii.eqb "/" c) = true.
Proof. by destruct c as [[] [] [] [] [] [] [] []]. Qed.

Lemma slugify_no_slash (txt : string) :
  Py.all_chars (fun x => negb (Ascii.eqb "/" x)) (slugify txt) = true.
Proof.
  eapply all_chars_weaken; [|apply slugify_chars].
  apply slug_or_dash_not_slash.
Qed.

Lemma date_arg_no_slash (text x : string) :
  Py.all_chars (fun x => negb (Ascii.eqb "/" x)) text = true ->
  date_arg text = Some x ->
  Py.all_chars (fun x => negb (Ascii.eqb "/" x)) x = true.
Proof.
  intros H. unfold date_arg.
  destruct (strip_split text) as (u & t & Hs).
  rewrite Hs, !all_chars_app in H.
  apply andb_true_iff in H as [_ [H _]%andb_true_iff].
  destruct (Py.strip text); [done|]. by intros [= <-].
Qed.

Lemma startswith_absent (c : ascii) (s : string) :
  Py.all_chars (fun x => negb (Ascii.eqb c x)) s = true ->
  Py.startswith s (String c "") = false.
Proof.
  rewrite startswith_char. destruct s as [|d r]; [done|].
  intros H. change (negb (Ascii.eqb c d) && Py.all_chars (fun x => negb (Ascii.eqb c x)) r
                    = true) in H.
  apply andb_true_iff in H as [Hd _]. by apply negb_true_iff in Hd.
Qed.

Lemma contains_char_false (c : ascii) (s : string) :
  Py.contains (String c "") s = false ->
  Py.all_chars (fun x => negb (Ascii.eqb c x)) s = true.
Proof.
  induction s as [|d s IH]; [done|].
  change (Py.startswith (String d s) (String c "") || Py.contains (String c "") s = false ->
          negb (Ascii.eqb c d) && Py.all_chars (fun x => negb (Ascii.eqb c x)) s = true).
  rewrite startswith_char. intros [Hd Hs]%orb_false_iff.
  simpl in Hd. by rewrite Hd, IH.
Qed.

(** X6. The name of a companion script never holds a path separator, so
    the script is a direct entry of the scripts directory; the name of a
    download holds one only if a date box does. *)
Theorem names_without_separator (app_dir serie_titulo start_date end_date : string) :
  Py.contains "/" (script_name serie_titulo) = false
  /\ (path_join (SCRIPTS_DIR app_dir) (script_name serie_titulo) =
        SCRIPTS_DIR app_dir +:+ script_name serie_titulo
      \/ path_join (SCRIPTS_DIR app_dir) (script_name serie_titulo) =
           SCRIPTS_DIR app_dir +:+ "/" +:+ script_name serie_titulo)
  /\ (Py.contains "/" start_date = false ->
      Py.contains "/" end_date = false ->
      Py.contains "/" (fname serie_titulo start_date end_date) = false).
Proof.
  assert (Py.all_chars (fun x => negb (Ascii.eqb "/" x)) (script_name serie_titulo)
          = true) as Hname.
  { unfold script_name, script_name_of. by rewrite all_chars_app, slugify_no_slash. }
  split; [by apply contains_absent|]. split.
  - unfold path_join. rewrite (startswith_absent _ _ Hname).
    destruct (_ || _); auto.
  - intros Hs%contains_char_false He%contains_char_false.
    apply contains_absent. rewrite fname_cases.
    pose proof (slugify_no_slash serie_titulo) as Hslug.
    destruct (date_arg start_date) as [x|] eqn:Ex,
             (date_arg end_date) as [y|] eqn:Ey;
      rewrite !all_chars_app, Hslug,
        ?(date_arg_no_slash _ _ Hs Ex), ?(date_arg_no_slash _ _ He Ey);
      done.
Qed.

(** ** More on loading the catalogue *)

Lemma load_catalog_fetch_eq read_csv to_number (rq : requests_module) :
  load_catalog read_csv to_number (Some rq) =
  bind
    (try_except (download_series (Some rq) CATALOG_URL)
       (fun e =>
          emit (Shown Page Warning
                  ("Fallo descarga catálogo → " +:+ exn_str e
                   +:+ ". Se usará versión mínima.")) ;;
          ret _EMBEDDED_CSV))
    (fun csv_bytes =>
       let* df := lift (read_csv csv_bytes) in
       let df :=
         if negb (Pandas.has_column "consultas_90_dias" df)
         then Pandas.setitem "consultas_90_dias" (Pandas.scalar_column 0 df) df
         else df in
       let* c := lift (Pandas.getitem "consultas_90_dias" df) in
       ret (Pandas.setitem "consultas_90_dias"
              (Pandas.fillna 0 (Pandas.to_numeric to_number c)) df)).
Proof. reflexivity. Qed.

(** X7. When the request for the catalogue fails (the library raises, or
    the answer has a 4xx or 5xx status) [load_catalog] does not fail: it
    shows a warning that carries the error and returns the embedded table;
    nothing else happens to the world. *)
Theorem load_catalog_falls_back (rq : requests_module) (w w1 : world) (e : exn) :
  download_series (Some rq) CATALOG_URL w = (Err e, w1) ->
  load_catalog Csv.read_csv Csv.parse_number (Some rq) w =
    (Ok embedded_frame,
     log (Shown Page Warning
            ("Fallo descarga catálogo → " +:+ exn_str e
             +:+ ". Se usará versión mínima.")) w1)
  /\ w1 = log (Fetched CATALOG_URL) w.
Proof.
  intros Hdl. split.
  - rewrite load_catalog_fetch_eq. unfold bind at 1, try_except. rewrite Hdl.
    reflexivity.
  - unfold download_series, bind, requests_get, raise_for_status, raise, ret in Hdl.
    destruct (respond rq (trace w) CATALOG_URL) as [m|r]; [by injection Hdl|].
    destruct ((400 <=? status_code r)%nat && (status_code r <? 600)%nat);
      by injection Hdl.
Qed.

Lemma load_catalog_falls_back_witness :
  exists text,
    load_catalog Csv.read_csv Csv.parse_number
      (Some {| respond := fun _ _ => inr {| status_code := 503; content := "busy" |} |})
      empty_world =
    (Ok embedded_frame,
     log (Shown Page Warning text) (log (Fetched CATALOG_URL) empty_world)).
Proof.
  eexists.
  destruct (load_catalog_falls_back
              {| respond := fun _ _ => inr {| status_code := 503; content := "busy" |} |}
              empty_world (log (Fetched CATALOG_URL) empty_world)
              (RequestException
                 ("Server Error for url: " +:+ CATALOG_URL)) eq_refl) as [H _].
  exact H.
Defined.

(** X8. A catalogue that was fetched but cannot be parsed is not replaced by
    the embedded one: the error of the reader leaves [load_catalog], and no
    warning is shown. *)
Theorem load_catalog_parse_error read_csv to_number (rq : requests_module)
    (w w1 : world) (body : string) (e : exn) :
  download_series (Some rq) CATALOG_URL w = (Ok body, w1) ->
  read_csv body = Err e ->
  load_catalog read_csv to_number (Some rq) w = (Err e, w1)
  /\ w1 = log (Fetched CATALOG_URL) w.
Proof.
  intros Hdl Hread. split.
  - rewrite load_catalog_fetch_eq. unfold bind at 1, try_except. rewrite Hdl.
    unfold bind, lift. by rewrite Hread.
  - unfold download_series, bind, requests_get, raise_for_status, raise, ret in Hdl.
    destruct (respond rq (trace w) CATALOG_URL) as [m|r]; [done|].
    destruct ((400 <=? status_code r)%nat && (status_code r <? 600)%nat);
      by injection Hdl.
Qed.

Lemma load_catalog_parse_error_witness :
  load_catalog Csv.read_csv Csv.parse_number (Some (server_with "")) empty_world =
  (Err (EmptyDataError "No columns to parse from file"),
   log (Fetched CATALOG_URL) empty_world).
Proof.
  destruct (load_catalog_parse_error Csv.read_csv Csv.parse_number (server_with "")
              empty_world (log (Fetched CATALOG_URL) empty_world) ""
              (EmptyDataError "No columns to parse from file") eq_refl eq_refl)
    as [H _].
  exact H.
Defined.

Lemma assoc_assign_ne (name n : string) (c : Pandas.column)
    (d : list (string * Pandas.column)) :
  name <> n -> Pandas.assoc name (Pandas.assign n c d) = Pandas.assoc name d.
Proof.
  intros Hne.
  assert (String.eqb n name = false) as Hn
    by (apply String.eqb_neq; congruence).
  induction d as [|[m c'] d IH]; simpl; [by rewrite Hn|].
  destruct (String.eqb m n) eqn:E; simpl.
  - apply String.eqb_eq in E as ->. by rewrite Hn.
  - by rewrite IH.
Qed.

Lemma columns_assign_present (n : string) (c : Pandas.column)
    (d : list (string * Pandas.column)) :
  Pandas.assoc n d <> None -> map fst (Pandas.assign n c d) = map fst d.
Proof.
  induction d as [|[m c'] d IH]; simpl; [done|].
  destruct (String.eqb m n) eqn:E; simpl; [done|]. intros H. by rewrite IH.
Qed.

(** X9. The normalisation of [load_catalog] touches the count column only:
    the row labels, every other column and the order of the columns are those
    the reader produced; a count column that had to be created comes last. *)
Theorem load_catalog_keeps_the_rest read_csv to_number requests (w w' : world)
    (df : Pandas.DataFrame) :
  load_catalog read_csv to_number requests w = (Ok df, w') ->
  exists bytes raw,
    read_csv bytes = Ok raw
    /\ Pandas.index df = Pandas.index raw
    /\ (forall name, name <> "consultas_90_dias" ->
          Pandas.assoc name (Pandas.data df) = Pandas.assoc name (Pandas.data raw))
    /\ Pandas.columns df =
         (if Pandas.has_column "consultas_90_dias" raw then Pandas.columns raw
          else Pandas.columns raw ++ ["consultas_90_dias"]).
Proof.
  intros (bytes & raw & c & Hraw & _ & ->)%load_catalog_inv.
  exists bytes, raw. split; [done|].
  destruct (Pandas.has_column "consultas_90_dias" raw) eqn:Hcol.
  - split; [done|]. split.
    + intros name Hne. simpl. by apply assoc_assign_ne.
    + unfold Pandas.columns. simpl. apply columns_assign_present.
      intros Hnone. apply has_column_assoc in Hnone. congruence.
  - apply has_column_assoc in Hcol. split; [done|]. split.
    + intros name Hne. simpl. by rewrite !assoc_assign_ne.
    + unfold Pandas.columns. simpl.
      rewrite columns_assign_present by (rewrite assoc_assign; done).
      rewrite (assign_fresh _ _ _ Hcol), map_app. done.
Qed.

Lemma load_catalog_keeps_the_rest_witness :
  exists bytes raw,
    Csv.read_csv bytes = Ok raw
    /\ Pandas.index embedded_frame = Pandas.index raw.
Proof.
  destruct (load_catalog_keeps_the_rest Csv.read_csv Csv.parse_number None
              empty_world (log missing_requests_warning empty_world)
              embedded_frame eq_refl)
    as (bytes & raw & H1 & H2 & _).
  exists bytes, raw. split; [exact H1 | exact H2].
Defined.

(** ** Topics *)

Section UniqueFacts.
Context {A : Type} (eqb : A -> A -> bool).
Hypothesis eqb_spec : forall x y, eqb x y = true <-> x = y.

Lemma elem_of_filter_bool (f : A -> bool) (x : A) (l : list A) :
  x ∈ List.filter f l <-> x ∈ l /\ f x = true.
Proof. rewrite !list_elem_of_In. apply filter_In. Qed.

Lemma NoDup_filter_bool (f : A -> bool) (l : list A) :
  NoDup l -> NoDup (List.filter f l).
Proof.
  induction 1 as [|x l Hx Hl IH]; simpl; [constructor|].
  destruct (f x); [|done]. constructor; [|done].
  rewrite elem_of_filter_bool. by intros [? _].
Qed.

Lemma elem_of_unique (x : A) (l : list A) : x ∈ unique eqb l <-> x ∈ l.
Proof.
  induction l as [|y l IH]; simpl; [done|].
  rewrite !elem_of_cons, elem_of_filter_bool, IH, negb_true_iff.
  split; [intros [?|[? _]]; auto|].
  intros [->|Hx]; [by left|].
  destruct (eqb y x) eqn:E; [apply eqb_spec in E; auto | auto].
Qed.

Lemma NoDup_unique (l : list A) : NoDup (unique eqb l).
Proof.
  induction l as [|y l IH]; simpl; constructor.
  - rewrite elem_of_filter_bool, negb_true_iff. intros [_ E].
    assert (eqb y y = true) by by apply eqb_spec. congruence.
  - by apply NoDup_filter_bool.
Qed.

End UniqueFacts.

#[local] Instance string_by_leb_total : Total (by_leb String.leb).
Proof. intros a b. apply String.leb_total. Qed.

#[local] Instance string_by_leb_trans : Transitive (by_leb String.leb).
Proof. intros a b c. apply string_leb_trans. Qed.

Lemma StronglySorted_strict {A} (R : relation A) (l : list A) :
  StronglySorted R l -> NoDup l ->
  StronglySorted (fun a b => R a b /\ a <> b) l.
Proof.
  induction 1 as [|x l Hl IH Hx]; intros Hnd; constructor.
  - apply IH. by apply NoDup_cons in Hnd as [_ ?].
  - apply NoDup_cons in Hnd as [Hnot _].
    rewrite Forall_forall in Hx. apply Forall_forall. intros y Hy.
    split; [by apply Hx|]. by intros ->.
Qed.

Lemma elem_of_omap_id {A} (x : A) (v : list (option A)) :
  x ∈ omap id v <-> Some x ∈ v.
Proof.
  rewrite list_elem_of_omap. split.
  - by intros ([y|] & Hy & [= ->]).
  - intros H. by exists (Some x).
Qed.

Lemma all_topics_text (meta : Pandas.DataFrame) (v : list (option string)) :
  Pandas.assoc "dataset_tema" (Pandas.data meta) = Some (Pandas.StrCol v) ->
  exists topics,
    all_topics meta = Ok (SStr <$> topics)
    /\ (forall t, t ∈ topics <-> Some t ∈ v).
Proof.
  intros Hc. unfold all_topics, Pandas.getitem. rewrite Hc.
  eexists. split; [reflexivity|].
  intros t. rewrite merge_sort_Permutation.
  rewrite (elem_of_unique String.eqb String.eqb_eq). apply elem_of_omap_id.
Qed.

(** X10. The entries of the topic box after its first one: every topic
    that occurs in the column, missing values apart, once each and in
    increasing order. *)
Theorem all_topics_sorted_distinct (meta : Pandas.DataFrame) (v : list (option string)) :
  Pandas.assoc "dataset_tema" (Pandas.data meta) = Some (Pandas.StrCol v) ->
  exists topics,
    all_topics meta = Ok (SStr <$> topics)
    /\ topic_options meta = Ok (SStr "Todos" :: (SStr <$> topics))
    /\ (forall t, t ∈ topics <-> Some t ∈ v)
    /\ StronglySorted (fun a b => String.leb a b = true /\ a <> b) topics.
Proof.
  intros Hc. unfold topic_options, all_topics, Pandas.getitem. rewrite Hc.
  eexists. split; [reflexivity|]. split; [reflexivity|]. split.
  - intros t. rewrite merge_sort_Permutation.
    rewrite (elem_of_unique String.eqb String.eqb_eq). apply elem_of_omap_id.
  - apply (StronglySorted_strict (by_leb String.leb)).
    + apply StronglySorted_merge_sort; apply _.
    + rewrite merge_sort_Permutation. apply (NoDup_unique String.eqb String.eqb_eq).
Qed.

Lemma all_topics_sorted_distinct_witness :
  exists topics,
    all_topics embedded_frame = Ok (SStr <$> topics)
    /\ topic_options embedded_frame = Ok (SStr "Todos" :: (SStr <$> topics))
    /\ (forall t, t ∈ topics <-> Some t ∈ [Some "Actividad"])
    /\ StronglySorted (fun a b => String.leb a b = true /\ a <> b) topics.
Proof.
  exact (all_topics_sorted_distinct embedded_frame [Some "Actividad"] eq_refl).
Defined.

Lemma eq_scalar_text_lookup (v : list (option string)) (t : string) (i : nat) :
  eq_scalar (Pandas.StrCol v) (SStr t) !! i = Some true <-> v !! i = Some (Some t).
Proof.
  simpl. rewrite list_lookup_fmap.
  destruct (v !! i) as [[a|]|]; simpl; [|done..].
  split.
  - intros [= E]. apply String.eqb_eq in E. by subst.
  - intros [= ->]. by rewrite String.eqb_refl.
Qed.

Lemma is_todos_false (t : string) : t <> "Todos" -> is_todos (SStr t) = false.
Proof. intros H. simpl. by apply String.eqb_neq. Qed.

(** X11. A topic other than the first entry of the box keeps the rows that
    carry exactly this topic, in the order of the catalogue; a row without
    a topic is never kept.  The first entry keeps every row, also when a
    topic of the catalogue has the same text. *)
Theorem topic_filter_rows (meta : Pandas.DataFrame) (v : list (option string))
    (t : string) :
  Pandas.assoc "dataset_tema" (Pandas.data meta) = Some (Pandas.StrCol v) ->
  t <> "Todos" ->
  (exists kept,
      topic_filter (SStr t) meta = Ok (Pandas.take_rows kept meta)
      /\ StronglySorted lt kept
      /\ forall i, i ∈ kept <-> v !! i = Some (Some t))
  /\ topic_filter (SStr "Todos") meta = Ok meta.
Proof.
  intros Hc Ht. split; [|done].
  unfold topic_filter, Pandas.getitem. rewrite (is_todos_false t Ht), Hc.
  eexists. split; [reflexivity|]. split; [apply mask_positions_sorted|].
  intros i. rewrite elem_of_mask_positions, Nat.sub_0_r.
  rewrite eq_scalar_text_lookup. split; [by intros [_ ?] | split; [lia | done]].
Qed.

Lemma topic_filter_rows_witness :
  (exists kept,
      topic_filter (SStr "Actividad") embedded_frame =
        Ok (Pandas.take_rows kept embedded_frame)
      /\ StronglySorted lt kept
      /\ forall i, i ∈ kept <-> [Some "Actividad"] !! i = Some (Some "Actividad"))
  /\ topic_filter (SStr "Todos") embedded_frame = Ok embedded_frame.
Proof.
  apply (topic_filter_rows embedded_frame [Some "Actividad"] "Actividad" eq_refl).
  discriminate.
Defined.

Lemma take_list_not_nil {A} (ix : list nat) (l : list A) (i : nat) :
  i ∈ ix -> i < length l -> Pandas.take_list ix l <> [].
Proof.
  intros Hi Hlt. destruct (lookup_lt_is_Some_2 l i Hlt) as [x Hx].
  assert (x ∈ Pandas.take_list ix l) as Hin.
  { unfold Pandas.take_list. rewrite list_elem_of_omap. by exists i. }
  intros E. rewrite E in Hin. by apply elem_of_nil in Hin.
Qed.

(** X12. No entry that the topic box takes from the catalogue leads to an
    empty table: for every topic listed by [all_topics] the filter returns at
    least one row. *)
Theorem topic_option_selects_rows (meta : Pandas.DataFrame)
    (v : list (option string)) (topics : list scalar) (s : scalar) :
  Pandas.assoc "dataset_tema" (Pandas.data meta) = Some (Pandas.StrCol v) ->
  length v = length (Pandas.index meta) ->
  all_topics meta = Ok topics ->
  s ∈ topics ->
  exists filtered,
    topic_filter s meta = Ok filtered /\ Pandas.index filtered <> [].
Proof.
  intros Hc Hlen Hall Hs.
  destruct (all_topics_text meta v Hc) as (ts & Hts & Hmem).
  rewrite Hts in Hall. injection Hall as <-.
  apply list_elem_of_fmap in Hs as (t & -> & Ht).
  apply Hmem in Ht. apply list_elem_of_lookup in Ht as [i Hi].
  assert (i < length (Pandas.index meta)) as Hlt.
  { rewrite <- Hlen. by apply lookup_lt_Some in Hi. }
  destruct (decide (t = "Todos")) as [->|Hne].
  - exists meta. split; [done|]. intros E. rewrite E in Hlt. simpl in Hlt. lia.
  - unfold topic_filter, Pandas.getitem. rewrite (is_todos_false t Hne), Hc.
    eexists. split; [reflexivity|].
    apply (take_list_not_nil _ _ i); [|done].
    rewrite elem_of_mask_positions, Nat.sub_0_r, eq_scalar_text_lookup.
    split; [lia | done].
Qed.

Lemma topic_option_selects_rows_witness :
  exists filtered,
    topic_filter (SStr "Actividad") embedded_frame = Ok filtered
    /\ Pandas.index filtered <> [].
Proof.
  apply (topic_option_selects_rows embedded_frame [Some "Actividad"]
           [SStr "Actividad"] (SStr "Actividad") eq_refl eq_refl eq_refl).
  apply list_elem_of_singleton. reflexivity.
Defined.

(** ** The default order *)

Lemma index_of_elem_of (x : string) (l : list string) :
  x ∈ l -> exists i, index_of x l = Some i /\ l !! i = Some x.
Proof.
  induction l as [|y l IH]; [by intros ?%elem_of_nil|].
  intros Hx. simpl. destruct (String.eqb y x) eqn:E.
  - apply String.eqb_eq in E as ->. by exists 0.
  - apply String.eqb_neq in E. apply elem_of_cons in Hx as [->|Hx]; [done|].
    destruct (IH Hx) as (i & -> & Hi). by exists (S i).
Qed.

Lemma default_order_col_eq (cols_for_sort : list string) :
  default_order_col cols_for_sort =
  if bool_decide ("consultas_90_dias" ∈ cols_for_sort)
  then Some "consultas_90_dias" else head cols_for_sort.
Proof.
  unfold default_order_col. case_bool_decide as Hin.
  - destruct (index_of_elem_of _ _ Hin) as (i & -> & Hi). exact Hi.
  - by destruct cols_for_sort.
Qed.

Lemma columns_take_rows (indexer : list nat) (df : Pandas.DataFrame) :
  Pandas.columns (Pandas.take_rows indexer df) = Pandas.columns df.
Proof.
  unfold Pandas.columns, Pandas.take_rows. simpl.
  rewrite map_map. by apply map_ext.
Qed.

Lemma topic_filter_columns (sel_topic : scalar) (meta filtered : Pandas.DataFrame) :
  topic_filter sel_topic meta = Ok filtered ->
  Pandas.columns filtered = Pandas.columns meta.
Proof.
  unfold topic_filter. destruct (is_todos sel_topic); [by intros [= ->]|].
  destruct (Pandas.getitem "dataset_tema" meta); [|done].
  intros [= <-]. apply columns_take_rows.
Qed.

Lemma text_filter_columns re_other (query : string) (df filtered : Pandas.DataFrame) :
  text_filter re_other query df = Ok filtered ->
  Pandas.columns filtered = Pandas.columns df.
Proof.
  unfold text_filter. destruct query; [by intros [= ->]|].
  destruct (Pandas.getitem "serie_titulo" df); [|done].
  destruct (str_contains re_other _ _); [|done].
  intros [= <-]. apply columns_take_rows.
Qed.

Lemma load_catalog_has_counts read_csv to_number requests (w w' : world)
    (meta : Pandas.DataFrame) :
  load_catalog read_csv to_number requests w = (Ok meta, w') ->
  "consultas_90_dias" ∈ Pandas.columns meta.
Proof.
  intros (bytes & raw & c & _ & _ & ->)%load_catalog_inv.
  destruct (decide ("consultas_90_dias" ∈ Pandas.columns
     (Pandas.setitem "consultas_90_dias"
        (Pandas.NumCol (map Some (coerced_counts to_number c)))
        (if Pandas.has_column "consultas_90_dias" raw then raw
         else Pandas.setitem "consultas_90_dias" (Pandas.scalar_column 0 raw) raw))))
    as [Hin|Hout]; [done|].
  apply assoc_None in Hout. simpl in Hout. by rewrite assoc_assign in Hout.
Qed.

(** X13. The order box starts on [consultas_90_dias] whenever the table has
    this column, and on the first column otherwise.  For a catalogue that
    [load_catalog] returned the column is there whatever the topic and the
    search text were, so the table is first shown ordered by the number of
    queries, and this sort raises no [KeyError]. *)
Theorem default_order_is_counts read_csv to_number requests re_other argsort
    (w w' : world) (meta f1 f2 : Pandas.DataFrame) (sel_topic : scalar)
    (query : string) (asc : bool) :
  load_catalog read_csv to_number requests w = (Ok meta, w') ->
  topic_filter sel_topic meta = Ok f1 ->
  text_filter re_other query f1 = Ok f2 ->
  default_order_col (Pandas.columns f2) = Some "consultas_90_dias"
  /\ (exists sorted, sort_values argsort "consultas_90_dias" asc f2 = Ok sorted)
  /\ (forall cols, "consultas_90_dias" ∉ cols -> default_order_col cols = head cols).
Proof.
  intros Hload Ht Hq.
  assert ("consultas_90_dias" ∈ Pandas.columns f2) as Hin.
  { rewrite (text_filter_columns _ _ _ _ Hq), (topic_filter_columns _ _ _ Ht).
    by eapply load_catalog_has_counts. }
  split; [|split].
  - by rewrite default_order_col_eq, bool_decide_eq_true_2.
  - unfold sort_values, Pandas.getitem.
    destruct (Pandas.assoc "consultas_90_dias" (Pandas.data f2)) as [[v|v]|] eqn:E;
      [by eexists.. |].
    by apply assoc_None in E.
  - intros cols Hout. by rewrite default_order_col_eq, bool_decide_eq_false_2.
Qed.

Lemma default_order_is_counts_witness :
  default_order_col (Pandas.columns embedded_frame) = Some "consultas_90_dias"
  /\ (exists sorted,
        sort_values argsort_ties_reversed "consultas_90_dias" false embedded_frame
        = Ok sorted)
  /\ (forall cols, "consultas_90_dias" ∉ cols -> default_order_col cols = head cols).
Proof.
  exact (default_order_is_counts Csv.read_csv Csv.parse_number None
           no_other_patterns argsort_ties_reversed
           empty_world (log missing_requests_warning empty_world)
           embedded_frame embedded_frame embedded_frame (SStr "Todos") "" false
           (load_catalog_fallback empty_world) eq_refl eq_refl).
Defined.

(** X14. What the two filters raise.  A topic other than the first entry
    needs the column [dataset_tema] and the search text, when it is not
    empty, needs a text column [serie_titulo]: [KeyError] for a column that
    is absent, [AttributeError] for titles that are numbers.  The first entry
    and the empty text ask for no column and never fail. *)
Theorem filters_raise re_other (sel_topic : scalar) (query : string)
    (df : Pandas.DataFrame) :
  (is_todos sel_topic = true -> topic_filter sel_topic df = Ok df)
  /\ (is_todos sel_topic = false ->
      "dataset_tema" ∉ Pandas.columns df ->
      topic_filter sel_topic df = Err (KeyError "dataset_tema")
      /\ all_topics df = Err (KeyError "dataset_tema"))
  /\ (is_todos sel_topic = false ->
      "dataset_tema" ∈ Pandas.columns df ->
      exists filtered, topic_filter sel_topic df = Ok filtered)
  /\ text_filter re_other "" df = Ok df
  /\ (query <> "" -> "serie_titulo" ∉ Pandas.columns df ->
      text_filter re_other query df = Err (KeyError "serie_titulo"))
  /\ (query <> "" ->
      forall v, Pandas.assoc "serie_titulo" (Pandas.data df) = Some (Pandas.NumCol v) ->
      text_filter re_other query df =
      Err (AttributeError "Can only use .str accessor with string values!")).
Proof.
  split; [|split; [|split; [|split; [|split]]]].
  - intros H. unfold topic_filter. by rewrite H.
  - intros H Hout. apply assoc_None in Hout.
    unfold topic_filter, all_topics, Pandas.getitem. by rewrite H, Hout.
  - intros H Hin. unfold topic_filter, Pandas.getitem. rewrite H.
    destruct (Pandas.assoc "dataset_tema" (Pandas.data df)) eqn:E; [by eexists|].
    by apply assoc_None in E.
  - done.
  - intros Hq Hout. apply assoc_None in Hout.
    unfold text_filter, Pandas.getitem. rewrite Hout. by destruct query.
  - intros Hq v Hv. unfold text_filter, Pandas.getitem. rewrite Hv.
    by destruct query.
Qed.

(** ** The row box *)

Lemma to_uint_not_nil (n : nat) : Nat.to_uint n <> Decimal.Nil.
Proof.
  intros E. pose proof (DecimalNat.Unsigned.of_to n) as H.
  rewrite E in H. simpl in H. subst n. discriminate.
Qed.

Lemma int_of_str_of_nat (n : nat) : int_of_str (str_of_nat n) = Some n.
Proof.
  unfold int_of_str, str_of_nat.
  rewrite DecimalString.NilZero.usu by apply to_uint_not_nil.
  simpl. by rewrite DecimalNat.Unsigned.of_to.
Qed.

Lemma str_of_nat_inj (n m : nat) : str_of_nat n = str_of_nat m -> n = m.
Proof.
  intros E. assert (Some n = Some m) as [=]; [|done].
  by rewrite <- !int_of_str_of_nat, E.
Qed.

Lemma int_of_no_choice : int_of_str no_choice = None.
Proof. reflexivity. Qed.

Lemma str_of_nat_not_no_choice (n : nat) : str_of_nat n <> no_choice.
Proof.
  intros E. pose proof (int_of_str_of_nat n) as H.
  rewrite E, int_of_no_choice in H. discriminate.
Qed.

(** X15. The entries of the row box.  After the first entry there is one
    entry per row, in the order of the table; [int] reads every such entry
    back as the label it was made from, no such entry is the text of the
    first one, and rows with different labels get different entries. *)
Theorem fila_labels_read_back (filtered : Pandas.DataFrame) :
  length (fila_labels filtered) = S (Pandas.nrows filtered)
  /\ fila_labels filtered !! 0 = Some no_choice
  /\ (forall pos, fila_labels filtered !! S pos =
                  str_of_nat <$> Pandas.index filtered !! pos)
  /\ (forall idx, int_of_str (str_of_nat idx) = Some idx)
  /\ (forall idx, str_of_nat idx <> no_choice)
  /\ (forall idx idx', str_of_nat idx = str_of_nat idx' -> idx = idx')
  /\ (NoDup (Pandas.index filtered) -> NoDup (fila_labels filtered)).
Proof.
  unfold fila_labels, Pandas.nrows.
  split; [by rewrite length_cons, length_map|].
  split; [done|].
  split; [intros pos; simpl; by rewrite <- list_lookup_fmap|].
  split; [apply int_of_str_of_nat|].
  split; [apply str_of_nat_not_no_choice|].
  split; [apply str_of_nat_inj|].
  intros Hnd. constructor.
  - intros (idx & E & _)%list_elem_of_fmap.
    by apply (str_of_nat_not_no_choice idx).
  - apply (NoDup_fmap_2 (A:=nat)); [|done]. intros a b. apply str_of_nat_inj.
Qed.

(** ** Rows found by their label *)

Lemma loc_at (df : Pandas.DataFrame) (pos idx : nat) :
  NoDup (Pandas.index df) ->
  Pandas.index df !! pos = Some idx ->
  list_find (fun l => l = idx) (Pandas.index df) = Some (pos, idx).
Proof.
  intros Hnd Hpos. apply list_find_Some. split; [done|]. split; [done|].
  intros j y Hj Hlt ->.
  pose proof (NoDup_lookup _ _ _ _ Hnd Hj Hpos). lia.
Qed.

Lemma value_at_is_Some (pos : nat) (c : Pandas.column) :
  pos < Pandas.col_length c -> is_Some (value_at pos c).
Proof.
  destruct c as [v|v]; simpl; intros H;
    destruct (lookup_lt_is_Some_2 v pos H) as [x ->]; by eexists.
Qed.

Lemma row_get_values (pos : nat) (name : string) (d : list (string * Pandas.column)) :
  Forall (fun nc => pos < Pandas.col_length nc.2) d ->
  row_get name (omap (fun nc => (fun v => (nc.1, v)) <$> value_at pos nc.2) d) =
  match Pandas.assoc name d with
  | Some c => match value_at pos c with
              | Some v => Ok v
              | None => Err (KeyError name)
              end
  | None => Err (KeyError name)
  end.
Proof.
  induction 1 as [|[n c] d Hc _ IH]; [done|].
  simpl in Hc. apply value_at_is_Some in Hc as [x Hx].
  change (omap ?f ((n, c) :: d)) with
    (match f (n, c) with Some y => y :: omap f d | None => omap f d end).
  cbn [fst snd]. rewrite Hx. simpl.
  destruct (String.eqb n name); [by rewrite Hx | exact IH].
Qed.

(** The cell of a rectangular frame with distinct labels. *)
Lemma row_value_at (df : Pandas.DataFrame) (pos idx : nat) (name : string) :
  rectangular df ->
  NoDup (Pandas.index df) ->
  Pandas.index df !! pos = Some idx ->
  row_value idx name df =
  match Pandas.assoc name (Pandas.data df) with
  | Some c => match value_at pos c with
              | Some v => Ok v
              | None => Err (KeyError name)
              end
  | None => Err (KeyError name)
  end.
Proof.
  intros Hrect Hnd Hpos. unfold row_value, loc.
  rewrite (loc_at df pos idx Hnd Hpos).
  apply row_get_values. unfold rectangular in Hrect.
  eapply Forall_impl; [exact Hrect|]. intros nc Hnc. simpl in Hnc.
  rewrite Hnc. by apply lookup_lt_Some in Hpos.
Qed.

Lemma value_at_take_column (ix : list nat) (c : Pandas.column) (j : nat) :
  Forall (fun i => i < Pandas.col_length c) ix ->
  value_at j (Pandas.take_column ix c) = ix !! j ≫= (fun p => value_at p c).
Proof.
  intros Hix. destruct c as [v|v]; simpl in *;
    rewrite (take_list_lookup ix v j Hix); by destruct (ix !! j).
Qed.

Lemma col_length_take_column (ix : list nat) (c : Pandas.column) :
  Forall (fun i => i < Pandas.col_length c) ix ->
  Pandas.col_length (Pandas.take_column ix c) = length ix.
Proof. destruct c; simpl; apply take_list_in_range. Qed.

Lemma NoDup_take_list {A} (ix : list nat) (l : list A) :
  NoDup l -> NoDup ix -> NoDup (Pandas.take_list ix l).
Proof.
  intros Hl Hix. unfold Pandas.take_list.
  induction Hix as [|i ix Hi Hix IH]; [constructor|].
  change (omap (l !!.) (i :: ix)) with
    (match l !! i with Some y => y :: omap (l !!.) ix | None => omap (l !!.) ix end).
  destruct (l !! i) as [x|] eqn:Hx; [|done].
  constructor; [|done].
  rewrite list_elem_of_omap. intros (j & Hj & Hxj).
  pose proof (NoDup_lookup _ _ _ _ Hl Hx Hxj). by subst.
Qed.

Lemma take_list_subseteq {A} (ix : list nat) (l : list A) :
  Pandas.take_list ix l ⊆ l.
Proof.
  intros x. unfold Pandas.take_list. rewrite list_elem_of_omap.
  intros (j & _ & Hj). by eapply list_elem_of_lookup_2.
Qed.

Lemma rows_of_refl (meta : Pandas.DataFrame) :
  rectangular meta -> NoDup (Pandas.index meta) -> NoDup (Pandas.columns meta) ->
  rows_of meta meta.
Proof. intros. repeat split; done. Qed.

Lemma rows_of_trans (a b c : Pandas.DataFrame) :
  rows_of a b -> rows_of b c -> rows_of a c.
Proof.
  intros (_ & _ & _ & Hi1 & Hc1 & Hv1) (Hr & Hn & Hnc & Hi2 & Hc2 & Hv2).
  split; [done|]. split; [done|]. split; [done|].
  split; [by etrans|]. split; [by etrans|].
  intros idx name Hin. rewrite (Hv2 idx name Hin). apply Hv1. by apply Hi2.
Qed.

(** Taking rows by distinct positions within the table. *)
Lemma rows_of_take_rows (ix : list nat) (df : Pandas.DataFrame) :
  rectangular df -> NoDup (Pandas.index df) -> NoDup (Pandas.columns df) ->
  NoDup ix ->
  Forall (fun i => i < length (Pandas.index df)) ix ->
  rows_of df (Pandas.take_rows ix df).
Proof.
  intros Hrect Hnd Hcols Hix Hrange.
  assert (rectangular (Pandas.take_rows ix df)) as Hrect'.
  { unfold rectangular, Pandas.take_rows. simpl.
    rewrite Forall_map. eapply Forall_impl; [exact Hrect|].
    intros [n c] Hc. simpl in *.
    rewrite col_length_take_column, take_list_in_range; [done|done|].
    by rewrite Hc. }
  assert (NoDup (Pandas.index (Pandas.take_rows ix df))) as Hnd'
    by by apply NoDup_take_list.
  split; [done|]. split; [done|].
  split; [by rewrite columns_take_rows|].
  split; [apply take_list_subseteq|].
  split; [by rewrite columns_take_rows|].
  intros idx name Hin.
  apply list_elem_of_lookup in Hin as [j Hj].
  rewrite (row_value_at _ j idx name Hrect' Hnd' Hj).
  simpl in Hj. rewrite (take_list_lookup ix _ j Hrange) in Hj.
  destruct (ix !! j) as [p|] eqn:Hp; [|done]. simpl in Hj.
  rewrite (row_value_at df p idx name Hrect Hnd Hj).
  rewrite assoc_take_rows.
  destruct (Pandas.assoc name (Pandas.data df)) as [c|] eqn:Hc; [|done].
  simpl. rewrite value_at_take_column, Hp; [done|].
  assert (Pandas.col_length c = length (Pandas.index df)) as ->; [|done].
  unfold rectangular in Hrect. rewrite Forall_forall in Hrect.
  apply (Hrect (name, c)).
  apply assoc_elem_of; done.
Qed.

Lemma StronglySorted_lt_NoDup (l : list nat) : StronglySorted lt l -> NoDup l.
Proof.
  induction 1 as [|x l _ IH Hx]; constructor; [|done].
  intros Hin. rewrite Forall_forall in Hx. specialize (Hx _ Hin). lia.
Qed.

Lemma rows_of_select_mask (mask : list bool) (df : Pandas.DataFrame) :
  rectangular df -> NoDup (Pandas.index df) -> NoDup (Pandas.columns df) ->
  length mask = length (Pandas.index df) ->
  rows_of df (Pandas.select_mask mask df).
Proof.
  intros Hrect Hnd Hcols Hlen. apply rows_of_take_rows; try done.
  - apply StronglySorted_lt_NoDup, mask_positions_sorted.
  - rewrite <- Hlen. apply (mask_positions_bound 0).
Qed.

Lemma rectangular_column (df : Pandas.DataFrame) (name : string) (c : Pandas.column) :
  rectangular df -> NoDup (Pandas.columns df) ->
  Pandas.assoc name (Pandas.data df) = Some c ->
  Pandas.col_length c = length (Pandas.index df).
Proof.
  intros Hrect Hcols Hc. unfold rectangular in Hrect.
  rewrite Forall_forall in Hrect. apply (Hrect (name, c)).
  by apply assoc_elem_of.
Qed.

Lemma eq_scalar_length (c : Pandas.column) (x : scalar) :
  length (eq_scalar c x) = Pandas.col_length c.
Proof. destruct c, x; simpl; by rewrite length_map. Qed.

Lemma contains_mask_length re_other (pat : string) (vals : list (option string))
    (mask : list bool) :
  contains_mask re_other pat vals = Ok mask -> length mask = length vals.
Proof.
  revert mask. induction vals as [|o vals IH]; intros mask; simpl.
  - by intros [= <-].
  - destruct (match o with Some t => _ | None => _ end) as [b|]; [|done].
    destruct (contains_mask re_other pat vals) as [m|]; [|done].
    intros [= <-]. simpl. by rewrite (IH m).
Qed.

Lemma rows_of_topic_filter (sel_topic : scalar) (meta filtered : Pandas.DataFrame) :
  rectangular meta -> NoDup (Pandas.index meta) -> NoDup (Pandas.columns meta) ->
  topic_filter sel_topic meta = Ok filtered ->
  rows_of meta filtered.
Proof.
  intros Hrect Hnd Hcols. unfold topic_filter, Pandas.getitem.
  destruct (is_todos sel_topic); [intros [= <-]; by apply rows_of_refl|].
  destruct (Pandas.assoc "dataset_tema" (Pandas.data meta)) as [c|] eqn:Hc; [|done].
  intros [= <-]. apply rows_of_select_mask; try done.
  rewrite eq_scalar_length. by eapply rectangular_column.
Qed.

Lemma rows_of_text_filter re_other (query : string) (df filtered : Pandas.DataFrame) :
  rectangular df -> NoDup (Pandas.index df) -> NoDup (Pandas.columns df) ->
  text_filter re_other query df = Ok filtered ->
  rows_of df filtered.
Proof.
  intros Hrect Hnd Hcols. unfold text_filter, Pandas.getitem.
  destruct query as [|a q]; [intros [= <-]; by apply rows_of_refl|].
  destruct (Pandas.assoc "serie_titulo" (Pandas.data df)) as [c|] eqn:Hc; [|done].
  destruct c as [v|v]; [done|]. simpl.
  destruct (contains_mask re_other (String a q) v) as [mask|] eqn:Hm; [|done].
  intros [= <-]. apply rows_of_select_mask; try done.
  rewrite (contains_mask_length _ _ _ _ Hm).
  by apply (rectangular_column df "serie_titulo" (Pandas.StrCol v)).
Qed.

Lemma rows_of_sort_values argsort (order_col : string) (asc : bool)
    (df sorted : Pandas.DataFrame) :
  sorts argsort ->
  rectangular df -> NoDup (Pandas.index df) -> NoDup (Pandas.columns df) ->
  sort_values argsort order_col asc df = Ok sorted ->
  rows_of df sorted.
Proof.
  intros Hsorts Hrect Hnd Hcols. unfold sort_values, Pandas.getitem.
  destruct (Pandas.assoc order_col (Pandas.data df)) as [c|] eqn:Hc; [|done].
  pose proof (rectangular_column df order_col c Hrect Hcols Hc) as Hlen.
  destruct c as [v|v]; intros [= <-]; simpl in Hlen.
  - destruct (nargsort_spec Qle_bool Qle_bool_total Qle_bool_trans argsort Hsorts v asc)
      as (Hperm & _).
    apply rows_of_take_rows; try done.
    + rewrite Hperm. apply NoDup_seq.
    + rewrite Hperm, <- Hlen. apply Forall_forall. intros i Hi%elem_of_seq. lia.
  - destruct (nargsort_spec String.leb String.leb_total string_leb_trans argsort
                Hsorts v asc) as (Hperm & _).
    apply rows_of_take_rows; try done.
    + rewrite Hperm. apply NoDup_seq.
    + rewrite Hperm, <- Hlen. apply Forall_forall. intros i Hi%elem_of_seq. lia.
Qed.

Lemma rows_of_reorder_columns (df view : Pandas.DataFrame) :
  rectangular df -> NoDup (Pandas.index df) -> NoDup (Pandas.columns df) ->
  reorder_columns preferred_order df = Ok view ->
  rows_of df view.
Proof.
  intros Hrect Hnd Hcols Hre.
  destruct (reorder_columns_ok preferred_order df preferred_order_distinct Hcols)
    as (df' & Hok & _ & Hperm & Hidx).
  rewrite Hok in Hre. injection Hre as ->.
  assert (Pandas.columns view ≡ₚ Pandas.columns df) as Hcp
    by (unfold Pandas.columns; by rewrite Hperm).
  assert (rectangular view) as Hrect'.
  { unfold rectangular. rewrite Hidx, Hperm. exact Hrect. }
  assert (NoDup (Pandas.index view)) as Hnd' by by rewrite Hidx.
  split; [done|]. split; [done|]. split; [by rewrite Hcp|].
  split; [by rewrite Hidx|]. split; [done|].
  intros idx name Hin. apply list_elem_of_lookup in Hin as [j Hj].
  rewrite (row_value_at view j idx name Hrect' Hnd' Hj).
  rewrite Hidx in Hj. rewrite (row_value_at df j idx name Hrect Hnd Hj).
  rewrite (assoc_Permutation (Pandas.data view) (Pandas.data df) name); [done| |done].
  by rewrite Hperm.
Qed.

(** X16. The table that is shown holds rows of the catalogue.  For a
    catalogue with one entry per row in every column, distinct row labels
    and distinct column names, whatever the topic, the search text, the
    order column and the direction: the labels of the table are distinct
    labels of the catalogue, its columns are those of the catalogue in some
    order, and the cell found by a label and a column name holds what the
    catalogue holds there.  So the number typed in the row box picks the
    series the catalogue has under this label. *)
Theorem catalog_view_keeps_rows re_other argsort (sel_topic : scalar)
    (query order_col : string) (asc : bool) (meta view : Pandas.DataFrame) :
  sorts argsort ->
  rectangular meta ->
  NoDup (Pandas.index meta) ->
  NoDup (Pandas.columns meta) ->
  catalog_view re_other argsort sel_topic query order_col asc meta = Ok view ->
  rectangular view
  /\ NoDup (Pandas.index view)
  /\ Pandas.index view ⊆ Pandas.index meta
  /\ Pandas.columns view ≡ₚ Pandas.columns meta
  /\ forall idx name,
       idx ∈ Pandas.index view -> row_value idx name view = row_value idx name meta.
Proof.
  intros Hsorts Hrect Hnd Hcols. unfold catalog_view.
  destruct (topic_filter sel_topic meta) as [f1|] eqn:H1; [|done].
  destruct (text_filter re_other query f1) as [f2|] eqn:H2; [|done].
  destruct (sort_values argsort order_col asc f2) as [f3|] eqn:H3; [|done].
  intros H4.
  pose proof (rows_of_topic_filter _ _ _ Hrect Hnd Hcols H1) as R1.
  pose proof R1 as (Hr1 & Hn1 & Hc1 & _).
  pose proof (rows_of_text_filter _ _ _ _ Hr1 Hn1 Hc1 H2) as R2.
  pose proof R2 as (Hr2 & Hn2 & Hc2 & _).
  pose proof (rows_of_sort_values _ _ _ _ _ Hsorts Hr2 Hn2 Hc2 H3) as R3.
  pose proof R3 as (Hr3 & Hn3 & Hc3 & _).
  pose proof (rows_of_reorder_columns _ _ Hr3 Hn3 Hc3 H4) as R4.
  destruct (rows_of_trans _ _ _ (rows_of_trans _ _ _ (rows_of_trans _ _ _ R1 R2) R3) R4)
    as (? & ? & ? & ? & ? & ?).
  done.
Qed.

Lemma rectangular_embedded : rectangular embedded_frame.
Proof. repeat constructor. Qed.

Lemma catalog_view_keeps_rows_witness :
  exists view,
    catalog_view no_other_patterns argsort_ties_reversed
      (SStr "Actividad") "ejemplo" "consultas_90_dias" false embedded_frame = Ok view
    /\ Pandas.index view ⊆ Pandas.index embedded_frame
    /\ row_value 0 "serie_id" view = Ok (Some (SStr "TEST123")).
Proof.
  eexists. split; [vm_compute; reflexivity|].
  assert (NoDup (Pandas.index embedded_frame)) as Hnd
    by (apply (bool_decide_unpack _); vm_compute; exact I).
  assert (NoDup (Pandas.columns embedded_frame)) as Hcols
    by (apply (bool_decide_unpack _); vm_compute; exact I).
  destruct (catalog_view_keeps_rows no_other_patterns argsort_ties_reversed
              (SStr "Actividad") "ejemplo" "consultas_90_dias" false embedded_frame _
              argsort_ties_reversed_ok rectangular_embedded Hnd Hcols eq_refl)
    as (_ & _ & Hsub & _ & Hval).
  split; [exact Hsub|].
  rewrite Hval; [reflexivity|]. apply list_elem_of_singleton. reflexivity.
Defined.

Lemma row_labels_all (pos : nat) (d : list (string * Pandas.column)) :
  Forall (fun nc => pos < Pandas.col_length nc.2) d ->
  map fst (omap (fun nc => (fun v => (nc.1, v)) <$> value_at pos nc.2) d) = map fst d.
Proof.
  induction 1 as [|[n c] d Hc _ IH]; [done|].
  simpl in Hc. apply value_at_is_Some in Hc as [x Hx].
  change (omap ?f ((n, c) :: d)) with
    (match f (n, c) with Some y => y :: omap f d | None => omap f d end).
  cbn [fst snd]. rewrite Hx. simpl. by rewrite IH.
Qed.

(** X17. In a table with distinct row labels every entry of the row box
    but the first names a row: [int] reads it as a label of the table and
    [loc] finds a row under this label, so neither raises; in a table with
    one entry per row in every column the row has a value for each column. *)
Theorem row_choice_names_a_row (filtered : Pandas.DataFrame) (sel_fila : string) :
  NoDup (Pandas.index filtered) ->
  sel_fila ∈ fila_labels filtered ->
  sel_fila <> no_choice ->
  exists idx row,
    int_of_str sel_fila = Some idx
    /\ idx ∈ Pandas.index filtered
    /\ loc idx filtered = Ok row
    /\ (rectangular filtered -> map fst row = Pandas.columns filtered).
Proof.
  unfold fila_labels. intros _ [->|Hin]%elem_of_cons Hne; [done|].
  apply list_elem_of_fmap in Hin as (idx & -> & Hidx).
  exists idx. unfold loc.
  destruct (list_find (fun l => l = idx) (Pandas.index filtered)) as [[pos l]|] eqn:Hf.
  - eexists. split; [apply int_of_str_of_nat|]. split; [done|].
    split; [reflexivity|]. intros Hrect.
    apply list_find_Some in Hf as (Hpos & _ & _).
    apply row_labels_all. eapply Forall_impl; [exact Hrect|].
    intros nc Hnc. simpl in Hnc. rewrite Hnc. by apply lookup_lt_Some in Hpos.
  - exfalso. apply list_find_None in Hf. rewrite Forall_forall in Hf.
    by apply (Hf idx).
Qed.

Lemma row_choice_names_a_row_witness :
  exists idx row,
    int_of_str "0" = Some idx
    /\ idx ∈ Pandas.index embedded_frame
    /\ loc idx embedded_frame = Ok row
    /\ (rectangular embedded_frame -> map fst row = Pandas.columns embedded_frame).
Proof.
  apply (row_choice_names_a_row embedded_frame "0").
  - apply (bool_decide_unpack _). vm_compute. exact I.
  - apply elem_of_cons. right. apply list_elem_of_singleton. reflexivity.
  - discriminate.
Defined.

(** ** The column order, whatever the labels *)

Lemma elem_of_with_label (d : list (string * Pandas.column)) (n : string)
    (x : string * Pandas.column) :
  x ∈ Pandas.with_label d n <-> x ∈ d /\ x.1 = n.
Proof. unfold Pandas.with_label. rewrite list_elem_of_filter. tauto. Qed.

Lemma with_label_labels (d : list (string * Pandas.column)) (n : string) :
  Forall (fun x => x.1 = n) (Pandas.with_label d n).
Proof. apply Forall_forall. by intros x [_ ?]%elem_of_with_label. Qed.

Lemma with_label_present (d : list (string * Pandas.column)) (n : string) :
  n ∈ map fst d -> exists c l, Pandas.with_label d n = (n, c) :: l.
Proof.
  intros ([m c] & -> & Hin)%list_elem_of_fmap. simpl.
  destruct (Pandas.with_label d m) as [|[m' c'] l] eqn:E.
  - assert ((m, c) ∈ Pandas.with_label d m) as H
      by by apply elem_of_with_label.
    rewrite E in H. by apply elem_of_nil in H.
  - pose proof (with_label_labels d m) as H. rewrite E in H.
    apply Forall_cons in H as [H _]. simpl in H. subst. by eexists _, _.
Qed.

Lemma sort_values_columns argsort (order_col : string) (asc : bool)
    (df sorted : Pandas.DataFrame) :
  sort_values argsort order_col asc df = Ok sorted ->
  Pandas.columns sorted = Pandas.columns df.
Proof.
  unfold sort_values. destruct (Pandas.getitem order_col df) as [[v|v]|]; [| |done];
    intros [= <-]; apply columns_take_rows.
Qed.

Lemma reorder_columns_any (preferred : list string) (df : Pandas.DataFrame) :
  exists df',
    reorder_columns preferred df = Ok df'
    /\ Pandas.index df' = Pandas.index df
    /\ (forall x, x ∈ Pandas.data df' <-> x ∈ Pandas.data df)
    /\ (forall p rest, preferred = p :: rest -> p ∈ Pandas.columns df ->
        head (Pandas.columns df') = Some p).
Proof.
  unfold reorder_columns, Pandas.select_columns.
  set (ep := filter (fun c => c ∈ Pandas.columns df) preferred).
  set (rc := filter (fun c => c ∉ ep) (Pandas.columns df)).
  assert (forall n, n ∈ ep ++ rc <-> n ∈ Pandas.columns df) as Hnames.
  { intros n. rewrite elem_of_app. unfold rc.
    rewrite list_elem_of_filter. split.
    - intros [Hn|[_ Hn]]; [|done]. unfold ep in Hn.
      by apply list_elem_of_filter in Hn as [? _].
    - intros Hn. destruct (decide (n ∈ ep)); [by left | by right]. }
  rewrite select_columns_data_bind by (intros n Hn; by apply Hnames).
  eexists. split; [reflexivity|]. split; [done|]. split.
  - intros x. cbn [Pandas.data]. rewrite list_elem_of_bind. split.
    + by intros (n & [? _]%elem_of_with_label & _).
    + intros Hx. exists x.1. split; [by apply elem_of_with_label|].
      apply Hnames. apply list_elem_of_fmap. by exists x.
  - intros p rest -> Hp. unfold ep. rewrite filter_cons_True by done.
    destruct (with_label_present (Pandas.data df) p Hp) as (c & l & E).
    unfold Pandas.columns at 1. cbn [Pandas.data]. rewrite <- app_comm_cons.
    by rewrite bind_cons, E.
Qed.

(** X18. Reordering never fails, for any table and any preferred list,
    labels that repeat included: the rows are untouched, the table keeps
    exactly the columns it had, and a first preferred label that the table
    has is the label of its first column.  So the table shown for a
    catalogue that [load_catalog] returned always starts with the column
    [consultas_90_dias]. *)
Theorem reorder_columns_never_fails read_csv to_number requests re_other argsort
    (preferred : list string) (df : Pandas.DataFrame) :
  (exists df',
      reorder_columns preferred df = Ok df'
      /\ Pandas.index df' = Pandas.index df
      /\ (forall x, x ∈ Pandas.data df' <-> x ∈ Pandas.data df)
      /\ (forall p rest, preferred = p :: rest -> p ∈ Pandas.columns df ->
          head (Pandas.columns df') = Some p))
  /\ (forall w w' meta sel_topic query order_col asc view,
        load_catalog read_csv to_number requests w = (Ok meta, w') ->
        catalog_view re_other argsort sel_topic query order_col asc meta = Ok view ->
        head (Pandas.columns view) = Some "consultas_90_dias").
Proof.
  split; [apply reorder_columns_any|].
  intros w w' meta sel_topic query order_col asc view Hload. unfold catalog_view.
  destruct (topic_filter sel_topic meta) as [f1|] eqn:H1; [|done].
  destruct (text_filter re_other query f1) as [f2|] eqn:H2; [|done].
  destruct (sort_values argsort order_col asc f2) as [f3|] eqn:H3; [|done].
  intros H4.
  destruct (reorder_columns_any preferred_order f3) as (df' & Hok & _ & _ & Hhead).
  rewrite Hok in H4. injection H4 as ->.
  apply (Hhead _ _ eq_refl).
  rewrite (sort_values_columns _ _ _ _ _ H3), (text_filter_columns _ _ _ _ H2),
    (topic_filter_columns _ _ _ H1).
  by eapply load_catalog_has_counts.
Qed.

(** ** A press of the save button that fails *)

(** X19. A press of the save button stops at the first step that fails and
    reports it in the sidebar; it never raises.  When the download fails,
    or the CSV cannot be written, no file is touched and no process is run.
    When the script is missing and cannot be written, the CSV stays
    written, the saved message stays shown, and no process is run. *)
Theorem save_stops_at_first_failure requests subprocess_run
    (app_dir sys_executable today serie_id serie_titulo start_date end_date : string)
    (w : world) :
  (forall e w1,
      download_series requests
        (build_api_url serie_id (date_arg start_date) (date_arg end_date)) w
        = (Err e, w1) ->
      save_selected requests subprocess_run app_dir sys_executable today
        serie_id serie_titulo start_date end_date w =
      (Ok tt,
       log (Shown Sidebar Error
              ("Error al guardar o ejecutar en servidor: " +:+ exn_str e)) w1)
      /\ fs w1 = fs w)
  /\ (forall text w1,
        download_series requests
          (build_api_url serie_id (date_arg start_date) (date_arg end_date)) w
          = (Ok text, w1) ->
        writable (fs w)
          (path_join (DL_DIR app_dir) (fname serie_titulo start_date end_date)) = false ->
        save_selected requests subprocess_run app_dir sys_executable today
          serie_id serie_titulo start_date end_date w =
        (Ok tt,
         log (Shown Sidebar Error
                ("Error al guardar o ejecutar en servidor: " +:+
                 exn_str (OSError (path_join (DL_DIR app_dir)
                                     (fname serie_titulo start_date end_date))))) w1)
        /\ fs w1 = fs w)
  /\ (forall text w1,
        download_series requests
          (build_api_url serie_id (date_arg start_date) (date_arg end_date)) w
          = (Ok text, w1) ->
        writable (fs w)
          (path_join (DL_DIR app_dir) (fname serie_titulo start_date end_date)) = true ->
        path_exists (path_join (SCRIPTS_DIR app_dir) (script_name serie_titulo)) (fs w)
          = false ->
        writable (fs w) (path_join (SCRIPTS_DIR app_dir) (script_name serie_titulo))
          = false ->
        save_selected requests subprocess_run app_dir sys_executable today
          serie_id serie_titulo start_date end_date w =
        (Ok tt,
         {| fs := {| files :=
                       <[path_join (DL_DIR app_dir)
                           (fname serie_titulo start_date end_date) := text]>
                         (files (fs w));
                     dirs := dirs (fs w);
                     writable := writable (fs w) |};
            trace :=
              trace w1 ++
              [Wrote (path_join (DL_DIR app_dir)
                        (fname serie_titulo start_date end_date)) text;
               Shown Sidebar Success
                 ("✅ Guardado en servidor: descargas/" +:+
                  fname serie_titulo start_date end_date);
               Shown Sidebar Error
                 ("Error al guardar o ejecutar en servidor: " +:+
                  exn_str (OSError (path_join (SCRIPTS_DIR app_dir)
                                      (script_name serie_titulo))))] |})).
Proof.
  split; [|split].
  - intros e w1 Hdl. split; [|by apply download_series_trace in Hdl as [? _]].
    unfold save_selected, save_on_server, try_except, save_file.
    unfold bind at 1. unfold bind at 1. rewrite Hdl. reflexivity.
  - intros text w1 Hdl Hwr.
    apply download_series_trace in Hdl as Hfs. destruct Hfs as [Hfs _].
    split; [|done].
    unfold save_selected, save_on_server, try_except, save_file.
    unfold bind at 1. unfold bind at 1. rewrite Hdl.
    unfold bind at 1. unfold write_file. fold (fname serie_titulo start_date end_date).
    rewrite Hfs, Hwr. reflexivity.
  - intros text w1 Hdl Hwr Hex Hsw.
    apply download_series_trace in Hdl as Hfs. destruct Hfs as [Hfs _].
    unfold save_selected, save_on_server, try_except, save_file.
    unfold bind at 1. unfold bind at 1. rewrite Hdl.
    unfold bind at 1. unfold write_file at 1.
    fold (fname serie_titulo start_date end_date).
    rewrite Hfs, Hwr. unfold bind at 1. unfold emit at 1. unfold ret at 1.
    unfold ensure_script, os_path_exists. unfold bind at 1. unfold bind at 1.
    cbn [fs trace log].
    fold (script_name_of (slugify serie_titulo)). fold (script_name serie_titulo).
    rewrite path_exists_insert, Hex.
    rewrite bool_decide_eq_false_2.
    2:{ intros E. symmetry in E. revert E. apply csv_path_not_script. }
    cbn [orb negb]. unfold bind at 1. unfold bind at 1. unfold write_file, log.
    cbn [fs writable]. rewrite Hsw. unfold emit, log. cbn [fs trace].
    by rewrite <- !app_assoc.
Qed.

(** ** The process is run on files that are in place *)

(** X20. Whatever happens, a press of the save button returns normally.
    When it runs a process, it runs one only, on the script and the CSV of
    the selected series, and by then the CSV was downloaded, written and
    reported, and the script was either found or written and reported; the
    last message tells how the process ended. *)
Theorem process_runs_after_the_files requests subprocess_run
    (app_dir sys_executable today serie_id serie_titulo start_date end_date : string)
    (w w' : world) (r : result unit) :
  save_selected requests subprocess_run app_dir sys_executable today
    serie_id serie_titulo start_date end_date w = (r, w') ->
  r = Ok tt
  /\ exists added,
       trace w' = trace w ++ added
       /\ forall argv rc,
            Ran argv rc ∈ added ->
            exists text mid last,
              added =
                [Fetched (build_api_url serie_id (date_arg start_date) (date_arg end_date));
                 Wrote (path_join (DL_DIR app_dir)
                          (fname serie_titulo start_date end_date)) text;
                 Shown Sidebar Success
                   ("✅ Guardado en servidor: descargas/" +:+
                    fname serie_titulo start_date end_date)]
                ++ mid ++
                [Ran [sys_executable;
                      path_join (SCRIPTS_DIR app_dir) (script_name serie_titulo);
                      path_join (DL_DIR app_dir)
                        (fname serie_titulo start_date end_date)] rc;
                 last]
              /\ argv = [sys_executable;
                         path_join (SCRIPTS_DIR app_dir) (script_name serie_titulo);
                         path_join (DL_DIR app_dir)
                           (fname serie_titulo start_date end_date)]
              /\ (mid = []
                  \/ mid =
                     [Wrote (path_join (SCRIPTS_DIR app_dir) (script_name serie_titulo))
                        (script_text (script_name serie_titulo) serie_titulo today);
                      Shown Sidebar Success
                        ("✅ Script creado: scripts_series/" +:+
                         script_name serie_titulo)])
              /\ ((rc = 0%Z
                   /\ last = Shown Sidebar Success "✅ Script ejecutado correctamente")
                  \/ (rc <> 0%Z
                      /\ exists err,
                           last = Shown Sidebar Error
                                    ("⚠️ Error al ejecutar script:" +:+ nl +:+ err))).
Proof.
  unfold save_selected, save_on_server, try_except, save_file, ensure_script,
    run_script, run_process, download_series, requests_get, raise_for_status,
    os_path_exists, write_file, bind, emit, raise, ret, log.
  fold (fname serie_titulo start_date end_date).
  fold (script_name_of (slugify serie_titulo)). fold (script_name serie_titulo).
  cbn [fs trace writable].
  repeat match goal with
         | |- context [match ?b with _ => _ end] =>
             match type of b with
             | option _ => destruct b
             | sum _ _ => destruct b
             | bool => destruct b eqn:?
             | result _ => destruct b as [[? ?]|?]
             end; cbn [fs trace writable negb]
         end;
    intros [= <- <-]; (split; [reflexivity|]); cbn [trace];
    rewrite <- ?app_assoc; (eexists; split; [reflexivity|]);
    intros argv rc Hin; simpl in Hin;
    repeat (apply elem_of_cons in Hin as [Hin|Hin]; [try discriminate Hin|]);
    try (by apply elem_of_nil in Hin);
    injection Hin as -> ->.
  all: first [ eexists _, [], _; split; [reflexivity|]
             | eexists _, [_; _], _; split; [reflexivity|] ].
  all: split; [reflexivity|].
  all: split; [first [by left | by right] |].
  all: first [ left; split; [by apply Z.eqb_eq | reflexivity]
             | right; split; [by apply Z.eqb_neq | by eexists] ].
Qed.

Lemma process_runs_after_the_files_witness :
  (save_selected (Some (server_with "fecha,valor")) (process_exiting 0 "")
     "/srv/app" "python3" "2025-01-01" "TEST123" "Serie de ejemplo" "" ""
     empty_world).1 = Ok tt
  /\ exists added,
       trace (save_selected (Some (server_with "fecha,valor")) (process_exiting 0 "")
                "/srv/app" "python3" "2025-01-01" "TEST123" "Serie de ejemplo" "" ""
                empty_world).2 = trace empty_world ++ added.
Proof.
  destruct (process_runs_after_the_files
              (Some (server_with "fecha,valor")) (process_exiting 0 "")
              "/srv/app" "python3" "2025-01-01" "TEST123" "Serie de ejemplo" "" ""
              empty_world _ _ (surjective_pairing _)) as (Hr & added & Ht & _).
  split; [exact Hr|]. exists added. exact Ht.
Defined.

(** ** The self test of the module *)

(** X21. The assertion of the command-line test holds for every
    identifier that needs no escaping, [ABC] included: the URL built
    without dates ends with [ids=] followed by the identifier. *)
Theorem cli_test_holds (serie_id : string) :
  Py.all_chars Urllib.always_safe serie_id = true ->
  Py.endswith (build_api_url serie_id None None) ("ids=" +:+ serie_id) = true.
Proof.
  intros Hsafe. rewrite build_api_url_eq, (quote_plus_safe _ Hsafe).
  change (optional_param _ None) with "". rewrite !append_empty_r.
  apply (endswith_app API_BASE).
Qed.

Lemma cli_test_holds_witness :
  Py.endswith (build_api_url "ABC" None None) "ids=ABC" = true.
Proof. exact (cli_test_holds "ABC" eq_refl). Defined.

(** ** Requests made by a run *)

Lemma no_choice_not_label (idx : nat) : String.eqb (str_of_nat idx) no_choice = false.
Proof. apply String.eqb_neq, str_of_nat_not_no_choice. Qed.

(** X22. One run of the download section on a chosen row, with [requests]
    installed.  When the title of the row is a text, the run requests the
    series for the local download button, pressed or not, so a run with the
    save button pressed requests the same URL twice and no other, and the run
    returns normally.  When the title is missing or a number, [slugify]
    raises [AttributeError] outside every [try]: the run stops there, before
    any request, with nothing shown.  On the first entry of the row box the
    run only shows the info message. *)
Theorem chosen_row_is_downloaded_each_run (rq : requests_module) subprocess_run
    (app_dir sys_executable today : string) (str_of_number type_of_number : Q -> string)
    (filtered : Pandas.DataFrame) (idx : nat) (row : list (string * option scalar))
    (sel_id title : option scalar) (start_date end_date : string)
    (pressed : bool) (w w' : world) (r : result unit) :
  loc idx filtered = Ok row ->
  row_get "serie_id" row = Ok sel_id ->
  row_get "serie_titulo" row = Ok title ->
  download_section (Some rq) subprocess_run app_dir sys_executable today
    str_of_number type_of_number filtered (str_of_nat idx) start_date end_date
    pressed w = (r, w') ->
  match title with
  | Some (SStr _) =>
      r = Ok tt
      /\ exists added,
           trace w' = trace w ++ added
           /\ fetched added =
              replicate (if pressed then 2 else 1)
                (build_api_url (str_of_cell str_of_number sel_id)
                   (date_arg start_date) (date_arg end_date))
  | _ => (exists msg, r = Err (AttributeError msg)) /\ w' = w
  end
  /\ download_section (Some rq) subprocess_run app_dir sys_executable today
       str_of_number type_of_number filtered no_choice start_date end_date pressed w =
     (Ok tt,
      log (Shown Sidebar Info
             "Selecciona una fila para activar las opciones de descarga.") w).
Proof.
  intros Hloc Hid Htitle H. split; [|reflexivity]. revert H.
  unfold download_section. rewrite no_choice_not_label. cbn [negb].
  unfold int_of_label. rewrite int_of_str_of_nat.
  unfold bind at 1. unfold lift at 1.
  unfold bind at 1. unfold lift at 1. rewrite Hloc.
  unfold bind at 1. unfold lift at 1. rewrite Hid.
  unfold bind at 1. unfold lift at 1. unfold row_attr. rewrite Htitle.
  unfold bind at 1. unfold lift at 1.
  destruct title as [[q|t]|]; cbn [slugify_cell].
  1,3: intros [= <- <-]; split; [by eexists | done].
  unfold local_download, save_on_server,
    try_except, save_file, ensure_script,
    run_script, run_process, download_series, requests_get, raise_for_status,
    os_path_exists, write_file, bind, emit, raise, ret, log.
  cbn [fs trace writable].
  destruct pressed.
  all: repeat match goal with
         | |- context [match ?b with _ => _ end] =>
             match type of b with
             | option _ => destruct b
             | sum _ _ => destruct b
             | bool => destruct b eqn:?
             | result _ => destruct b as [[? ?]|?]
             end; cbn [fs trace writable negb]
         end.
  all: intros [= <- <-]; (split; [reflexivity|]).
  all: cbn [trace]; rewrite <- ?app_assoc; (eexists; split; [reflexivity|]).
  all: reflexivity.
Qed.

Lemma chosen_row_is_downloaded_each_run_witness :
  exists added,
    trace (download_section (Some (server_with "fecha,valor")) (process_exiting 0 "")
             "/srv/app" "python3" "2025-01-01" (fun _ => "") (fun _ => "float")
             embedded_frame "0" "" "" true empty_world).2 = trace empty_world ++ added
    /\ fetched added =
       replicate 2 (build_api_url "TEST123" (date_arg "") (date_arg "")).
Proof.
  destruct (chosen_row_is_downloaded_each_run
              (server_with "fecha,valor") (process_exiting 0 "")
              "/srv/app" "python3" "2025-01-01" (fun _ => "") (fun _ => "float")
              embedded_frame 0 _ (Some (SStr "TEST123")) (Some (SStr "Serie de ejemplo"))
              "" "" true empty_world _ _ eq_refl eq_refl eq_refl (surjective_pairing _))
    as ((_ & added & Ht & Hf) & _).
  exists added. split; [exact Ht | exact Hf].
Defined.

